(** * Interest-profile and ad-ranking engine of the citizen-services portal

    Shallow embedding of [src/ai_categorizer.py], [src/search_tracker.py],
    [src/ad_matcher.py] and the handlers of [src/app.py] that write
    categories and ad clicks.  Python dicts are modelled as association
    lists kept in insertion order (their iteration order drives the
    tie-breaks of [sorted] and [Counter.most_common]); MongoDB collections
    are lists in natural (insertion) order; timestamps are integer seconds
    since the epoch. *)

From Stdlib Require Import String Ascii List ZArith Bool Lia Permutation.
From Stdlib Require Import QArith Sorted.
Import ListNotations.
Open Scope string_scope.
Open Scope list_scope.
Open Scope Z_scope.

(* ------------------------------------------------------------------ *)
(** ** Python string and container helpers *)

Module Py.

(** [s.startswith(p)] *)
Fixpoint starts_with (p s : string) : bool :=
  match p, s with
  | EmptyString, _ => true
  | String a p', String b s' => Ascii.eqb a b && starts_with p' s'
  | _, _ => false
  end.

(** [sub in s] on strings (substring test; [''] is in every string). *)
Fixpoint contains (sub s : string) : bool :=
  starts_with sub s ||
  match s with
  | EmptyString => false
  | String _ s' => contains sub s'
  end.

(** [x in l] on a list of strings. *)
Definition elem (x : string) (l : list string) : bool :=
  existsb (String.eqb x) l.

(** [any(word in s for word in words)] *)
Definition any_in (words : list string) (s : string) : bool :=
  existsb (fun w => contains w s) words.

(** [str.lower] on the ASCII range. *)
Definition lower_char (c : ascii) : ascii :=
  let n := nat_of_ascii c in
  if (65 <=? n)%nat && (n <=? 90)%nat then ascii_of_nat (n + 32) else c.

Fixpoint lower (s : string) : string :=
  match s with
  | EmptyString => EmptyString
  | String c s' => String (lower_char c) (lower s')
  end.

(** Whitespace as [str.split()] sees it on ASCII: \t \n \v \f \r,
    the separators 0x1c-0x1f, and the space. *)
Definition is_space (c : ascii) : bool :=
  let n := nat_of_ascii c in
  ((9 <=? n)%nat && (n <=? 13)%nat) || ((28 <=? n)%nat && (n <=? 32)%nat).

Fixpoint split_go (s : string) (cur : list ascii) : list string :=
  match s with
  | EmptyString =>
      match cur with [] => [] | _ => [string_of_list_ascii (rev cur)] end
  | String c s' =>
      if is_space c then
        match cur with
        | [] => split_go s' []
        | _ => string_of_list_ascii (rev cur) :: split_go s' []
        end
      else split_go s' (c :: cur)
  end.

(** [s.split()]: runs of whitespace separate, no empty tokens. *)
Definition split (s : string) : list string := split_go s [].

(** Python truthiness of an optional string ([None] and [''] are false). *)
Definition truthy_str (o : option string) : bool :=
  match o with Some s => negb (String.eqb s "") | None => false end.

(** Python truthiness of an optional int ([None] and [0] are false). *)
Definition truthy_int (o : option Z) : bool :=
  match o with Some n => negb (n =? 0) | None => false end.

(** Dictionary with string keys, in insertion order. *)
Definition dict (V : Type) := list (string * V).

Fixpoint dget {V} (d : dict V) (k : string) : option V :=
  match d with
  | [] => None
  | (k', v) :: d' => if String.eqb k k' then Some v else dget d' k
  end.

Definition dget_or {V} (d : dict V) (k : string) (dflt : V) : V :=
  match dget d k with Some v => v | None => dflt end.

(** [d[k] = v]: updates in place, or appends a new key at the end. *)
Fixpoint dset {V} (d : dict V) (k : string) (v : V) : dict V :=
  match d with
  | [] => [(k, v)]
  | (k', v') :: d' => if String.eqb k k' then (k', v) :: d' else (k', v') :: dset d' k v
  end.

(** [d[k] = d.get(k, 0) + n] *)
Definition dbump (d : dict Z) (k : string) (n : Z) : dict Z :=
  dset d k (dget_or d k 0 + n).

(** [sorted(xs, key=key, reverse=True)]: Python's sort is stable, also
    with [reverse=True], so equal keys keep their original order. *)
Fixpoint insert_desc {A} (key : A -> Z) (x : A) (l : list A) : list A :=
  match l with
  | [] => [x]
  | y :: l' => if key y <? key x then x :: l else y :: insert_desc key x l'
  end.

Definition sort_desc {A} (key : A -> Z) (l : list A) : list A :=
  fold_left (fun acc x => insert_desc key x acc) l [].

(** [list(set(xs))]: duplicates removed; the order of a Python set is
    unspecified and no claim depends on it. *)
Fixpoint dedup (l : list string) : list string :=
  match l with
  | [] => []
  | x :: l' => if elem x l' then dedup l' else x :: dedup l'
  end.

(** [xs[:n]] for an int [n] (a negative [n] drops from the end). *)
Definition take {A} (n : Z) (l : list A) : list A :=
  if 0 <=? n then firstn (Z.to_nat n) l
  else firstn (Z.to_nat (Z.of_nat (length l) + n)) l.

End Py.

(* ------------------------------------------------------------------ *)
(** ** [AIUserCategorizer.categorize_user_on_registration] *)

Module Registration.
Import Py.

Record UserData := {
  ud_age : option Z;            (* user_data.get('age') *)
  ud_job : option string;       (* user_data.get('job') *)
  ud_location : option string;  (* user_data.get('location') *)
  ud_interests : list string    (* user_data.get('interests', []) *)
}.

Record Categorization := {
  cz_categories : list string;
  cz_scores : dict Z
}.

Definition age_rules (age : option Z) (cats : list string) (sc : dict Z)
  : list string * dict Z :=
  if truthy_int age then
    let a := match age with Some a => a | None => 0 end in
    if a <? 25 then
      (cats ++ ["young_adult"],
       dbump (dbump sc "education_seeker" 30) "tech_enthusiast" 20)
    else if (25 <=? a) && (a <=? 35) then
      (cats ++ ["early_career"],
       dbump (dbump sc "career_focused" 30) "property_seeker" 10)
    else if (36 <=? a) && (a <=? 45) then
      (cats ++ ["mid_career_family"],
       dbump (dbump (dbump sc "family_oriented" 30) "property_seeker" 20)
             "vehicle_buyer" 20)
    else if (46 <=? a) && (a <=? 60) then
      (cats ++ ["established_professional"],
       dbump (dbump sc "investment_focused" 30) "property_investor" 25)
    else
      (cats ++ ["senior"], dbump sc "health_focused" 20)
  else (cats, sc).

(** One job rule: if [test] holds, append [label] and bump [bumps]. *)
Definition job_rule (test : bool) (label : string) (bumps : list (string * Z))
    (acc : list string * dict Z) : list string * dict Z :=
  if test then
    (fst acc ++ [label],
     fold_left (fun d kv => dbump d (fst kv) (snd kv)) bumps (snd acc))
  else acc.

Definition job_rules (job : string) (acc : list string * dict Z)
  : list string * dict Z :=
  if negb (String.eqb job "") then
    let acc := job_rule (contains "government" job || contains "officer" job)
                 "government_employee"
                 [("education_seeker", 25); ("course_buyer", 20)] acc in
    let acc := job_rule (any_in ["teacher"; "lecturer"; "professor"] job)
                 "education_professional"
                 [("book_buyer", 40); ("course_creator", 30)] acc in
    let acc := job_rule (any_in ["engineer"; "developer"; "it"; "tech"] job)
                 "tech_professional"
                 [("tech_enthusiast", 40); ("electronics_buyer", 35)] acc in
    let acc := job_rule (any_in ["manager"; "director"; "ceo"; "executive"] job)
                 "management"
                 [("vehicle_buyer", 30); ("property_investor", 25)] acc in
    let acc := job_rule (any_in ["business"; "entrepreneur"; "owner"] job)
                 "business_owner"
                 [("investment_focused", 35); ("property_investor", 30)] acc in
    job_rule (contains "student" job) "student"
      [("education_seeker", 50); ("book_buyer", 45); ("past_paper_buyer", 40)] acc
  else acc.

Definition interest_rule (interest : string) (sc : dict Z) : dict Z :=
  let sc := if elem interest ["education"; "learning"] then
              dbump (dbump (dbump sc "education_seeker" 35) "course_buyer" 30)
                    "book_buyer" 25 else sc in
  let sc := if elem interest ["technology"; "tech"; "computers"] then
              dbump (dbump sc "tech_enthusiast" 35) "electronics_buyer" 30 else sc in
  let sc := if elem interest ["business"; "entrepreneurship"] then
              dbump (dbump sc "business_oriented" 35) "course_buyer" 20 else sc in
  let sc := if elem interest ["health"; "fitness"; "wellness"] then
              dbump sc "health_focused" 35 else sc in
  let sc := if elem interest ["transport"; "vehicles"; "cars"] then
              dbump sc "vehicle_buyer" 40 else sc in
  let sc := if elem interest ["housing"; "property"; "real estate"] then
              dbump sc "property_seeker" 40 else sc in
  if elem interest ["employment"; "jobs"; "career"] then
    dbump (dbump sc "career_focused" 35) "course_buyer" 25 else sc.

Definition urban_areas : list string :=
  ["colombo"; "kandy"; "gampaha"; "negombo"; "moratuwa"].

Definition location_rule (location : string) (acc : list string * dict Z)
  : list string * dict Z :=
  if negb (String.eqb location "") && any_in urban_areas location then
    (fst acc ++ ["urban_resident"],
     dbump (dbump (snd acc) "tech_enthusiast" 10) "electronics_buyer" 10)
  else (fst acc ++ ["rural_resident"], snd acc).

(** Top five behavioural scores, kept when at least 20. *)
Definition top_behavioural (sc : dict Z) : list string :=
  map fst (filter (fun kv => 20 <=? snd kv) (firstn 5 (sort_desc snd sc))).

Definition categorize_user_on_registration (u : UserData) : Categorization :=
  let job := match u.(ud_job) with
             | Some j => if truthy_str (Some j) then lower j else "" | None => "" end in
  let location := match u.(ud_location) with
             | Some l => if truthy_str (Some l) then lower l else "" | None => "" end in
  let interests := map lower u.(ud_interests) in
  let acc := age_rules u.(ud_age) [] [] in
  let acc := job_rules job acc in
  let acc := (fst acc, fold_left (fun sc i => interest_rule i sc) interests (snd acc)) in
  let acc := location_rule location acc in
  {| cz_categories := dedup (fst acc ++ top_behavioural (snd acc));
     cz_scores := snd acc |}.

End Registration.

(* ------------------------------------------------------------------ *)
(** ** The MongoDB store shared by the tracker, categorizer and matcher *)

Module Store.
Import Py.

(** [bson.ObjectId(x)]: a 24-digit hex string is accepted; [None] makes a
    fresh id, which no stored document carries; anything else raises
    [InvalidId]. *)
Definition is_hex (c : ascii) : bool :=
  let n := nat_of_ascii c in
  ((48 <=? n)%nat && (n <=? 57)%nat) || ((97 <=? n)%nat && (n <=? 102)%nat)
  || ((65 <=? n)%nat && (n <=? 70)%nat).

Fixpoint all_hex (s : string) : bool :=
  match s with
  | EmptyString => true
  | String c s' => is_hex c && all_hex s'
  end.

Definition valid_oid (s : string) : bool :=
  (String.length s =? 24)%nat && all_hex s.

(** [Some (Some h)]: the id [h]; [Some None]: a fresh id; [None]: raised. *)
Definition object_id (uid : option string) : option (option string) :=
  match uid with
  | None => Some None
  | Some s => if valid_oid s then Some (Some s) else None
  end.

(** Two ObjectIds given by their hex digits are equal when their bytes
    are: [bytes.fromhex] reads the digits in either case. *)
Definition oid_eqb (a b : string) : bool := String.eqb (lower a) (lower b).

(** The stored [ai_categories] field, in the shapes the code branches on. *)
Record AIDoc := {
  ai_cats : option (list string);      (* "categories" key *)
  ai_scores : option (dict Z);         (* "category_scores" key *)
  ai_last : option Z;                  (* "last_recategorized" key *)
  ai_type : option string              (* "categorization_type" key *)
}.

Inductive AICategories :=
  | AIMissing                    (* no "ai_categories" key: get(..., {}) *)
  | AIDictV (d : AIDoc)
  | AIListV (l : list string)
  | AIOtherV.                    (* any other value, e.g. null *)

Record User := {
  u_id : string;                 (* hex of the ObjectId _id *)
  u_age : option Z;
  u_location : option string;
  u_ai : AICategories
}.

(** The category labels every reader takes from [ai_categories]
    ([_recategorize_user] and [get_personalized_ads] branch alike). *)
Definition labels (a : AICategories) : list string :=
  match a with
  | AIMissing => []
  | AIDictV d => match d.(ai_cats) with Some l => l | None => [] end
  | AIListV l => l
  | AIOtherV => []
  end.

Record SearchEvent := {
  se_user : option string;
  se_query : string;
  se_category : option string;
  se_ts : Z
}.

(** A [user_search_patterns] document. *)
Record Pattern := {
  pat_user : option string;
  pat_count : Z;
  pat_top_keywords : dict Z;
  pat_top_categories : dict Z;
  pat_interest : dict Z;
  pat_last_updated : Z;
  pat_freq : string
}.

(** [product_id] values in the ad logs are compared as BSON values: an
    ObjectId never equals a string. *)
Inductive BsonId := OID (h : string) | STR (s : string).

Definition bson_eqb (a b : BsonId) : bool :=
  match a, b with
  | OID x, OID y => String.eqb x y
  | STR x, STR y => String.eqb x y
  | _, _ => false
  end.

(** A document field that is absent, holds null (what the admin product
    endpoints store for a key the request leaves out or sends as null), or
    holds a value. *)
Inductive Field (A : Type) := FAbsent | FNull | FVal (a : A).
Arguments FAbsent {A}.
Arguments FNull {A}.
Arguments FVal {A} a.

(** [doc.get(key)]: [None] for an absent field and for null alike. *)
Definition fget {A} (f : Field A) : option A :=
  match f with FVal a => Some a | _ => None end.

(** [age_range] field: absent, a dict with optional min and max, or some
    other value. *)
Inductive AgeRange := ARMissing | ARDict (mn mx : option Z) | AROther.

Record Product := {
  p_id : string;                        (* hex of the ObjectId _id *)
  p_status : string;
  p_stock : option Z;                   (* numeric stock, or no field *)
  p_targets : Field (list string);      (* target_categories *)
  p_category : Field string;
  p_age_range : AgeRange;
  p_target_locations : Field (list string);
  p_created_at : option Z;
  p_views : Z;                          (* the "views" counter field *)
  p_clicks : Z                          (* the "clicks" counter field *)
}.

Record AdLog := { al_user : option string; al_product : BsonId; al_ts : Z }.

Record DB := {
  users : list User;
  search_history : list SearchEvent;
  search_patterns : list Pattern;
  products : list Product;
  ad_clicks : list AdLog;
  ad_views : list AdLog
}.

Definition opt_str_eqb (a b : option string) : bool :=
  match a, b with
  | Some x, Some y => String.eqb x y
  | None, None => true
  | _, _ => false
  end.

(** [users_col.find_one({"_id": ObjectId(uid)})] once the id is converted:
    the stored [_id] is compared as an ObjectId, whatever the case of the
    hex digits of [uid]. *)
Definition find_user (oid : option string) (db : DB) : option User :=
  match oid with
  | None => None
  | Some h => find (fun u => oid_eqb u.(u_id) h) db.(users)
  end.

Definition find_pattern (uid : option string) (db : DB) : option Pattern :=
  find (fun p => opt_str_eqb p.(pat_user) uid) db.(search_patterns).

(** [users_col.update_one({"_id": ...}, {"$set": {"ai_categories": a}})] *)
Definition set_ai (h : string) (a : AICategories) (db : DB) : DB :=
  {| users := map (fun u => if oid_eqb u.(u_id) h
                            then {| u_id := u.(u_id); u_age := u.(u_age);
                                    u_location := u.(u_location); u_ai := a |}
                            else u) db.(users);
     search_history := db.(search_history);
     search_patterns := db.(search_patterns);
     products := db.(products);
     ad_clicks := db.(ad_clicks);
     ad_views := db.(ad_views) |}.

End Store.

(* ------------------------------------------------------------------ *)
(** ** [SearchTracker] *)

Module Tracker.
Import Py Store.

Definition day : Z := 86400.

(** [search_history_col.find({"user_id": uid, "timestamp": {"$gte":
    now - 30 days}}).sort("timestamp", -1)] *)
Definition recent_searches (now : Z) (uid : option string) (db : DB)
  : list SearchEvent :=
  sort_desc se_ts
    (filter (fun e => opt_str_eqb e.(se_user) uid && (now - 30 * day <=? e.(se_ts)))
            db.(search_history)).

(** [[word.strip() for word in query.lower().split() if len(word.strip()) > 2]]
    (the tokens of [split()] carry no surrounding whitespace). *)
Definition query_keywords (query : string) : list string :=
  filter (fun w => (2 <? String.length w)%nat) (split (lower query)).

(** [Counter(xs)]: keys in first-encounter order. *)
Definition counter (xs : list string) : dict Z :=
  fold_left (fun c k => dbump c k 1) xs [].

(** [Counter.most_common(n)]: [heapq.nlargest], i.e. the first [n] of a
    stable sort by count, descending. *)
Definition most_common (n : nat) (c : dict Z) : dict Z :=
  firstn n (sort_desc snd c).

Definition education_keywords : list string :=
  ["school"; "education"; "course"; "class"; "study"; "exam"; "test";
   "book"; "paper"; "university"; "college"; "teacher"; "student";
   "o/l"; "a/l"; "grade"; "tuition"; "scholarship"; "admission"].
Definition health_keywords : list string :=
  ["health"; "hospital"; "doctor"; "clinic"; "medical"; "medicine";
   "treatment"; "disease"; "vaccine"; "appointment"; "surgery"].
Definition business_keywords : list string :=
  ["business"; "register"; "company"; "tax"; "license"; "permit";
   "trade"; "enterprise"; "startup"; "vat"; "commercial"].
Definition employment_keywords : list string :=
  ["job"; "work"; "employment"; "career"; "salary"; "position";
   "hiring"; "vacancy"; "resume"; "interview"; "training"].
Definition tech_keywords : list string :=
  ["computer"; "software"; "internet"; "online"; "digital"; "app";
   "website"; "tech"; "electronic"; "mobile"; "phone"; "laptop"].
Definition transport_keywords : list string :=
  ["vehicle"; "car"; "license"; "driving"; "transport"; "road";
   "traffic"; "motor"; "registration"; "bike"; "bus"].
Definition property_keywords : list string :=
  ["land"; "house"; "property"; "deed"; "building"; "real estate";
   "rent"; "buy"; "apartment"; "home"; "construction"].
Definition immigration_keywords : list string :=
  ["passport"; "visa"; "travel"; "immigration"; "embassy";
   "foreign"; "abroad"; "migration"; "citizen"].

(** [_keyword_match_score]: [sum(1 for kw in user_keywords if kw in
    category_keywords)]. *)
Definition keyword_match_score (user_keywords category_keywords : list string) : Z :=
  Z.of_nat (length (filter (fun kw => elem kw category_keywords) user_keywords)).

(** [_calculate_interest_scores(keywords, categories)]; the categories
    table is not read. *)
Definition calculate_interest_scores (keywords : dict Z) (categories : dict Z)
  : dict Z :=
  let keyword_list := map fst keywords in
  [("education", keyword_match_score keyword_list education_keywords);
   ("health", keyword_match_score keyword_list health_keywords);
   ("business", keyword_match_score keyword_list business_keywords);
   ("employment", keyword_match_score keyword_list employment_keywords);
   ("technology", keyword_match_score keyword_list tech_keywords);
   ("transport", keyword_match_score keyword_list transport_keywords);
   ("property", keyword_match_score keyword_list property_keywords);
   ("immigration", keyword_match_score keyword_list immigration_keywords)].

(** [_calculate_search_frequency(count, 30)]: [count / 30] compared with
    5, 2 and 0.5; for integer counts these are [count >= 150], [>= 60]
    and [>= 15]. *)
Definition calculate_search_frequency (search_count : Z) : string :=
  if 150 <=? search_count then "very_active"
  else if 60 <=? search_count then "active"
  else if 15 <=? search_count then "moderate"
  else "occasional".

(** The document [_update_search_patterns] writes for a non-empty list of
    searches. *)
Definition build_pattern (now : Z) (uid : option string) (searches : list SearchEvent)
  : Pattern :=
  let all_keywords := flat_map (fun s => query_keywords s.(se_query)) searches in
  let categories := flat_map (fun s => if truthy_str s.(se_category)
                                       then match s.(se_category) with
                                            | Some c => [c] | None => [] end
                                       else []) searches in
  let top_keywords := most_common 20 (counter all_keywords) in
  let top_categories := most_common 10 (counter categories) in
  {| pat_user := uid;
     pat_count := Z.of_nat (length searches);
     pat_top_keywords := top_keywords;
     pat_top_categories := top_categories;
     pat_interest := calculate_interest_scores top_keywords top_categories;
     pat_last_updated := now;
     pat_freq := calculate_search_frequency (Z.of_nat (length searches)) |}.

(** [update_one({"user_id": uid}, {"$set": p}, upsert=True)] *)
Definition upsert_pattern (p : Pattern) (db : DB) : DB :=
  {| users := db.(users);
     search_history := db.(search_history);
     search_patterns :=
       if existsb (fun q => opt_str_eqb q.(pat_user) p.(pat_user)) db.(search_patterns)
       then map (fun q => if opt_str_eqb q.(pat_user) p.(pat_user) then p else q)
                db.(search_patterns)
       else db.(search_patterns) ++ [p];
     products := db.(products);
     ad_clicks := db.(ad_clicks);
     ad_views := db.(ad_views) |}.

(** [SearchTracker._update_search_patterns(user_id)] at time [now]. *)
Definition update_search_patterns (now : Z) (uid : option string) (db : DB) : DB :=
  match recent_searches now uid db with
  | [] => db
  | searches => upsert_pattern (build_pattern now uid searches) db
  end.

(** The labels [_recategorize_user] adds for a stored pattern. *)
Definition search_labels (interest : dict Z) (freq : string) : list string :=
  (if 5 <=? dget_or interest "education" 0 then ["education_seeker"; "course_buyer"] else [])
  ++ (if 3 <=? dget_or interest "technology" 0 then ["tech_enthusiast"; "electronics_buyer"] else [])
  ++ (if 3 <=? dget_or interest "business" 0 then ["business_owner"; "entrepreneur"] else [])
  ++ (if 3 <=? dget_or interest "employment" 0 then ["job_seeker"; "career_focused"] else [])
  ++ (if 3 <=? dget_or interest "property" 0 then ["property_seeker"; "property_investor"] else [])
  ++ (if 3 <=? dget_or interest "health" 0 then ["health_focused"] else [])
  ++ (if 3 <=? dget_or interest "immigration" 0 then ["travel_seeker"; "passport_applicant"] else [])
  ++ (if elem freq ["active"; "very_active"] then ["power_user"; "engaged_user"] else []).

(** [SearchTracker._recategorize_user(user_id)]; [None] when it raises. *)
Definition recategorize_user (now : Z) (uid : option string) (db : DB) : option DB :=
  match find_pattern uid db with
  | None => Some db
  | Some pat =>
      match object_id uid with
      | None => None
      | Some oid =>
          match find_user oid db with
          | None => Some db
          | Some u =>
              let new_categories :=
                dedup (labels u.(u_ai) ++ search_labels pat.(pat_interest) pat.(pat_freq)) in
              let update_value :=
                match u.(u_ai) with
                | AIMissing =>
                    AIDictV {| ai_cats := Some new_categories; ai_scores := None;
                               ai_last := Some now; ai_type := None |}
                | AIDictV d =>
                    AIDictV {| ai_cats := Some new_categories; ai_scores := d.(ai_scores);
                               ai_last := Some now; ai_type := d.(ai_type) |}
                | _ => AIListV new_categories
                end in
              (* [u] was found under [ObjectId(user_id)], so its [_id] is
                 the one [update_one] matches *)
              Some (set_ai u.(u_id) update_value db)
          end
      end
  end.

(** Outcome of a call: [Ok] on return, [Raised] when an exception
    escapes; both carry the store as the call left it. *)
Inductive Res := Ok (db : DB) | Raised (db : DB).

Definition res_db (r : Res) : DB := match r with Ok d => d | Raised d => d end.

(** [SearchTracker.track_search(user_id, query, category, ...)] at [now]:
    log the search, recompute the patterns, recategorize. *)
Definition track_search (now : Z) (uid : option string) (query : string)
    (category : option string) (db : DB) : Res :=
  let ev := {| se_user := uid; se_query := lower query;
               se_category := category; se_ts := now |} in
  let db1 := {| users := db.(users);
                search_history := db.(search_history) ++ [ev];
                search_patterns := db.(search_patterns);
                products := db.(products);
                ad_clicks := db.(ad_clicks);
                ad_views := db.(ad_views) |} in
  let db2 := update_search_patterns now uid db1 in
  match recategorize_user now uid db2 with
  | Some db3 => Ok db3
  | None => Raised db2
  end.

End Tracker.

(* ------------------------------------------------------------------ *)
(** ** [AIUserCategorizer.recategorize_based_on_search] *)

Module SearchRecategorize.
Import Py Store.

(** The score deltas one search query contributes. *)
Definition query_scores (query : string) (sc : dict Z) : dict Z :=
  let sc := if any_in ["degree"; "course"; "education"; "study"; "learn"; "class"; "tuition"] query
            then dbump (dbump sc "education_seeker" 5) "course_buyer" 4 else sc in
  let sc := if any_in ["book"; "paper"; "past paper"; "guide"; "notes"] query
            then dbump (dbump sc "book_buyer" 5) "past_paper_buyer" 5 else sc in
  let sc := if any_in ["laptop"; "phone"; "computer"; "gadget"; "tech"; "electronic"] query
            then dbump (dbump sc "tech_enthusiast" 5) "electronics_buyer" 6 else sc in
  let sc := if any_in ["car"; "vehicle"; "bike"; "motorcycle"; "van"; "auto"] query
            then dbump sc "vehicle_buyer" 6 else sc in
  let sc := if any_in ["land"; "house"; "property"; "apartment"; "estate"; "plot"] query
            then dbump (dbump sc "property_seeker" 6) "property_investor" 4 else sc in
  let sc := if any_in ["job"; "career"; "employment"; "work"; "vacancy"] query
            then dbump sc "career_focused" 5 else sc in
  if any_in ["news"; "newspaper"; "magazine"; "article"] query
  then dbump sc "news_reader" 4 else sc.

(** [for category, score in search_scores.items(): if score >= 15 and
    category not in new_categories: new_categories.append(category)] *)
Definition append_high (search_scores : dict Z) (cats : list string) : list string :=
  fold_left (fun acc kv => if (15 <=? snd kv) && negb (elem (fst kv) acc)
                           then acc ++ [fst kv] else acc) search_scores cats.

(** The method at time [now]; [None] when it raises (an [ai_categories]
    value that is not a dict has no [.get]). *)
Definition recategorize_based_on_search (now : Z) (uid : option string) (db : DB)
  : option DB :=
  match object_id uid with
  | None => None
  | Some oid =>
      match find_user oid db with
      | None => Some db
      | Some u =>
          let searches :=
            firstn 50 (sort_desc se_ts (filter (fun e => opt_str_eqb e.(se_user) uid)
                                                db.(search_history))) in
          match searches with
          | [] => Some db
          | _ =>
              let search_scores :=
                fold_left (fun sc s => query_scores (lower s.(se_query)) sc) searches [] in
              let current :=
                match u.(u_ai) with
                | AIMissing => Some (@None (list string), @None (dict Z))
                | AIDictV d => Some (d.(ai_cats), d.(ai_scores))
                | _ => None
                end in
              match current with
              | None => None
              | Some (cats, scores) =>
                  let current_scores :=
                    fold_left (fun d kv => dbump d (fst kv) (snd kv)) search_scores
                              (match scores with Some s => s | None => [] end) in
                  let new_categories :=
                    append_high search_scores (match cats with Some l => l | None => [] end) in
                  Some (set_ai u.(u_id)
                          (AIDictV {| ai_cats := Some (dedup new_categories);
                                      ai_scores := Some current_scores;
                                      ai_last := Some now;
                                      ai_type := Some "search_behavior" |}) db)
              end
          end
      end
  end.

End SearchRecategorize.

(* ------------------------------------------------------------------ *)
(** ** Sequences of recategorization passes *)

Module Passes.
Import Py Store Tracker.

(** A pass that may recategorize a user: a tracked search, or a call of
    [recategorize_based_on_search]. *)
Inductive Pass :=
  | PTrack (now : Z) (uid : option string) (query : string) (category : option string)
  | PSearchRecat (now : Z) (uid : option string).

Definition run_pass (p : Pass) (db : DB) : Res :=
  match p with
  | PTrack now uid q c => track_search now uid q c db
  | PSearchRecat now uid =>
      match SearchRecategorize.recategorize_based_on_search now uid db with
      | Some db' => Ok db'
      | None => Raised db
      end
  end.

(** The caller catches what escapes and carries on with the store. *)
Fixpoint run_passes (ps : list Pass) (db : DB) : DB :=
  match ps with
  | [] => db
  | p :: ps' => run_passes ps' (res_db (run_pass p db))
  end.

(** The labels of the user stored under the ObjectId with hex [h]. *)
Definition user_labels (db : DB) (h : string) : list string :=
  match find (fun u => oid_eqb u.(u_id) h) db.(users) with
  | Some u => labels u.(u_ai)
  | None => []
  end.

End Passes.

(* ------------------------------------------------------------------ *)
(** ** [AdMatcher] *)

Module Matcher.
Import Py Store.

Definition category_interest_map : dict string :=
  [("books", "education"); ("past_papers", "education");
   ("study_guides", "education"); ("courses", "education");
   ("electronics", "technology"); ("computers", "technology");
   ("phones", "technology"); ("vehicles", "transport"); ("cars", "transport");
   ("bikes", "transport"); ("property", "property"); ("land", "property");
   ("houses", "property")].

(** [col.count_documents({"product_id": pid})] *)
Definition count_product (pid : BsonId) (log : list AdLog) : Z :=
  Z.of_nat (length (filter (fun e => bson_eqb e.(al_product) pid) log)).

(** [ad_views_col.count_documents({"user_id": uid, "product_id": pid,
    "timestamp": {"$gte": now - timedelta(hours=24)}})] *)
Definition recent_views (now : Z) (uid : option string) (pid : BsonId)
    (views : list AdLog) : Z :=
  Z.of_nat (length (filter (fun e => opt_str_eqb e.(al_user) uid
                                     && bson_eqb e.(al_product) pid
                                     && (now - 86400 <=? e.(al_ts))) views)).

(** Whether [_calculate_relevance_score] raises on [product] before it
    returns: [set(None)] on a null [target_categories], [None.lower()] on a
    null [category], and [user_location in None] on a null
    [target_locations] once the user has a location.  On such a product
    the method returns no score, and [raw_score] below is not used. *)
Definition score_raises (product : Product) (user_location : option string) : bool :=
  match product.(p_targets) with FNull => true | _ => false end
  || match product.(p_category) with FNull => true | _ => false end
  || (truthy_str user_location
      && match product.(p_target_locations) with FNull => true | _ => false end).

(** The score [_calculate_relevance_score] computes before its final
    [max(score, 0)], for a product on which it does not raise.  The CTR term [int(clicks / views * 10)] is taken
    with exact division: for non-negative counts it is
    [(10 * clicks) / views] rounded down. *)
Definition raw_score (now : Z) (product : Product) (user_categories : list string)
    (interest_scores : dict Z) (user_age : option Z) (user_location : option string)
    (user_id : option string) (clicks views : list AdLog) : Z :=
  (* 1. category matching *)
  let product_targets := match product.(p_targets) with FVal l => l | _ => [] end in
  let category_matches :=
    Z.of_nat (length (dedup (filter (fun t => elem t user_categories) product_targets))) in
  let score := category_matches * 10 in
  (* 2. interest matching *)
  let product_category :=
    lower (match product.(p_category) with FVal c => c | _ => "" end) in
  let score :=
    match dget category_interest_map product_category with
    | Some related_interest =>
        if 0 <? dget_or interest_scores related_interest 0
        then score + dget_or interest_scores related_interest 0 * 2 else score
    | None => score
    end in
  (* 3. age *)
  let score :=
    if truthy_int user_age then
      match product.(p_age_range), user_age with
      | ARDict mn mx, Some a =>
          let min_age := match mn with Some m => m | None => 0 end in
          let max_age := match mx with Some m => m | None => 100 end in
          if (min_age <=? a) && (a <=? max_age) then score + 5 else score
      | _, _ => score
      end
    else score in
  (* 4. location *)
  let score :=
    match user_location, product.(p_target_locations) with
    | Some loc, FVal target_locations =>
        if truthy_str user_location
           && (elem loc target_locations || elem "all" target_locations)
        then score + 3 else score
    | _, _ => score
    end in
  (* 5. recency: [timedelta.days] rounds down *)
  let score :=
    match product.(p_created_at) with
    | Some created_at =>
        let days_old := (now - created_at) / 86400 in
        if days_old <? 7 then score + 5
        else if days_old <? 30 then score + 2 else score
    | None => score
    end in
  (* 6. click-through rate *)
  let product_id := STR product.(p_id) in
  let nclicks := count_product product_id clicks in
  let nviews := count_product product_id views in
  let score := if 10 <? nviews then score + (10 * nclicks) / nviews else score in
  (* 7. diversity *)
  let rv := recent_views now user_id product_id views in
  if 0 <? rv then score - rv * 5 else score.

Definition calculate_relevance_score (now : Z) (product : Product)
    (user_categories : list string) (interest_scores : dict Z) (user_age : option Z)
    (user_location : option string) (user_id : option string)
    (clicks views : list AdLog) : Z :=
  Z.max (raw_score now product user_categories interest_scores user_age
                   user_location user_id clicks views) 0.

(** [products_col.find({"status": "approved", "$or": [{"stock": {"$gt": 0}},
    {"stock": {"$exists": False}}]})] *)
Definition active_products (db : DB) : list Product :=
  filter (fun p => String.eqb p.(p_status) "approved"
                   && match p.(p_stock) with Some s => 0 <? s | None => true end)
         db.(products).

(** One formatted ad (display-only fields such as title and image left out). *)
Record Ad := {
  ad_product_id : string;
  ad_category : option string;
  ad_relevance : Z
}.

Definition format (p : Product) (score : Z) : Ad :=
  {| ad_product_id := p.(p_id); ad_category := fget p.(p_category); ad_relevance := score |}.

(** The [_get_default_ads] pipeline up to its [$limit]: approved products
    with [click_count], the number of [ad_clicks] whose [product_id]
    equals the product's [_id] (an ObjectId), sorted by it, descending
    (ties in natural order). *)
Definition default_pipeline (limit : Z) (db : DB) : list (Product * Z) :=
  firstn (Z.to_nat (limit * 2))
    (sort_desc snd
       (map (fun p => (p, count_product (OID p.(p_id)) db.(ad_clicks)))
            (filter (fun p => String.eqb p.(p_status) "approved") db.(products)))).

(** [_get_default_ads(limit)]; [shuffle] is the permutation [random.shuffle]
    picks.  A non-positive [$limit] makes MongoDB reject the pipeline,
    which the method catches, returning []. *)
Definition get_default_ads (limit : Z) (shuffle : list Product -> list Product)
    (db : DB) : list Ad :=
  if limit * 2 <=? 0 then []
  else map (fun p => format p 0) (take limit (shuffle (map fst (default_pipeline limit db)))).

(** [_track_ad_views(user_id, product_ids)] *)
Definition track_ad_views (now : Z) (uid : option string) (pids : list string) (db : DB)
  : DB :=
  match pids with
  | [] => db
  | _ =>
      {| users := db.(users);
         search_history := db.(search_history);
         search_patterns := db.(search_patterns);
         products :=
           fold_left (fun ps pid =>
                        map (fun p => if String.eqb p.(p_id) pid
                                      then {| p_id := p.(p_id); p_status := p.(p_status);
                                              p_stock := p.(p_stock); p_targets := p.(p_targets);
                                              p_category := p.(p_category);
                                              p_age_range := p.(p_age_range);
                                              p_target_locations := p.(p_target_locations);
                                              p_created_at := p.(p_created_at);
                                              p_views := p.(p_views) + 1;
                                              p_clicks := p.(p_clicks) |}
                                      else p) ps) pids db.(products);
         ad_clicks := db.(ad_clicks);
         ad_views := db.(ad_views) ++ map (fun pid => {| al_user := uid; al_product := STR pid;
                                                        al_ts := now |}) pids |}
  end.

(** [AdMatcher.get_personalized_ads(user_id, limit)] at [now]: the slate
    and the store after the call. *)
Definition get_personalized_ads (now : Z) (uid : option string) (limit : Z)
    (shuffle : list Product -> list Product) (db : DB) : list Ad * DB :=
  match object_id uid with
  | None => (get_default_ads limit shuffle db, db)     (* InvalidId caught *)
  | Some oid =>
      match find_user oid db with
      | None => (get_default_ads limit shuffle db, db)
      | Some user =>
          let user_categories := dedup (labels user.(u_ai)) in
          let interest_scores :=
            match find_pattern uid db with Some pt => pt.(pat_interest) | None => [] end in
          (* scoring raises on some candidate: the [except] serves the
             default ads *)
          if existsb (fun product => score_raises product user.(u_location))
                     (active_products db)
          then (get_default_ads limit shuffle db, db)
          else
            let scored_products :=
              flat_map (fun product =>
                          let score := calculate_relevance_score now product user_categories
                                         interest_scores user.(u_age) user.(u_location) uid
                                         db.(ad_clicks) db.(ad_views) in
                          if 0 <? score then [(product, score)] else [])
                       (active_products db) in
            let top_ads := take limit (sort_desc snd scored_products) in
            let db' := track_ad_views now uid (map (fun ps => (fst ps).(p_id)) top_ads) db in
            (map (fun ps => format (fst ps) (snd ps)) top_ads, db')
      end
  end.

End Matcher.

(* ------------------------------------------------------------------ *)
(** ** Concrete stores used by the examples below *)

Module Fixtures.
Import Py Registration Store Tracker Matcher.

Definition uid_a : string := "aaaaaaaaaaaaaaaaaaaaaaaa".
Definition uid_b : string := "bbbbbbbbbbbbbbbbbbbbbbbb".
Definition uid_f : string := "ffffffffffffffffffffffff".
Definition pid_1 : string := "111111111111111111111111".
Definition pid_2 : string := "222222222222222222222222".
Definition pid_3 : string := "333333333333333333333333".

(** A product with only an id, a status and a stock. *)
Definition plain_product (id status : string) (stock : option Z) : Product :=
  {| p_id := id; p_status := status; p_stock := stock; p_targets := FAbsent;
     p_category := FAbsent; p_age_range := ARMissing; p_target_locations := FAbsent;
     p_created_at := None; p_views := 0; p_clicks := 0 |}.

Definition user_a : User :=
  {| u_id := uid_a; u_age := None; u_location := None; u_ai := AIMissing |}.

Definition empty_db : DB :=
  {| users := []; search_history := []; search_patterns := [];
     products := []; ad_clicks := []; ad_views := [] |}.

(** User [a] and one approved product no rule rewards. *)
Definition plain_db : DB :=
  {| users := [user_a]; search_history := []; search_patterns := [];
     products := [plain_product pid_1 "approved" None];
     ad_clicks := []; ad_views := [] |}.

(** Three approved products; only product 3 was ever clicked. *)
Definition click_of (pid : string) : AdLog :=
  {| al_user := Some uid_b; al_product := STR pid; al_ts := 0 |}.

Definition clicked_db : DB :=
  {| users := []; search_history := []; search_patterns := [];
     products := [plain_product pid_1 "approved" None;
                  plain_product pid_2 "approved" None;
                  plain_product pid_3 "approved" None];
     ad_clicks := [click_of pid_3; click_of pid_3; click_of pid_3];
     ad_views := [] |}.

Definition view_of (u : string) (pid : string) (ts : Z) : AdLog :=
  {| al_user := Some u; al_product := STR pid; al_ts := ts |}.

(** Ten views of product 3 by user [b], and five clicks. *)
Definition others_views : list AdLog := repeat (view_of uid_b pid_3 0) 10.
Definition five_clicks : list AdLog := repeat (click_of pid_3) 5.

(** An approved product whose stock is 0. *)
Definition no_stock_db : DB :=
  {| users := []; search_history := []; search_patterns := [];
     products := [plain_product pid_1 "approved" (Some 0)];
     ad_clicks := []; ad_views := [] |}.

(** User [b] holds the label education_seeker; product 2 targets it. *)
Definition user_b : User :=
  {| u_id := uid_b; u_age := None; u_location := None;
     u_ai := AIListV ["education_seeker"] |}.

Definition targeted_product : Product :=
  {| p_id := pid_2; p_status := "approved"; p_stock := None;
     p_targets := FVal ["education_seeker"]; p_category := FVal "books";
     p_age_range := ARMissing; p_target_locations := FAbsent;
     p_created_at := None; p_views := 0; p_clicks := 0 |}.

Definition scored_db : DB :=
  {| users := [user_b]; search_history := []; search_patterns := [];
     products := [plain_product pid_1 "approved" None; targeted_product];
     ad_clicks := []; ad_views := [] |}.

(** The id of user [b] written with upper-case hex digits. *)
Definition uid_b_upper : string := "BBBBBBBBBBBBBBBBBBBBBBBB".

(** Product 2 as the admin endpoints store it when no category is sent. *)
Definition null_category_product : Product :=
  {| p_id := pid_2; p_status := "approved"; p_stock := None;
     p_targets := FVal ["education_seeker"]; p_category := FNull;
     p_age_range := ARMissing; p_target_locations := FVal [];
     p_created_at := None; p_views := 0; p_clicks := 0 |}.

Definition null_category_db : DB :=
  {| users := [user_b]; search_history := []; search_patterns := [];
     products := [plain_product pid_1 "approved" None; null_category_product];
     ad_clicks := []; ad_views := [] |}.

Definition software_engineer (loc : option string) : UserData :=
  {| ud_age := Some 30; ud_job := Some "Software Engineer";
     ud_location := loc; ud_interests := ["technology"] |}.

(** The derived fields of a pattern document: all of it but the
    [last_updated] time stamp. *)
Definition derived (p : Pattern) :=
  (p.(pat_user), p.(pat_count), p.(pat_top_keywords), p.(pat_top_categories),
   p.(pat_interest), p.(pat_freq)).

Definition demo_db : DB :=
  {| users := [];
     search_history := [{| se_user := Some "u1"; se_query := "passport visa renewal";
                           se_category := Some "immigration"; se_ts := 0 |}];
     search_patterns := [];
     products := [];
     ad_clicks := [];
     ad_views := [] |}.

End Fixtures.


(* ------------------------------------------------------------------ *)
(** ** Reading categories back: [get_user_categories],
    [get_category_explanation], and the registration endpoint's write *)

Module Accounts.
Import Py Registration Store.

(** [AIUserCategorizer.get_category_explanation()]: group, then label and
    its description. *)
Definition get_category_explanation : list (string * dict string) :=
  [("demographic",
    [("young_adult", "Users under 25 years old");
     ("early_career", "Users aged 25-35");
     ("mid_career_family", "Users aged 36-45 with family");
     ("established_professional", "Users aged 46-60");
     ("senior", "Users over 60");
     ("urban_resident", "Lives in urban area");
     ("rural_resident", "Lives in rural area")]);
   ("professional",
    [("government_employee", "Works in government sector");
     ("education_professional", "Teacher/lecturer/professor");
     ("tech_professional", "IT/Engineering professional");
     ("management", "Manager or executive");
     ("business_owner", "Business owner/entrepreneur");
     ("student", "Current student")]);
   ("behavioral",
    [("education_seeker", "Interested in education and courses");
     ("course_buyer", "Likely to purchase courses");
     ("book_buyer", "Interested in books");
     ("past_paper_buyer", "Interested in past papers");
     ("tech_enthusiast", "Interested in technology");
     ("electronics_buyer", "Likely to buy electronics");
     ("vehicle_buyer", "Interested in vehicles");
     ("property_seeker", "Looking for property");
     ("property_investor", "Property investment interest");
     ("career_focused", "Career development focused");
     ("investment_focused", "Investment opportunities");
     ("health_focused", "Health and wellness interest");
     ("news_reader", "Regular news consumer");
     ("family_oriented", "Family-focused purchases")])].

(** The labels the explanation describes, over all its groups. *)
Definition explained_labels : list string :=
  flat_map (fun g => map fst (snd g)) get_category_explanation.

(** The write of the [/api/register] handler in [app.py]:
    [users_col.update_one({"_id": ObjectId(user_id)}, {"$set":
    {"ai_categories": categories}})] with the dict
    [categorize_user_on_registration] returned.  Its [categorized_at] stamp
    is read by no code modelled here and is left out. *)
Definition store_registration (h : string) (c : Categorization) (db : DB) : DB :=
  set_ai h (AIDictV {| ai_cats := Some (cz_categories c); ai_scores := Some (cz_scores c);
                       ai_last := None; ai_type := Some "registration" |}) db.

(** [AIUserCategorizer.get_user_categories(user_id)]; [None] when it raises:
    [InvalidId], or [.get] called on an [ai_categories] value that is not a
    dict. *)
Definition get_user_categories (user_id : string) (db : DB) : option (list string) :=
  match object_id (Some user_id) with
  | None => None
  | Some oid =>
      match find_user oid db with
      | None => Some []
      | Some u =>
          match u.(u_ai) with
          | AIMissing => Some []
          | AIDictV d => Some (match d.(ai_cats) with Some l => l | None => [] end)
          | AIListV _ => None
          | AIOtherV => None
          end
      end
  end.

End Accounts.

(* ------------------------------------------------------------------ *)
(** ** The read side of [SearchTracker]: frequency, stored patterns,
    history, clicks on results, and the admin aggregates *)

Module Profiles.
Import Py Store Tracker.

(** [_calculate_search_frequency(search_count, days)] with [search_count /
    days] taken exactly.  The thresholds 5, 2 and 0.5 are doubles, and for
    the only caller's [days = 30] no count lands within rounding distance
    of them, so the float comparisons agree. *)
Definition calculate_search_frequency_days (search_count : Z) (days : positive) : string :=
  let searches_per_day := Qmake search_count days in
  if Qle_bool (Qmake 5 1) searches_per_day then "very_active"
  else if Qle_bool (Qmake 2 1) searches_per_day then "active"
  else if Qle_bool (Qmake 1 2) searches_per_day then "moderate"
  else "occasional".

(** The dict [get_user_search_patterns] returns ([last_updated] as the
    time it stamps, before [isoformat]). *)
Record PatternView := {
  sv_search_count : Z;
  sv_top_keywords : dict Z;
  sv_top_categories : dict Z;
  sv_interest_scores : dict Z;
  sv_last_updated : option Z;
  sv_search_frequency : string
}.

(** [SearchTracker.get_user_search_patterns(user_id)].  The stored document
    carries every key [_update_search_patterns] sets, so the [.get]
    defaults do not apply; a datetime is always truthy. *)
Definition get_user_search_patterns (uid : option string) (db : DB) : option PatternView :=
  match find_pattern uid db with
  | None => None
  | Some p =>
      Some {| sv_search_count := p.(pat_count);
              sv_top_keywords := p.(pat_top_keywords);
              sv_top_categories := p.(pat_top_categories);
              sv_interest_scores := p.(pat_interest);
              sv_last_updated := Some p.(pat_last_updated);
              sv_search_frequency := p.(pat_freq) |}
  end.

(** A whole [search_history] document as [track_search] inserts it; the
    recompute reads only its [SearchEvent] part, [hd_event]. *)
Record HistDoc := {
  hd_id : string;                 (* hex of the ObjectId _id *)
  hd_user : option string;
  hd_query : string;
  hd_category : option string;
  hd_ts : Z;
  hd_results : Z;                 (* results_count *)
  hd_clicked : option string;     (* clicked_result *)
  hd_session : option string      (* session_id *)
}.

Definition hd_event (d : HistDoc) : SearchEvent :=
  {| se_user := d.(hd_user); se_query := d.(hd_query);
     se_category := d.(hd_category); se_ts := d.(hd_ts) |}.

(** One entry of [get_user_search_history] ([timestamp] before
    [isoformat]). *)
Record HistEntry := {
  he_query : string;
  he_category : option string;
  he_timestamp : option Z;
  he_results : Z;
  he_clicked : option string
}.

(** [cursor.limit(n)]: [0] sets no limit; a negative [n] returns at most
    [-n] documents in one batch (taken to hold them all). *)
Definition mongo_limit {A} (n : Z) (l : list A) : list A :=
  if n =? 0 then l else firstn (Z.to_nat (Z.abs n)) l.

(** The entry built for one stored search. *)
Definition hist_entry (d : HistDoc) : HistEntry :=
  {| he_query := d.(hd_query); he_category := d.(hd_category);
     he_timestamp := Some d.(hd_ts); he_results := d.(hd_results);
     he_clicked := d.(hd_clicked) |}.

(** [SearchTracker.get_user_search_history(user_id, limit)]. *)
Definition get_user_search_history (uid : option string) (limit : Z) (docs : list HistDoc)
  : list HistEntry :=
  map hist_entry
      (mongo_limit limit (sort_desc hd_ts (filter (fun d => opt_str_eqb d.(hd_user) uid) docs))).

(** [update_one]: the first matching document, if any, is rewritten. *)
Fixpoint update_first {A} (P : A -> bool) (f : A -> A) (l : list A) : list A :=
  match l with
  | [] => []
  | x :: l' => if P x then f x :: l' else x :: update_first P f l'
  end.

(** [SearchTracker.track_click(search_id, clicked_result)].  ObjectIds
    compare as bytes, so hex digits match whatever their case; an
    [InvalidId] is caught and nothing is written. *)
Definition track_click (search_id clicked_result : string) (docs : list HistDoc)
  : list HistDoc :=
  match object_id (Some search_id) with
  | Some (Some h) =>
      update_first (fun d => String.eqb (lower d.(hd_id)) (lower h))
        (fun d => {| hd_id := d.(hd_id); hd_user := d.(hd_user); hd_query := d.(hd_query);
                     hd_category := d.(hd_category); hd_ts := d.(hd_ts);
                     hd_results := d.(hd_results); hd_clicked := Some clicked_result;
                     hd_session := d.(hd_session) |}) docs
  | _ => docs
  end.

(** The [$match] on [timestamp >= now - timedelta(days=days)]. *)
Definition window (now days : Z) (db : DB) : list SearchEvent :=
  filter (fun e => now - days * day <=? e.(se_ts)) db.(search_history).

(** [$group] by a key with [{"$sum": 1}], then [$sort] by count,
    descending.  MongoDB leaves the order of the groups open: [arrange] is
    that order, a permutation of the groups in first-encounter order; the
    sort keeps it among equal counts, so every order of ties is covered. *)
Definition group_count (arrange : dict Z -> dict Z) (keys : list string) : dict Z :=
  sort_desc snd (arrange (counter keys)).

(** [SearchTracker.get_trending_searches(days, limit)] at [now], as
    (query, count) pairs; [None] when it raises (MongoDB rejects a [$limit]
    that is not positive). *)
Definition get_trending_searches (now days limit : Z) (arrange : dict Z -> dict Z) (db : DB)
  : option (list (string * Z)) :=
  if limit <=? 0 then None
  else Some (firstn (Z.to_nat limit)
               (group_count arrange (map se_query (window now days db)))).

(** [SearchTracker.get_popular_categories(days)] at [now]: [{"$ne": None}]
    drops null and missing categories; the result dict is filled in the
    sorted order. *)
Definition get_popular_categories (now days : Z) (arrange : dict Z -> dict Z) (db : DB)
  : dict Z :=
  fold_left (fun d kv => dset d (fst kv) (snd kv))
    (group_count arrange
       (flat_map (fun e => match e.(se_category) with Some c => [c] | None => [] end)
                 (window now days db))) [].

End Profiles.

(* ------------------------------------------------------------------ *)
(** ** Ad clicks and ad statistics: [track_ad_click], the click endpoint,
    [get_ad_performance], [get_top_performing_ads] *)

Module AdStats.
Import Py Store Matcher.

(** Outcome of [track_ad_click]: its return value and the store. *)
Record ClickResult := { cr_ok : bool; cr_db : DB }.

(** [products_col.update_one({"_id": ObjectId(h)}, {"$inc": {"clicks": 1}})]:
    the first product whose [_id] is that ObjectId gets one more click. *)
Definition inc_clicks (h : string) (ps : list Product) : list Product :=
  Profiles.update_first (fun p => oid_eqb p.(p_id) h)
    (fun p => {| p_id := p.(p_id); p_status := p.(p_status); p_stock := p.(p_stock);
                 p_targets := p.(p_targets); p_category := p.(p_category);
                 p_age_range := p.(p_age_range); p_target_locations := p.(p_target_locations);
                 p_created_at := p.(p_created_at); p_views := p.(p_views);
                 p_clicks := p.(p_clicks) + 1 |}) ps.

(** [AdMatcher.track_ad_click(user_id, product_id, source)] at [now]; the
    [source] field of the click document is read by no modelled code.  The
    click is inserted before [ObjectId(product_id)] is built, and an
    [InvalidId] is caught. *)
Definition track_ad_click (now : Z) (user_id : option string) (product_id : string) (db : DB)
  : ClickResult :=
  let db1 := {| users := db.(users);
                search_history := db.(search_history);
                search_patterns := db.(search_patterns);
                products := db.(products);
                ad_clicks := db.(ad_clicks) ++ [{| al_user := user_id;
                                                   al_product := STR product_id;
                                                   al_ts := now |}];
                ad_views := db.(ad_views) |} in
  match object_id (Some product_id) with
  | Some (Some h) =>
      {| cr_ok := true;
         cr_db := {| users := db1.(users); search_history := db1.(search_history);
                     search_patterns := db1.(search_patterns);
                     products := inc_clicks h db1.(products);
                     ad_clicks := db1.(ad_clicks); ad_views := db1.(ad_views) |} |}
  | _ => {| cr_ok := false; cr_db := db1 |}
  end.

(** [POST /api/ads/click] of [app.py] at [now]: the HTTP status and the
    store.  [ad_id] is the JSON string sent and [session_user] the session's
    user id; an exception escaping the body is answered with 500.  Product
    ids compare as ObjectIds, whatever the case of their hex digits. *)
Definition api_ad_click (now : Z) (session_user ad_id : option string) (db : DB) : Z * DB :=
  if negb (truthy_str ad_id) then (400, db)
  else
    let a := match ad_id with Some a => a | None => "" end in
    let db1 := if truthy_str session_user
               then cr_db (track_ad_click now session_user a db) else db in
    match object_id (Some a) with
    | Some (Some h) =>
        if existsb (fun p => String.eqb (lower p.(p_id)) (lower h)) db1.(products)
        then (200, db1) else (404, db1)
    | _ => (500, db1)
    end.

(** [distinct]: each value once, [None] standing for a null user id. *)
Fixpoint nub_opt (l : list (option string)) : list (option string) :=
  match l with
  | [] => []
  | x :: l' => if existsb (opt_str_eqb x) l' then nub_opt l' else x :: nub_opt l'
  end.

(** The dict [get_ad_performance] returns; [ctr] is [clicks / views * 100]
    taken exactly, before [round(_, 2)]. *)
Record Perf := {
  pf_product_id : string;
  pf_total_views : Z;
  pf_total_clicks : Z;
  pf_unique_clickers : Z;
  pf_ctr : Q;
  pf_recent_clicks_7d : Z
}.

(** [AdMatcher.get_ad_performance(product_id)] at [now]; its [except]
    branch only meets database failures, which the model does not have. *)
Definition get_ad_performance (now : Z) (product_id : string) (db : DB) : Perf :=
  let pid := STR product_id in
  let clicks := count_product pid db.(ad_clicks) in
  let views := count_product pid db.(ad_views) in
  let ctr := if 0 <? views then Qmake (clicks * 100) (Z.to_pos views) else Qmake 0 1 in
  let unique_clickers :=
    Z.of_nat (length (nub_opt (map al_user
                                 (filter (fun e => bson_eqb e.(al_product) pid) db.(ad_clicks))))) in
  let recent_clicks :=
    Z.of_nat (length (filter (fun e => bson_eqb e.(al_product) pid
                                       && (now - 7 * 86400 <=? e.(al_ts))) db.(ad_clicks))) in
  {| pf_product_id := product_id; pf_total_views := views; pf_total_clicks := clicks;
     pf_unique_clickers := unique_clickers; pf_ctr := ctr;
     pf_recent_clicks_7d := recent_clicks |}.

(** Stable insertion sort, descending for the order [lt]. *)
Fixpoint insert_by {A} (lt : A -> A -> bool) (x : A) (l : list A) : list A :=
  match l with
  | [] => [x]
  | y :: l' => if lt y x then x :: l else y :: insert_by lt x l'
  end.

Definition sort_by {A} (lt : A -> A -> bool) (l : list A) : list A :=
  fold_left (fun acc x => insert_by lt x acc) l [].

(** A row of the [get_top_performing_ads] pipeline after [$addFields]: the
    product, [click_count] and [view_count], the numbers of clicks and
    views whose [product_id] equals the product's ObjectId [_id]. *)
Record TopRow := { tr_product : Product; tr_clicks : Z; tr_views : Z }.

Definition top_row (db : DB) (p : Product) : TopRow :=
  {| tr_product := p;
     tr_clicks := count_product (OID p.(p_id)) db.(ad_clicks);
     tr_views := count_product (OID p.(p_id)) db.(ad_views) |}.

(** The [ctr] field: [$cond] on [view_count > 0], taken exactly. *)
Definition row_ctr (r : TopRow) : Q :=
  if 0 <? r.(tr_views) then Qmake (r.(tr_clicks) * 100) (Z.to_pos r.(tr_views))
  else Qmake 0 1.

(** One entry of [get_top_performing_ads] ([ctr] before [round(_, 2)]). *)
Record TopAd := {
  ta_product_id : string;
  ta_category : option string;
  ta_views : Z;
  ta_clicks : Z;
  ta_ctr : Q
}.

(** [AdMatcher.get_top_performing_ads(limit)]: ties of [ctr] in natural
    order; a [$limit] that is not positive is rejected, and the [except]
    returns []. *)
Definition get_top_performing_ads (limit : Z) (db : DB) : list TopAd :=
  if limit <=? 0 then []
  else
    map (fun r => {| ta_product_id := r.(tr_product).(p_id);
                     ta_category := fget r.(tr_product).(p_category);
                     ta_views := r.(tr_views); ta_clicks := r.(tr_clicks);
                     ta_ctr := row_ctr r |})
      (firstn (Z.to_nat limit)
         (sort_by (fun a b => negb (Qle_bool (row_ctr b) (row_ctr a)))
            (filter (fun r => 10 <=? r.(tr_views))
               (map (top_row db)
                    (filter (fun p => String.eqb p.(p_status) "approved") db.(products)))))).

(** The calls that write the ad logs or the search log: an ad click, a
    personalized slate request, a tracked search. *)
Inductive AdOp :=
  | OpClick (now : Z) (uid : option string) (product_id : string)
  | OpAds (now : Z) (uid : option string) (limit : Z) (shuffle : list Product -> list Product)
  | OpSearch (now : Z) (uid : option string) (query : string) (category : option string).

Definition run_ad_op (o : AdOp) (db : DB) : DB :=
  match o with
  | OpClick now uid pid => cr_db (track_ad_click now uid pid db)
  | OpAds now uid limit shuffle => snd (get_personalized_ads now uid limit shuffle db)
  | OpSearch now uid q c => Tracker.res_db (Tracker.track_search now uid q c db)
  end.

Fixpoint run_ad_ops (os : list AdOp) (db : DB) : DB :=
  match os with
  | [] => db
  | o :: os' => run_ad_ops os' (run_ad_op o db)
  end.

End AdStats.

(* ------------------------------------------------------------------ *)
(** ** Label vocabularies and orders used in the statements below *)

Module Vocab.

(** The labels the age rules of [categorize_user_on_registration] append. *)
Definition age_labels : list string :=
  ["young_adult"; "early_career"; "mid_career_family"; "established_professional"; "senior"].

(** The labels its job rules append. *)
Definition job_labels : list string :=
  ["government_employee"; "education_professional"; "tech_professional"; "management";
   "business_owner"; "student"].

(** Every key its rules add to the score dict. *)
Definition score_keys : list string :=
  ["education_seeker"; "tech_enthusiast"; "career_focused"; "property_seeker";
   "family_oriented"; "vehicle_buyer"; "investment_focused"; "property_investor";
   "health_focused"; "course_buyer"; "book_buyer"; "course_creator"; "electronics_buyer";
   "past_paper_buyer"; "business_oriented"].

(** The activity tiers of [_calculate_search_frequency], lowest first. *)
Definition frequency_rank (f : string) : Z :=
  if String.eqb f "very_active" then 3
  else if String.eqb f "active" then 2
  else if String.eqb f "moderate" then 1
  else 0.

End Vocab.

(* ------------------------------------------------------------------ *)
(** ** More concrete inputs *)

Module ExtraFixtures.
Import Py Registration Store Tracker Fixtures.

(** A writer, by job title. *)
Definition writer : UserData :=
  {| ud_age := None; ud_job := Some "Writer"; ud_location := None; ud_interests := [] |}.

(** User [a] with the dict a registration stores, twice searching for a
    course. *)
Definition course_search : SearchEvent :=
  {| se_user := Some uid_a; se_query := "online course"; se_category := Some "education";
     se_ts := 0 |}.

Definition dict_user : User :=
  {| u_id := uid_a; u_age := Some 30; u_location := None;
     u_ai := AIDictV {| ai_cats := Some ["student"]; ai_scores := Some [("education_seeker", 12)];
                        ai_last := None; ai_type := Some "registration" |} |}.

Definition searched_db : DB :=
  {| users := [dict_user];
     search_history := [course_search; course_search];
     search_patterns := [build_pattern 0 (Some uid_a) [course_search; course_search]];
     products := []; ad_clicks := []; ad_views := [] |}.

End ExtraFixtures.
(* ------------------------------------------------------------------ *)
(** ** Registration categorization *)

Module RegistrationFacts.
Import Py Registration Fixtures.

Lemma location_rule_cases (loc : string) (acc : list string * dict Z) :
  location_rule loc acc =
    (fst acc ++ ["urban_resident"],
     dbump (dbump (snd acc) "tech_enthusiast" 10) "electronics_buyer" 10)
  \/ location_rule loc acc = (fst acc ++ ["rural_resident"], snd acc).
Proof.
  unfold location_rule.
  destruct (negb (String.eqb loc "") && any_in urban_areas loc); auto.
Qed.

(** Claim C9: registering age 30, job "Software Engineer", interests
    ["technology"] yields, whatever the location, a category set holding
    early_career, tech_professional and at least one of tech_enthusiast
    or electronics_buyer. *)
Theorem registration_software_engineer (loc : option string) :
  let c := cz_categories (categorize_user_on_registration (software_engineer loc)) in
  In "early_career" c /\ In "tech_professional" c /\
  (In "tech_enthusiast" c \/ In "electronics_buyer" c).
Proof.
  unfold categorize_user_on_registration, software_engineer; cbn zeta beta.
  match goal with
  | |- context [location_rule ?L ?A] =>
      destruct (location_rule_cases L A) as [E | E]; rewrite E
  end; vm_compute; intuition.
Qed.

End RegistrationFacts.

(* ------------------------------------------------------------------ *)
(** ** Category labels only grow *)

Module LabelGrowth.
Import Py Store Tracker Passes.

Lemma elem_In (x : string) (l : list string) : elem x l = true <-> In x l.
Proof.
  unfold elem; rewrite existsb_exists; split.
  - intros [y [Hy E]]. apply String.eqb_eq in E; subst; exact Hy.
  - intros H. exists x; split; [exact H | apply String.eqb_refl].
Qed.

Lemma dedup_In (x : string) (l : list string) : In x (dedup l) <-> In x l.
Proof.
  induction l as [| y l IH]; simpl; [tauto |].
  case_eq (elem y l); intros E; simpl; rewrite IH; [| tauto].
  apply elem_In in E; split; [tauto | intros [-> | H]; assumption].
Qed.

Lemma find_map {A} (P : A -> bool) (f : A -> A) (l : list A) :
  (forall x, P (f x) = P x) -> find P (map f l) = option_map f (find P l).
Proof.
  intros HP; induction l as [| x l IH]; simpl; [reflexivity |].
  rewrite HP; destruct (P x); [reflexivity | exact IH].
Qed.

Lemma oid_eqb_lower (a b : string) : oid_eqb a b = true <-> lower a = lower b.
Proof. unfold oid_eqb; apply String.eqb_eq. Qed.

(** Two hex strings equal up to case find the same user. *)
Lemma find_oid_ext (h h' : string) (l : list User) :
  lower h = lower h' ->
  find (fun v => oid_eqb (u_id v) h) l = find (fun v => oid_eqb (u_id v) h') l.
Proof.
  intros E. assert (Hp : forall v, oid_eqb (u_id v) h = oid_eqb (u_id v) h')
    by (intros v; unfold oid_eqb; rewrite E; reflexivity).
  induction l as [| v l IH]; simpl; [reflexivity |]. rewrite Hp, IH. reflexivity.
Qed.

Lemma find_user_id (h : string) (u : User) (db : DB) :
  find_user (Some h) db = Some u -> lower (u_id u) = lower h.
Proof. simpl; intros H; apply find_some in H as [_ E]; apply oid_eqb_lower, E. Qed.

(** Writing [a] over the user found under [h0] keeps every label of every
    user, provided [a] keeps that user's labels. *)
Lemma set_ai_labels (h0 : string) (u : User) (a : AICategories) (db : DB) :
  find_user (Some h0) db = Some u ->
  incl (labels u.(u_ai)) (labels a) ->
  forall h, incl (user_labels db h) (user_labels (set_ai (u_id u) a db) h).
Proof.
  intros Hu Ha h. pose proof (find_user_id _ _ _ Hu) as Hid.
  unfold user_labels, set_ai; simpl.
  rewrite find_map by (intros v; destruct (oid_eqb (u_id v) (u_id u)); reflexivity).
  case_eq (find (fun v => oid_eqb (u_id v) h) (users db)); simpl;
    [| intros _; apply incl_refl].
  intros v Hv. case_eq (oid_eqb (u_id v) (u_id u)); intros E; simpl; [| apply incl_refl].
  pose proof (find_some _ _ Hv) as [_ Hh].
  apply oid_eqb_lower in Hh, E.
  rewrite (find_oid_ext h h0) in Hv by congruence.
  simpl in Hu. rewrite Hu in Hv. injection Hv as ->. exact Ha.
Qed.

Lemma user_labels_users (db db' : DB) (h : string) :
  users db = users db' -> user_labels db h = user_labels db' h.
Proof. intros E; unfold user_labels; rewrite E; reflexivity. Qed.

Lemma update_search_patterns_users (now : Z) (uid : option string) (db : DB) :
  users (update_search_patterns now uid db) = users db.
Proof. unfold update_search_patterns; destruct (recent_searches now uid db); reflexivity. Qed.

Lemma recategorize_user_grows (now : Z) (uid : option string) (db db' : DB) :
  recategorize_user now uid db = Some db' ->
  forall h, incl (user_labels db h) (user_labels db' h).
Proof.
  unfold recategorize_user.
  destruct (find_pattern uid db) as [pat |]; [| intros [= <-] h; apply incl_refl].
  destruct (object_id uid) as [oid |]; [| discriminate].
  case_eq (find_user oid db); [| intros _ [= <-] h; apply incl_refl].
  intros u Hu [= <-].
  destruct oid as [h0 |]; [| discriminate Hu].
  apply (set_ai_labels h0 u); [exact Hu |].
  intros x Hx; destruct (u_ai u); simpl in *; try contradiction;
    apply dedup_In, in_or_app; left; exact Hx.
Qed.

Lemma track_search_grows (now : Z) (uid : option string) (q : string)
    (c : option string) (db : DB) :
  forall h, incl (user_labels db h) (user_labels (res_db (track_search now uid q c db)) h).
Proof.
  intros h. unfold track_search.
  match goal with
  | |- context [update_search_patterns now uid ?D] =>
      assert (Hu : users (update_search_patterns now uid D) = users db)
        by (rewrite update_search_patterns_users; reflexivity);
      case_eq (recategorize_user now uid (update_search_patterns now uid D))
  end; simpl.
  - intros db3 Hr. rewrite (user_labels_users db _ h (eq_sym Hu)).
    exact (recategorize_user_grows _ _ _ _ Hr h).
  - intros _. rewrite (user_labels_users db _ h (eq_sym Hu)). apply incl_refl.
Qed.

Lemma append_high_grows (ss : dict Z) (cats : list string) :
  incl cats (SearchRecategorize.append_high ss cats).
Proof.
  unfold SearchRecategorize.append_high. revert cats.
  induction ss as [| kv ss IH]; intros cats; simpl; [apply incl_refl |].
  eapply incl_tran; [| apply IH].
  destruct ((15 <=? snd kv) && negb (elem (fst kv) cats));
    [apply incl_appl, incl_refl | apply incl_refl].
Qed.

Lemma recategorize_based_on_search_grows (now : Z) (uid : option string) (db : DB) :
  forall h, incl (user_labels db h)
    (user_labels (res_db (run_pass (PSearchRecat now uid) db)) h).
Proof.
  intros h. unfold run_pass, SearchRecategorize.recategorize_based_on_search.
  destruct (object_id uid) as [oid |]; simpl; [| apply incl_refl].
  case_eq (find_user oid db); [| intros _; apply incl_refl].
  intros u Hu.
  destruct oid as [h0 |]; [| discriminate Hu].
  destruct (sort_desc se_ts (filter (fun e => opt_str_eqb (se_user e) uid)
                                    (search_history db))) as [| s ss];
    simpl; [apply incl_refl |].
  destruct (u_ai u) as [| d | l |] eqn:Hai; simpl; try apply incl_refl;
    apply (set_ai_labels h0 u); try exact Hu; rewrite Hai; simpl;
    intros x Hx; apply dedup_In, append_high_grows; exact Hx.
Qed.

Lemma run_pass_grows (p : Pass) (db : DB) :
  forall h, incl (user_labels db h) (user_labels (res_db (run_pass p db)) h).
Proof.
  destruct p as [now uid q c | now uid].
  - apply track_search_grows.
  - apply recategorize_based_on_search_grows.
Qed.

(** Claim C2: over any sequence of recategorization passes (tracked
    searches and search-based recategorizations) every category label a
    user holds is still held afterwards. *)
Theorem labels_monotone (ps : list Pass) (db : DB) (h : string) :
  incl (user_labels db h) (user_labels (run_passes ps db) h).
Proof.
  revert db; induction ps as [| p ps IH]; intros db; simpl; [apply incl_refl |].
  eapply incl_tran; [apply run_pass_grows | apply IH].
Qed.

End LabelGrowth.

(* ------------------------------------------------------------------ *)
(** ** Facts about the profile recompute *)

Module ProfileFacts.
Import Py Store Tracker.

Lemma opt_str_eqb_refl (o : option string) : opt_str_eqb o o = true.
Proof. destruct o; simpl; [apply String.eqb_refl | reflexivity]. Qed.

(** After the upsert, the pattern found for its user is the new one. *)
Lemma find_pattern_upsert (p : Pattern) (db : DB) :
  find_pattern p.(pat_user) (upsert_pattern p db) = Some p.
Proof.
  unfold find_pattern, upsert_pattern; simpl.
  induction (search_patterns db) as [| q l IH]; simpl.
  - rewrite opt_str_eqb_refl; reflexivity.
  - match goal with |- context [if ?b || _ then _ else _] => case_eq b end;
      intros E; simpl.
    + rewrite opt_str_eqb_refl; reflexivity.
    + match goal with |- context [if existsb ?f l then _ else _] =>
        case_eq (existsb f l); intros E2; rewrite E2 in IH end;
      simpl; rewrite E; exact IH.
Qed.

Lemma update_search_patterns_history (now : Z) (uid : option string) (db : DB) :
  search_history (update_search_patterns now uid db) = search_history db.
Proof. unfold update_search_patterns; destruct (recent_searches now uid db); reflexivity. Qed.

Lemma recent_searches_history (now : Z) (uid : option string) (db db' : DB) :
  search_history db = search_history db' ->
  recent_searches now uid db = recent_searches now uid db'.
Proof. intros E; unfold recent_searches; rewrite E; reflexivity. Qed.

(** Sorting is a permutation. *)
Lemma insert_desc_perm {A} (key : A -> Z) (x : A) (l : list A) :
  Permutation (insert_desc key x l) (x :: l).
Proof.
  induction l as [| y l IH]; simpl; [reflexivity |].
  destruct (key y <? key x); [reflexivity |].
  rewrite IH; apply perm_swap.
Qed.

Lemma sort_desc_perm {A} (key : A -> Z) (l : list A) :
  Permutation (sort_desc key l) l.
Proof.
  unfold sort_desc.
  assert (G : forall acc, Permutation (fold_left (fun acc x => insert_desc key x acc) l acc)
                                      (l ++ acc)).
  { induction l as [| x l IH]; intros acc; simpl; [reflexivity |].
    rewrite IH, insert_desc_perm. symmetry; apply Permutation_middle. }
  rewrite G, app_nil_r; reflexivity.
Qed.

(** Dict keys stay duplicate-free under [d[k] = v]. *)
Lemma dset_keys_In {V} (d : dict V) (k x : string) (v : V) :
  In x (map fst (dset d k v)) -> In x (map fst d) \/ x = k.
Proof.
  induction d as [| [k' v'] d IH]; simpl.
  - intros [-> | []]; right; reflexivity.
  - destruct (String.eqb k k'); simpl; [tauto |].
    intros [-> | H]; [left; left; reflexivity |].
    destruct (IH H); tauto.
Qed.

Lemma dset_NoDup {V} (d : dict V) (k : string) (v : V) :
  NoDup (map fst d) -> NoDup (map fst (dset d k v)).
Proof.
  induction d as [| [k' v'] d IH]; simpl; intros Hd.
  - constructor; [intros [] | constructor].
  - inversion Hd as [| ? ? Hn Hd']; subst.
    case_eq (String.eqb k k'); intros E; simpl; [constructor; assumption |].
    constructor; [| apply IH; exact Hd'].
    intros Hin; destruct (dset_keys_In _ _ _ _ Hin) as [H | H]; [contradiction |].
    subst; rewrite String.eqb_refl in E; discriminate.
Qed.

Lemma counter_NoDup (xs : list string) : NoDup (map fst (counter xs)).
Proof.
  unfold counter.
  assert (G : forall c, NoDup (map fst c) ->
              NoDup (map fst (fold_left (fun c k => dbump c k 1) xs c))).
  { induction xs as [| x xs IH]; intros c Hc; simpl; [exact Hc |].
    apply IH; unfold dbump; apply dset_NoDup; exact Hc. }
  apply G; constructor.
Qed.

Lemma most_common_NoDup (n : nat) (c : dict Z) :
  NoDup (map fst c) -> NoDup (map fst (most_common n c)).
Proof.
  intros Hc; unfold most_common.
  assert (Hs : NoDup (map fst (sort_desc snd c)))
    by (eapply Permutation_NoDup; [symmetry; apply Permutation_map, sort_desc_perm | exact Hc]).
  rewrite <- firstn_map.
  rewrite <- (firstn_skipn n (map fst (sort_desc snd c))) in Hs.
  eapply NoDup_app_remove_r; exact Hs.
Qed.

Lemma keyword_match_score_bound (l kws : list string) :
  0 <= keyword_match_score l kws <= Z.of_nat (length l).
Proof. unfold keyword_match_score; pose proof (filter_length_le (fun kw => elem kw kws) l); lia. Qed.

End ProfileFacts.

Module ProfileClaims.
Import Py Store Tracker Fixtures ProfileFacts.

Lemma find_pattern_upsert_build (now : Z) (uid : option string)
    (ss : list SearchEvent) (db : DB) :
  find_pattern uid (upsert_pattern (build_pattern now uid ss) db)
  = Some (build_pattern now uid ss).
Proof. exact (find_pattern_upsert (build_pattern now uid ss) db). Qed.

(** Claim C3 fails: two successive recomputes over the same unchanged log,
    one second apart, write different pattern documents (their
    [last_updated] differs). *)
Lemma recompute_twice_differs :
  let db1 := update_search_patterns 10 (Some "u1") demo_db in
  let db2 := update_search_patterns 11 (Some "u1") db1 in
  search_history db2 = search_history demo_db /\
  find_pattern (Some "u1") db2 <> find_pattern (Some "u1") db1.
Proof. vm_compute; split; [reflexivity | discriminate]. Qed.

(** Claim C3 as amended: recomputing twice over the same log, at times whose
    30-day windows select the same searches, leaves the log unchanged and
    writes the same search count, top keywords, top categories, interest
    scores and search frequency; only [last_updated] may differ. *)
Theorem recompute_twice_same_fields (t1 t2 : Z) (uid : option string) (db : DB)
    (Hw : recent_searches t1 uid db = recent_searches t2 uid db) :
  let db1 := update_search_patterns t1 uid db in
  let db2 := update_search_patterns t2 uid db1 in
  search_history db2 = search_history db /\
  option_map derived (find_pattern uid db2) = option_map derived (find_pattern uid db1).
Proof.
  cbv zeta.
  assert (Hr : recent_searches t2 uid (update_search_patterns t1 uid db)
               = recent_searches t1 uid db)
    by (rewrite Hw; apply recent_searches_history, update_search_patterns_history).
  split; [rewrite !update_search_patterns_history; reflexivity |].
  unfold update_search_patterns at 1. rewrite Hr.
  unfold update_search_patterns.
  destruct (recent_searches t1 uid db) as [| s ss]; [reflexivity |].
  rewrite !find_pattern_upsert_build. reflexivity.
Qed.

(** Claim C8: with no search of the user in the 30-day window the recompute
    leaves the store (and so the stored profile) untouched; and a tracked
    search under a well-formed user id that no stored user carries returns
    normally, leaving every user record as it was. *)
Theorem recompute_missing_noop (now : Z) (uid : option string) (db : DB)
    (h q : string) (c : option string) :
  (recent_searches now uid db = [] -> update_search_patterns now uid db = db) /\
  (valid_oid h = true -> find_user (Some h) db = None ->
   exists db', track_search now (Some h) q c db = Ok db' /\ users db' = users db).
Proof.
  split.
  - intros E; unfold update_search_patterns; rewrite E; reflexivity.
  - intros Hv Hn. unfold track_search, recategorize_user.
    match goal with
    | |- context [update_search_patterns now (Some h) ?D] =>
        assert (Hu : users (update_search_patterns now (Some h) D) = users db)
          by (rewrite LabelGrowth.update_search_patterns_users; reflexivity);
        destruct (find_pattern (Some h) (update_search_patterns now (Some h) D));
        [unfold object_id; rewrite Hv;
         assert (Hf : find_user (Some h) (update_search_patterns now (Some h) D) = None)
           by (simpl in *; rewrite Hu; exact Hn);
         rewrite Hf |];
        eexists; (split; [reflexivity | exact Hu])
    end.
Qed.

(** Claim C10: after a recompute that found searches, the stored top
    keywords are at most 20 distinct keys, the interest scores cover the
    eight topics, and each score lies between 0 and 20. *)
Theorem interest_scores_bounded (now : Z) (uid : option string) (db : DB) (p : Pattern)
    (Hne : recent_searches now uid db <> [])
    (Hp : find_pattern uid (update_search_patterns now uid db) = Some p) :
  NoDup (map fst p.(pat_top_keywords)) /\
  (length p.(pat_top_keywords) <= 20)%nat /\
  map fst p.(pat_interest) =
    ["education"; "health"; "business"; "employment";
     "technology"; "transport"; "property"; "immigration"] /\
  (forall k v, In (k, v) p.(pat_interest) -> 0 <= v <= 20).
Proof.
  unfold update_search_patterns in Hp.
  destruct (recent_searches now uid db) as [| s ss]; [contradiction |].
  rewrite find_pattern_upsert_build in Hp. injection Hp as <-.
  unfold build_pattern; simpl.
  set (tk := most_common 20 _).
  assert (Hlen : (length tk <= 20)%nat) by apply firstn_le_length.
  split; [apply most_common_NoDup, counter_NoDup |].
  split; [exact Hlen |]. split; [reflexivity |].
  intros k v Hin.
  assert (Hb : forall kws, 0 <= keyword_match_score (map fst tk) kws <= 20)
    by (intros kws; pose proof (keyword_match_score_bound (map fst tk) kws);
        rewrite length_map in *; lia).
  simpl in Hin; repeat destruct Hin as [Hin | Hin]; try injection Hin as _ <-;
    try apply Hb; contradiction.
Qed.

End ProfileClaims.

(* ------------------------------------------------------------------ *)
(** ** Facts about the ad matcher *)

Module MatcherFacts.
Import Py Store Matcher.

Lemma take_incl {A} (n : Z) (l : list A) : incl (take n l) l.
Proof.
  unfold take; intros x Hx.
  destruct (0 <=? n);
    [rewrite <- (firstn_skipn (Z.to_nat n) l) | rewrite <- (firstn_skipn (Z.to_nat (Z.of_nat (length l) + n)) l)];
    apply in_or_app; left; exact Hx.
Qed.

Lemma firstn_In_incl {A} (n : nat) (l : list A) (x : A) :
  In x (firstn n l) -> In x l.
Proof. intros H; rewrite <- (firstn_skipn n l); apply in_or_app; left; exact H. Qed.

Lemma sort_desc_In {A} (key : A -> Z) (l : list A) (x : A) :
  In x (sort_desc key l) -> In x l.
Proof. intros H; eapply Permutation_in; [apply ProfileFacts.sort_desc_perm | exact H]. Qed.

(** Every ad of a ranked slate carries a positive score. *)
Lemma ranked_slate_positive (n : Z) (l : list (Product * Z)) :
  (forall ps, In ps l -> 0 < snd ps) ->
  forall a, In a (map (fun ps => format (fst ps) (snd ps)) (take n (sort_desc snd l))) ->
  1 <= ad_relevance a.
Proof.
  intros Hl a Ha. apply in_map_iff in Ha as [ps [<- Hps]].
  apply take_incl, sort_desc_In, Hl in Hps. simpl; lia.
Qed.

Lemma scored_positive (f : Product -> Z) (l : list Product) :
  forall ps, In ps (flat_map (fun p => if 0 <? f p then [(p, f p)] else []) l) -> 0 < snd ps.
Proof.
  intros ps Hps. apply in_flat_map in Hps as [p [_ Hp]].
  case_eq (0 <? f p); intros E; rewrite E in Hp; [| contradiction].
  destruct Hp as [<- | []]; simpl; apply Z.ltb_lt, E.
Qed.

Lemma default_ads_zero (limit : Z) (shuffle : list Product -> list Product) (db : DB) :
  forall a, In a (get_default_ads limit shuffle db) -> ad_relevance a = 0.
Proof.
  unfold get_default_ads; intros a Ha.
  destruct (limit * 2 <=? 0); [contradiction |].
  apply in_map_iff in Ha as [p [<- _]]; reflexivity.
Qed.

Lemma existsb_false_forall {A} (f : A -> bool) (l : list A) :
  (forall x, In x l -> f x = false) -> existsb f l = false.
Proof.
  intros H. destruct (existsb f l) eqn:E; [| reflexivity].
  apply existsb_exists in E as [x [Hx Hf]]. rewrite (H x Hx) in Hf. discriminate.
Qed.

(** Claim C1 as amended: every ad get_personalized_ads returns has a
    non-negative relevance score.  When the user resolves and every
    candidate can be scored, every returned ad scores at least 1, so a
    candidate whose clamped score is 0 is left out of the slate.  When
    scoring raises on some candidate, the call serves the default slate,
    every ad scoring 0, and writes nothing. *)
Theorem slate_scores_nonneg (now : Z) (uid : option string) (limit : Z)
    (shuffle : list Product -> list Product) (db : DB) :
  (forall a, In a (fst (get_personalized_ads now uid limit shuffle db)) ->
             0 <= ad_relevance a) /\
  (forall oid u, object_id uid = Some oid -> find_user oid db = Some u ->
   (forall p, In p (active_products db) -> score_raises p u.(u_location) = false) ->
   forall a, In a (fst (get_personalized_ads now uid limit shuffle db)) ->
             1 <= ad_relevance a) /\
  (forall oid u, object_id uid = Some oid -> find_user oid db = Some u ->
   (exists p, In p (active_products db) /\ score_raises p u.(u_location) = true) ->
   get_personalized_ads now uid limit shuffle db = (get_default_ads limit shuffle db, db) /\
   forall a, In a (fst (get_personalized_ads now uid limit shuffle db)) -> ad_relevance a = 0).
Proof.
  split; [| split].
  - intros a Ha. unfold get_personalized_ads in Ha.
    destruct (object_id uid) as [oid |] eqn:Ho;
      [| rewrite (default_ads_zero _ _ _ a Ha); lia].
    destruct (find_user oid db) as [u |] eqn:Hu;
      [| rewrite (default_ads_zero _ _ _ a Ha); lia].
    cbv zeta in Ha.
    destruct (existsb _ (active_products db));
      [rewrite (default_ads_zero _ _ _ a Ha); lia |].
    assert (1 <= ad_relevance a); [| lia].
    eapply ranked_slate_positive; [| exact Ha]. apply scored_positive.
  - intros oid u Ho Hu Hn a Ha. unfold get_personalized_ads in Ha.
    rewrite Ho, Hu in Ha. cbv zeta in Ha.
    rewrite (existsb_false_forall _ _ Hn) in Ha.
    eapply ranked_slate_positive; [| exact Ha]. apply scored_positive.
  - intros oid u Ho Hu [p [Hp Hr]].
    assert (E : get_personalized_ads now uid limit shuffle db =
                (get_default_ads limit shuffle db, db)).
    { unfold get_personalized_ads. rewrite Ho, Hu. cbv zeta.
      replace (existsb _ (active_products db)) with true; [reflexivity |].
      symmetry. apply existsb_exists. exists p. split; assumption. }
    split; [exact E |]. rewrite E. apply default_ads_zero.
Qed.

End MatcherFacts.

(** ** Claims about the ad matcher *)

Module MatcherClaims.
Import Py Store Matcher Fixtures MatcherFacts.

(** Claim C1 fails: user [a] and an approved product whose score before
    clamping is 0; the product is a candidate, yet the slate is empty. *)
Lemma zero_score_item_dropped :
  In (plain_product pid_1 "approved" None) (active_products plain_db) /\
  raw_score 1000 (plain_product pid_1 "approved" None) [] [] None None
            (Some uid_a) [] [] <= 0 /\
  fst (get_personalized_ads 1000 (Some uid_a) 5 (fun l => l) plain_db) = [].
Proof. vm_compute; split; [left; reflexivity | split; [discriminate | reflexivity]]. Qed.

Lemma count_product_nonneg (pid : BsonId) (log : list AdLog) : 0 <= count_product pid log.
Proof. unfold count_product; lia. Qed.

Lemma recent_views_nonneg (now : Z) (uid : option string) (pid : BsonId) (log : list AdLog) :
  0 <= recent_views now uid pid log.
Proof. unfold recent_views; lia. Qed.

(** Claim C4: with at most 10 recorded views of an item, its clicks do not
    move its score; with more than 10 views, the clicks add
    floor(10 * clicks / views) to the score it would have with none. *)
Theorem ctr_gating (now : Z) (p : Product) (cats : list string) (isc : dict Z)
    (age : option Z) (loc uid : option string) (clicks1 clicks2 views : list AdLog) :
  (count_product (STR p.(p_id)) views <= 10 ->
   raw_score now p cats isc age loc uid clicks1 views =
   raw_score now p cats isc age loc uid clicks2 views) /\
  (10 < count_product (STR p.(p_id)) views ->
   raw_score now p cats isc age loc uid clicks1 views =
   raw_score now p cats isc age loc uid [] views
   + (10 * count_product (STR p.(p_id)) clicks1) / count_product (STR p.(p_id)) views).
Proof.
  unfold raw_score; cbv zeta.
  set (nv := count_product (STR (p_id p)) views).
  set (rv := recent_views now uid (STR (p_id p)) views).
  split; intros Hv.
  - replace (10 <? nv) with false by (symmetry; apply Z.ltb_ge; exact Hv).
    reflexivity.
  - replace (10 <? nv) with true by (symmetry; apply Z.ltb_lt; exact Hv).
    replace (count_product (STR (p_id p)) []) with 0 by reflexivity.
    rewrite Z.mul_0_r, Z.div_0_l by lia.
    destruct (0 <? rv); lia.
Qed.

(** Claim C5 fails: ten views of product 3 by user [b] and five clicks; one
    more view by user [a] an hour ago lowers [a]'s score for the product
    by 1, not 5, since that view also lifts the product past 10 views and
    turns on the CTR term. *)
Lemma repeat_view_shifts_ctr :
  let p := plain_product pid_3 "approved" None in
  recent_views 100000 (Some uid_a) (STR pid_3) (others_views ++ [view_of uid_a pid_3 96400]) = 1 /\
  recent_views 100000 (Some uid_a) (STR pid_3) others_views = 0 /\
  raw_score 100000 p [] [] None None (Some uid_a) five_clicks
            (others_views ++ [view_of uid_a pid_3 96400]) = -1 /\
  raw_score 100000 p [] [] None None (Some uid_a) five_clicks others_views = 0.
Proof. vm_compute; repeat split. Qed.

(** Claim C5 as amended: against a view log with the same total number of
    views of the item but none by the user in the last 24 hours, the score
    before clamping is lower by exactly 5 per view by the user at or after
    now - 24h; a view older than that adds no penalty. *)
Theorem diversity_penalty_exact (now : Z) (p : Product) (cats : list string) (isc : dict Z)
    (age : option Z) (loc uid : option string) (clicks views1 views2 : list AdLog)
    (Htot : count_product (STR p.(p_id)) views1 = count_product (STR p.(p_id)) views2)
    (Hnone : recent_views now uid (STR p.(p_id)) views2 = 0) :
  raw_score now p cats isc age loc uid clicks views1 =
  raw_score now p cats isc age loc uid clicks views2
  - 5 * recent_views now uid (STR p.(p_id)) views1 /\
  (forall e, al_ts e < now - 86400 ->
   recent_views now uid (STR p.(p_id)) (views1 ++ [e]) =
   recent_views now uid (STR p.(p_id)) views1).
Proof.
  split.
  - unfold raw_score; cbv zeta. rewrite Htot, Hnone.
    pose proof (recent_views_nonneg now uid (STR (p_id p)) views1) as H0.
    rewrite Z.ltb_irrefl.
    destruct (0 <? recent_views now uid (STR (p_id p)) views1) eqn:E.
    + lia.
    + apply Z.ltb_ge in E. lia.
  - intros e He. unfold recent_views. rewrite filter_app; simpl.
    replace (now - 86400 <=? al_ts e) with false by (symmetry; apply Z.leb_gt; exact He).
    rewrite andb_false_r, app_nil_r. reflexivity.
Qed.

(** Claim C6 as amended: the candidates are exactly the approved products
    whose stock is positive or absent. *)
Theorem active_products_spec (db : DB) (p : Product) :
  In p (active_products db) <->
  In p (products db) /\ p_status p = "approved" /\
  (p_stock p = None \/ exists s, p_stock p = Some s /\ 0 < s).
Proof.
  unfold active_products; rewrite filter_In, andb_true_iff, String.eqb_eq.
  destruct (p_stock p) as [s |]; split.
  - intros [Hin [Hs Hp]]; apply Z.ltb_lt in Hp; eauto 6.
  - intros [Hin [Hs [Hn | [s' [[= <-] Hp]]]]]; [discriminate |].
    repeat split; auto; apply Z.ltb_lt, Hp.
  - intros [Hin [Hs _]]; auto.
  - intros [Hin [Hs _]]; auto.
Qed.

(** Claim C6 fails: an approved product with stock 0 is not a candidate. *)
Lemma zero_stock_excluded :
  In (plain_product pid_1 "approved" (Some 0)) (products no_stock_db) /\
  ~ In (plain_product pid_1 "approved" (Some 0)) (active_products no_stock_db).
Proof. vm_compute; split; [left; reflexivity | intros []]. Qed.

Lemma default_ads_from_pipeline (limit : Z) (shuffle : list Product -> list Product)
    (db : DB) (Hs : forall l, Permutation (shuffle l) l) :
  forall a, In a (get_default_ads limit shuffle db) ->
  exists p, In p (map fst (default_pipeline limit db)) /\ a = format p 0.
Proof.
  unfold get_default_ads; intros a Ha.
  destruct (limit * 2 <=? 0); [contradiction |].
  apply in_map_iff in Ha as [p [<- Hp]].
  exists p; split; [| reflexivity].
  apply take_incl in Hp. eapply Permutation_in; [apply Hs | exact Hp].
Qed.

(** The default pipeline joins the ObjectId [_id] of a product to the
    [product_id] of its clicks; clicks logged with string ids, as
    [track_ad_click] stores them, never join, so every click count is 0. *)
Lemma default_click_counts_zero (limit : Z) (db : DB) :
  (forall e, In e (ad_clicks db) -> exists s, al_product e = STR s) ->
  forall ps, In ps (default_pipeline limit db) -> snd ps = 0.
Proof.
  intros Hc ps Hps. unfold default_pipeline in Hps.
  apply firstn_In_incl, sort_desc_In, in_map_iff in Hps as [p [<- _]].
  unfold count_product; simpl.
  destruct (filter _ (ad_clicks db)) as [| x xs] eqn:F; [reflexivity | exfalso].
  assert (Hx : In x (filter (fun e => bson_eqb (al_product e) (OID (p_id p))) (ad_clicks db)))
    by (rewrite F; left; reflexivity).
  apply filter_In in Hx as [Hx Hb]. destruct (Hc x Hx) as [s Es].
  rewrite Es in Hb; discriminate.
Qed.

(** Claim C7 (defect): with user id [f] unknown, the default slate should
    be drawn from the most-clicked products; product 3 holds all three
    recorded clicks, yet the pipeline counts 0 clicks for every product,
    keeps products 1 and 2 for a limit of 1, and product 3 can never be
    shown, whatever the shuffle. *)
Theorem default_slate_ignores_clicks (shuffle : list Product -> list Product)
    (Hs : forall l, Permutation (shuffle l) l) :
  count_product (STR pid_3) (ad_clicks clicked_db) = 3 /\
  map snd (default_pipeline 1 clicked_db) = [0; 0] /\
  ~ In pid_3 (map ad_product_id
                (fst (get_personalized_ads 1000 (Some uid_f) 1 shuffle clicked_db))).
Proof.
  split; [vm_compute; reflexivity |]. split; [vm_compute; reflexivity |].
  intros H. apply in_map_iff in H as [a [Ha Hin]].
  change (fst (get_personalized_ads 1000 (Some uid_f) 1 shuffle clicked_db))
    with (get_default_ads 1 shuffle clicked_db) in Hin.
  apply (default_ads_from_pipeline _ _ _ Hs) in Hin as [p [Hp ->]].
  vm_compute in Hp. destruct Hp as [<- | [<- | []]]; vm_compute in Ha; discriminate.
Qed.

End MatcherClaims.

(* ------------------------------------------------------------------ *)
(** ** Witnesses: the theorems above applied at concrete stores *)

Module Witnesses.
Import Py Store Tracker Matcher Fixtures ProfileClaims MatcherFacts MatcherClaims.

Lemma recompute_twice_same_fields_witness :
  recent_searches 10 (Some "u1") demo_db = recent_searches 11 (Some "u1") demo_db /\
  option_map derived
    (find_pattern (Some "u1")
       (update_search_patterns 11 (Some "u1") (update_search_patterns 10 (Some "u1") demo_db)))
  = option_map derived
      (find_pattern (Some "u1") (update_search_patterns 10 (Some "u1") demo_db)).
Proof.
  assert (Hw : recent_searches 10 (Some "u1") demo_db = recent_searches 11 (Some "u1") demo_db)
    by (vm_compute; reflexivity).
  split; [exact Hw | exact (proj2 (recompute_twice_same_fields 10 11 (Some "u1") demo_db Hw))].
Defined.

Lemma recompute_missing_noop_witness :
  update_search_patterns 10 (Some uid_a) empty_db = empty_db /\
  exists db', track_search 10 (Some uid_a) "passport" None empty_db = Ok db' /\
              users db' = users empty_db.
Proof.
  destruct (recompute_missing_noop 10 (Some uid_a) empty_db uid_a "passport" None) as [A B].
  split; [apply A; reflexivity | apply B; vm_compute; reflexivity].
Defined.

Lemma interest_scores_bounded_witness :
  let p := build_pattern 10 (Some "u1") (recent_searches 10 (Some "u1") demo_db) in
  recent_searches 10 (Some "u1") demo_db <> [] /\
  find_pattern (Some "u1") (update_search_patterns 10 (Some "u1") demo_db) = Some p /\
  (forall k v, In (k, v) p.(pat_interest) -> 0 <= v <= 20).
Proof.
  cbv zeta.
  assert (Hne : recent_searches 10 (Some "u1") demo_db <> []) by (vm_compute; discriminate).
  assert (Hp : find_pattern (Some "u1") (update_search_patterns 10 (Some "u1") demo_db)
               = Some (build_pattern 10 (Some "u1") (recent_searches 10 (Some "u1") demo_db)))
    by (vm_compute; reflexivity).
  split; [exact Hne | split; [exact Hp |]].
  exact (proj2 (proj2 (proj2 (interest_scores_bounded 10 (Some "u1") demo_db _ Hne Hp)))).
Defined.

Lemma slate_scores_nonneg_witness :
  fst (get_personalized_ads 1000 (Some uid_b_upper) 5 (fun l => l) scored_db) <> [] /\
  (forall a, In a (fst (get_personalized_ads 1000 (Some uid_b_upper) 5 (fun l => l) scored_db)) ->
             1 <= ad_relevance a) /\
  get_personalized_ads 1000 (Some uid_b) 5 (fun l => l) null_category_db =
    (get_default_ads 5 (fun l => l) null_category_db, null_category_db).
Proof.
  destruct (slate_scores_nonneg 1000 (Some uid_b_upper) 5 (fun l => l) scored_db) as [_ [B _]].
  destruct (slate_scores_nonneg 1000 (Some uid_b) 5 (fun l => l) null_category_db) as [_ [_ C]].
  split; [vm_compute; discriminate |]. split.
  - apply (B (Some uid_b_upper) user_b); [vm_compute; reflexivity | vm_compute; reflexivity |].
    intros p Hp. vm_compute in Hp. destruct Hp as [<- | [<- | []]]; reflexivity.
  - apply (C (Some uid_b) user_b); [vm_compute; reflexivity | vm_compute; reflexivity |].
    exists null_category_product. split; [vm_compute; right; left; reflexivity | reflexivity].
Defined.

Lemma ctr_gating_witness :
  let p := plain_product pid_3 "approved" None in
  let views := others_views ++ [view_of uid_a pid_3 96400] in
  count_product (STR pid_3) others_views <= 10 /\
  raw_score 100000 p [] [] None None (Some uid_a) five_clicks others_views =
  raw_score 100000 p [] [] None None (Some uid_a) [] others_views /\
  10 < count_product (STR pid_3) views /\
  raw_score 100000 p [] [] None None (Some uid_a) five_clicks views =
  raw_score 100000 p [] [] None None (Some uid_a) [] views + (10 * 5) / 11.
Proof.
  cbv zeta.
  assert (H1 : count_product (STR pid_3) others_views <= 10) by (vm_compute; discriminate).
  assert (H2 : 10 < count_product (STR pid_3) (others_views ++ [view_of uid_a pid_3 96400]))
    by (vm_compute; reflexivity).
  destruct (ctr_gating 100000 (plain_product pid_3 "approved" None) [] [] None None
              (Some uid_a) five_clicks [] others_views) as [A _].
  destruct (ctr_gating 100000 (plain_product pid_3 "approved" None) [] [] None None
              (Some uid_a) five_clicks [] (others_views ++ [view_of uid_a pid_3 96400]))
    as [_ B].
  split; [exact H1 | split; [exact (A H1) | split; [exact H2 |]]].
  rewrite (B H2); reflexivity.
Defined.

Lemma diversity_penalty_exact_witness :
  let p := plain_product pid_3 "approved" None in
  raw_score 100000 p [] [] None None (Some uid_a) five_clicks [view_of uid_a pid_3 96400] =
  raw_score 100000 p [] [] None None (Some uid_a) five_clicks [view_of uid_b pid_3 96400]
  - 5 * 1.
Proof.
  cbv zeta.
  assert (Ht : count_product (STR (p_id (plain_product pid_3 "approved" None)))
                 [view_of uid_a pid_3 96400]
               = count_product (STR (p_id (plain_product pid_3 "approved" None)))
                 [view_of uid_b pid_3 96400]) by (vm_compute; reflexivity).
  assert (Hn : recent_views 100000 (Some uid_a) (STR (p_id (plain_product pid_3 "approved" None)))
                 [view_of uid_b pid_3 96400] = 0) by (vm_compute; reflexivity).
  rewrite (proj1 (diversity_penalty_exact 100000 (plain_product pid_3 "approved" None) [] []
                    None None (Some uid_a) five_clicks _ _ Ht Hn)).
  reflexivity.
Defined.

Lemma default_slate_ignores_clicks_witness :
  ~ In pid_3 (map ad_product_id
                (fst (get_personalized_ads 1000 (Some uid_f) 1 (fun l => l) clicked_db))).
Proof.
  exact (proj2 (proj2 (default_slate_ignores_clicks (fun l => l) (fun l => Permutation_refl l)))).
Defined.

End Witnesses.

(* ------------------------------------------------------------------ *)
(** ** More facts about dicts, sorting and strings *)

Module ContainerFacts.
Import Py Store Tracker.

Lemma In_of_elem (x : string) (l : list string) : elem x l = true -> In x l.
Proof. apply (proj1 (LabelGrowth.elem_In x l)). Qed.

Lemma not_In_of_elem (x : string) (l : list string) : elem x l = false -> ~ In x l.
Proof. intros E H. apply LabelGrowth.elem_In in H. congruence. Qed.

(** A boolean subset test, to settle inclusions between concrete lists. *)
Lemma forallb_incl (l V : list string) :
  forallb (fun x => elem x V) l = true -> incl l V.
Proof.
  intros H x Hx. rewrite forallb_forall in H. apply In_of_elem, H, Hx.
Qed.

Lemma dget_dset {V} (d : dict V) (k j : string) (v : V) :
  dget (dset d k v) j = if String.eqb j k then Some v else dget d j.
Proof.
  induction d as [| [k' v'] d IH]; simpl; [reflexivity |].
  case_eq (String.eqb k k'); intros E; simpl.
  - apply String.eqb_eq in E; subst k'. destruct (String.eqb j k); reflexivity.
  - rewrite IH. case_eq (String.eqb j k'); intros E2.
    + apply String.eqb_eq in E2; subst j. rewrite String.eqb_sym, E. reflexivity.
    + destruct (String.eqb j k); reflexivity.
Qed.

Lemma dget_or_dbump (d : dict Z) (k j : string) (n : Z) :
  dget_or (dbump d k n) j 0 = dget_or d j 0 + (if String.eqb j k then n else 0).
Proof.
  unfold dbump. unfold dget_or at 1. rewrite dget_dset.
  case_eq (String.eqb j k); intros E.
  - apply String.eqb_eq in E; subst j. reflexivity.
  - unfold dget_or; destruct (dget d j); lia.
Qed.

Lemma dbump_keys (d : dict Z) (k : string) (n : Z) (V : list string) :
  incl (map fst d) V -> In k V -> incl (map fst (dbump d k n)) V.
Proof.
  intros Hd Hk x Hx. unfold dbump in Hx.
  destruct (ProfileFacts.dset_keys_In _ _ _ _ Hx) as [H | ->]; [apply Hd, H | exact Hk].
Qed.

Lemma dbump_NoDup (d : dict Z) (k : string) (n : Z) :
  NoDup (map fst d) -> NoDup (map fst (dbump d k n)).
Proof. apply ProfileFacts.dset_NoDup. Qed.

Lemma dget_In_NoDup {V} (d : dict V) (k : string) (v : V) :
  NoDup (map fst d) -> (dget d k = Some v <-> In (k, v) d).
Proof.
  induction d as [| [k' v'] d IH]; simpl; intros Hd.
  - split; [discriminate | intros []].
  - inversion Hd as [| ? ? Hn Hd']; subst.
    case_eq (String.eqb k k'); intros E.
    + apply String.eqb_eq in E; subst k'. split.
      * intros H; injection H as <-; left; reflexivity.
      * intros [H | Hin]; [injection H as <-; reflexivity |].
        exfalso; apply Hn, in_map_iff; exists (k, v); auto.
    + rewrite (IH Hd'). split; [auto |].
      intros [H | Hin]; [| exact Hin].
      injection H as E1 _; subst k'. rewrite String.eqb_refl in E; discriminate.
Qed.

Lemma dget_None {V} (d : dict V) (k : string) :
  dget d k = None <-> ~ In k (map fst d).
Proof.
  induction d as [| [k' v'] d IH]; simpl; [tauto |].
  case_eq (String.eqb k k'); intros E.
  - apply String.eqb_eq in E; subst k'. split; [discriminate | tauto].
  - rewrite IH. split; [| tauto].
    intros H [H1 | H1]; [subst k'; rewrite String.eqb_refl in E; discriminate | tauto].
Qed.

Lemma dget_perm {V} (d1 d2 : dict V) (k : string) :
  NoDup (map fst d1) -> Permutation d1 d2 -> dget d1 k = dget d2 k.
Proof.
  intros Hd Hp.
  assert (Hd2 : NoDup (map fst d2))
    by (eapply Permutation_NoDup; [apply Permutation_map, Hp | exact Hd]).
  destruct (dget d1 k) as [v |] eqn:E1.
  - symmetry; apply dget_In_NoDup; [exact Hd2 |].
    eapply Permutation_in; [exact Hp |]. apply dget_In_NoDup; assumption.
  - destruct (dget d2 k) as [v |] eqn:E2; [| reflexivity].
    apply dget_In_NoDup in E2; [| exact Hd2].
    apply (Permutation_in _ (Permutation_sym Hp)) in E2.
    apply (dget_In_NoDup _ _ _ Hd) in E2. congruence.
Qed.

(** Filling a dict from a list of distinct keys gives back its lookups. *)
Lemma fold_dset_get {V} (l : dict V) (d : dict V) (k : string) :
  NoDup (map fst l) ->
  dget (fold_left (fun d kv => dset d (fst kv) (snd kv)) l d) k =
  match dget l k with Some v => Some v | None => dget d k end.
Proof.
  revert d; induction l as [| [k' v'] l IH]; intros d Hl; simpl; [reflexivity |].
  inversion Hl as [| ? ? Hn Hl']; subst.
  rewrite (IH _ Hl'), dget_dset.
  case_eq (String.eqb k k'); intros E.
  - apply String.eqb_eq in E; subst k'.
    destruct (dget l k) eqn:F; [| reflexivity].
    exfalso; apply Hn.
    apply (dget_In_NoDup l k v Hl') in F. apply in_map_iff; exists (k, v); auto.
  - destruct (dget l k); reflexivity.
Qed.

Lemma fold_dset_NoDup {V} (l : dict V) (d : dict V) :
  NoDup (map fst d) -> NoDup (map fst (fold_left (fun d kv => dset d (fst kv) (snd kv)) l d)).
Proof.
  revert d; induction l as [| kv l IH]; intros d Hd; simpl; [exact Hd |].
  apply IH, ProfileFacts.dset_NoDup, Hd.
Qed.

(** [Counter]: a key counts the occurrences of it. *)
Lemma counter_get (xs : list string) (k : string) :
  dget_or (counter xs) k 0 = Z.of_nat (length (filter (fun x => String.eqb x k) xs)).
Proof.
  unfold counter.
  assert (G : forall c, dget_or (fold_left (fun c k => dbump c k 1) xs c) k 0 =
                        dget_or c k 0 + Z.of_nat (length (filter (fun x => String.eqb x k) xs))).
  { induction xs as [| x xs IH]; intros c; simpl; [lia |].
    rewrite IH, dget_or_dbump, (String.eqb_sym k x).
    destruct (String.eqb x k); simpl; lia. }
  rewrite G. reflexivity.
Qed.

Lemma counter_keys (xs : list string) (k : string) :
  In k (map fst (counter xs)) -> In k xs.
Proof.
  unfold counter.
  assert (G : forall c, In k (map fst (fold_left (fun c k => dbump c k 1) xs c)) ->
                        In k (map fst c) \/ In k xs).
  { induction xs as [| x xs IH]; intros c H; simpl in *; [tauto |].
    destruct (IH _ H) as [H1 | H1]; [| tauto].
    unfold dbump in H1. destruct (ProfileFacts.dset_keys_In _ _ _ _ H1); [tauto |].
    subst; tauto. }
  intros H; destruct (G [] H) as [[] | H1]; exact H1.
Qed.

Lemma counter_In (xs : list string) (k : string) (c : Z) :
  In (k, c) (counter xs) ->
  c = Z.of_nat (length (filter (fun x => String.eqb x k) xs)) /\ In k xs.
Proof.
  intros H. split.
  - rewrite <- counter_get. unfold dget_or.
    apply (dget_In_NoDup _ _ _ (ProfileFacts.counter_NoDup xs)) in H. rewrite H. reflexivity.
  - apply counter_keys, in_map_iff. exists (k, c); auto.
Qed.

Lemma most_common_keys (n : nat) (c : dict Z) (k : string) :
  In k (map fst (most_common n c)) -> In k (map fst c).
Proof.
  unfold most_common. intros H. apply in_map_iff in H as [kv [<- H]].
  apply MatcherFacts.firstn_In_incl, MatcherFacts.sort_desc_In in H.
  apply in_map; exact H.
Qed.

(** Sorting puts keys in non-increasing order. *)
Lemma insert_desc_HdRel {A} (key : A -> Z) (x y : A) (l : list A) :
  HdRel (fun a b => key b <= key a) y l -> key x <= key y ->
  HdRel (fun a b => key b <= key a) y (insert_desc key x l).
Proof.
  intros H Hx. destruct l as [| z l]; simpl; [constructor; exact Hx |].
  destruct (key z <? key x); constructor; [exact Hx |]. inversion H; assumption.
Qed.

Lemma insert_desc_sorted {A} (key : A -> Z) (x : A) (l : list A) :
  Sorted (fun a b => key b <= key a) l -> Sorted (fun a b => key b <= key a) (insert_desc key x l).
Proof.
  induction l as [| y l IH]; intros H; simpl.
  - constructor; constructor.
  - case_eq (key y <? key x); intros E.
    + constructor; [exact H | constructor; apply Z.ltb_lt in E; lia].
    + inversion H as [| ? ? Hl Hy]; subst. constructor; [apply IH, Hl |].
      apply insert_desc_HdRel; [exact Hy | apply Z.ltb_ge in E; exact E].
Qed.

Lemma sort_desc_sorted {A} (key : A -> Z) (l : list A) :
  Sorted (fun a b => key b <= key a) (sort_desc key l).
Proof.
  unfold sort_desc.
  assert (G : forall acc, Sorted (fun a b => key b <= key a) acc ->
              Sorted (fun a b => key b <= key a)
                     (fold_left (fun acc x => insert_desc key x acc) l acc)).
  { induction l as [| x l IH]; intros acc H; simpl; [exact H |].
    apply IH, insert_desc_sorted, H. }
  apply G; constructor.
Qed.

Lemma firstn_sorted {A} (R : A -> A -> Prop) (n : nat) (l : list A) :
  Sorted R l -> Sorted R (firstn n l).
Proof.
  revert n; induction l as [| x l IH]; intros n H; destruct n; simpl; try constructor;
    inversion H as [| ? ? Hl Hx]; subst; [apply IH, Hl |].
  destruct l as [| y l]; destruct n; simpl; constructor. inversion Hx; assumption.
Qed.

Lemma sorted_map {A B} (R : A -> A -> Prop) (R' : B -> B -> Prop) (f : A -> B) (l : list A) :
  (forall a b, R a b -> R' (f a) (f b)) -> Sorted R l -> Sorted R' (map f l).
Proof.
  intros HR H; induction H as [| x l Hl IH Hx]; simpl; constructor; [exact IH |].
  destruct Hx; simpl; constructor. apply HR; assumption.
Qed.

Lemma sort_desc_length {A} (key : A -> Z) (l : list A) :
  length (sort_desc key l) = length l.
Proof. apply Permutation_length, ProfileFacts.sort_desc_perm. Qed.

(** [str.lower] on the ASCII range is idempotent and keeps [''] apart. *)
Lemma lower_char_idem (c : ascii) : lower_char (lower_char c) = lower_char c.
Proof. destruct c as [[] [] [] [] [] [] [] []]; reflexivity. Qed.

Lemma lower_idem (s : string) : lower (lower s) = lower s.
Proof. induction s as [| c s IH]; simpl; [reflexivity | rewrite lower_char_idem, IH; reflexivity]. Qed.

Lemma lower_empty (s : string) : String.eqb (lower s) "" = String.eqb s "".
Proof. destruct s; reflexivity. Qed.

Lemma opt_str_eqb_eq (a b : option string) : opt_str_eqb a b = true <-> a = b.
Proof.
  destruct a, b; simpl; split; intros H; try discriminate; try reflexivity.
  - apply String.eqb_eq in H; subst; reflexivity.
  - injection H as ->; apply String.eqb_refl.
Qed.

Lemma filter_length_map {A B} (f : B -> bool) (g : A -> B) (l : list A) :
  length (filter f (map g l)) = length (filter (fun x => f (g x)) l).
Proof. induction l as [| x l IH]; simpl; [reflexivity |]. destruct (f (g x)); simpl; auto. Qed.

End ContainerFacts.

(* ------------------------------------------------------------------ *)
(** ** Registration categorization: shape of the result *)

Module RegistrationExtra.
Import Py Registration Store Accounts Vocab ContainerFacts.

Lemma job_rule_fst (t : bool) (label : string) (bumps : list (string * Z))
    (acc : list string * dict Z) (x : string) :
  In x (fst acc) -> In x (fst (job_rule t label bumps acc)).
Proof. unfold job_rule; destruct t; simpl; [intros H; apply in_or_app; left |]; auto. Qed.

Lemma job_rule_inv (t : bool) (label : string) (bumps : list (string * Z))
    (acc : list string * dict Z) (L V : list string) :
  In label L -> (forall kv, In kv bumps -> In (fst kv) V) ->
  incl (fst acc) L /\ incl (map fst (snd acc)) V ->
  incl (fst (job_rule t label bumps acc)) L /\
  incl (map fst (snd (job_rule t label bumps acc))) V.
Proof.
  intros Hl Hb [HL HV]. unfold job_rule; destruct t; [| split; assumption]. simpl; split.
  - apply incl_app; [exact HL | intros x [<- | []]; exact Hl].
  - revert HV. generalize (snd acc). induction bumps as [| kv bumps IH]; intros d HV; simpl;
      [exact HV |].
    apply IH; [intros kv' H; apply Hb; right; exact H |].
    apply dbump_keys; [exact HV | apply Hb; left; reflexivity].
Qed.

Ltac vocab := apply In_of_elem; vm_compute; reflexivity.

Lemma job_rules_inv (job : string) (acc : list string * dict Z) (L : list string) :
  incl (fst acc) L -> incl (map fst (snd acc)) score_keys ->
  incl (fst (job_rules job acc)) (L ++ job_labels) /\
  incl (map fst (snd (job_rules job acc))) score_keys.
Proof.
  intros HL HV. unfold job_rules.
  destruct (negb (String.eqb job "")); [| split; [apply incl_appl, HL | exact HV]].
  cbv zeta.
  repeat (apply job_rule_inv;
          [apply in_or_app; right; vocab
          | intros kv Hkv; simpl in Hkv; repeat destruct Hkv as [<- | Hkv];
            try contradiction; vocab |]).
  split; [apply incl_appl, HL | exact HV].
Qed.

Lemma interest_rule_keys (i : string) (sc : dict Z) :
  incl (map fst sc) score_keys -> incl (map fst (interest_rule i sc)) score_keys.
Proof.
  intros H. unfold interest_rule.
  repeat match goal with |- context [elem i ?l] => destruct (elem i l) end;
    cbv beta iota zeta;
    repeat (apply dbump_keys; [| vocab]); exact H.
Qed.

Lemma age_rules_inv (age : option Z) :
  incl (fst (age_rules age [] [])) age_labels /\
  incl (map fst (snd (age_rules age [] []))) score_keys.
Proof.
  unfold age_rules. destruct (truthy_int age); [| split; intros x []].
  cbv zeta.
  repeat match goal with |- context [if ?b then _ else _] => destruct b end;
    split; apply forallb_incl; vm_compute; reflexivity.
Qed.

Lemma top_behavioural_keys (sc : dict Z) : incl (top_behavioural sc) (map fst sc).
Proof.
  intros x Hx. unfold top_behavioural in Hx. apply in_map_iff in Hx as [kv [<- Hkv]].
  apply filter_In in Hkv as [Hkv _].
  apply MatcherFacts.firstn_In_incl, MatcherFacts.sort_desc_In in Hkv.
  apply in_map, Hkv.
Qed.

(** The result is [dedup (pre ++ [res] ++ top)], with [pre] the age and job
    labels, [res] the residence label and [top] some score keys. *)
Lemma registration_shape (u : UserData) :
  exists pre res sc,
    cz_categories (categorize_user_on_registration u) =
      dedup (pre ++ [res] ++ top_behavioural sc) /\
    incl pre (age_labels ++ job_labels) /\ incl (map fst sc) score_keys /\
    (res = "urban_resident" \/ res = "rural_resident") /\
    (u.(ud_location) = None -> res = "rural_resident").
Proof.
  unfold categorize_user_on_registration. cbv zeta.
  match goal with
  | |- context [location_rule ?loc (fst (job_rules ?j ?a), ?f)] =>
      destruct (job_rules_inv j a age_labels (proj1 (age_rules_inv _))
                  (proj2 (age_rules_inv _))) as [HJ HS];
      assert (HF : incl (map fst f) score_keys)
        by (generalize (map lower (ud_interests u)); intros l; generalize (snd (job_rules j a)) HS;
            induction l as [| i l IH]; intros d Hd; simpl; [exact Hd | apply IH, interest_rule_keys, Hd]);
      set (pre := fst (job_rules j a)) in *; set (F := f) in *; set (LOC := loc)
  end.
  unfold location_rule.
  destruct (negb (String.eqb LOC "") && any_in urban_areas LOC) eqn:E;
    cbn [cz_categories fst snd].
  - exists pre, "urban_resident", (dbump (dbump F "tech_enthusiast" 10) "electronics_buyer" 10).
    split; [rewrite app_assoc; reflexivity |]. split; [exact HJ |].
    split; [apply dbump_keys; [apply dbump_keys; [exact HF | vocab] | vocab] |].
    split; [left; reflexivity |].
    intros Hn. unfold LOC in E. rewrite Hn in E. simpl in E. discriminate.
  - exists pre, "rural_resident", F.
    split; [rewrite app_assoc; reflexivity |].
    split; [exact HJ |]. split; [exact HF |]. split; [right; reflexivity |].
    intros _; reflexivity.
Qed.

(** Extra X1: the registration categories hold exactly one residence label:
    urban_resident or rural_resident, never both; with no location given
    it is rural_resident. *)
Theorem registration_one_residence (u : UserData) :
  let c := cz_categories (categorize_user_on_registration u) in
  ((In "urban_resident" c /\ ~ In "rural_resident" c) \/
   (In "rural_resident" c /\ ~ In "urban_resident" c)) /\
  (u.(ud_location) = None -> In "rural_resident" c).
Proof.
  cbv zeta. destruct (registration_shape u) as [pre [res [sc [E [Hp [Hs [Hr Hn]]]]]]].
  rewrite E.
  assert (Out : forall x, elem x (age_labels ++ job_labels) = false -> elem x score_keys = false ->
                In x (dedup (pre ++ [res] ++ top_behavioural sc)) <-> x = res).
  { intros x H1 H2. rewrite LabelGrowth.dedup_In. split.
    - intros H. apply in_app_or in H as [H | H]; [exfalso; apply (not_In_of_elem _ _ H1), Hp, H |].
      apply in_app_or in H as [[H | []] | H]; [symmetry; exact H |].
      exfalso; apply (not_In_of_elem _ _ H2), Hs, top_behavioural_keys, H.
    - intros ->. apply in_or_app; right; apply in_or_app; left; left; reflexivity. }
  rewrite (Out "urban_resident"), (Out "rural_resident") by reflexivity.
  split.
  - destruct Hr as [-> | ->]; [left | right]; split; try reflexivity; discriminate.
  - intros H; symmetry; apply Hn; exact H.
Qed.

(** Extra X2: every label registration assigns is one [get_category_explanation]
    describes, or one of course_creator and business_oriented, which it
    does not describe; a teacher interested in business gets both. *)
Theorem registration_unexplained_labels (u : UserData) :
  incl (cz_categories (categorize_user_on_registration u))
       (explained_labels ++ ["course_creator"; "business_oriented"]) /\
  ~ In "course_creator" explained_labels /\ ~ In "business_oriented" explained_labels /\
  let t := {| ud_age := None; ud_job := Some "Teacher"; ud_location := None;
              ud_interests := ["business"] |} in
  In "course_creator" (cz_categories (categorize_user_on_registration t)) /\
  In "business_oriented" (cz_categories (categorize_user_on_registration t)).
Proof.
  split.
  - destruct (registration_shape u) as [pre [res [sc [E [Hp [Hs [Hr _]]]]]]].
    rewrite E. intros x Hx. rewrite LabelGrowth.dedup_In in Hx.
    assert (Hall : incl (age_labels ++ job_labels ++ ["urban_resident"; "rural_resident"] ++ score_keys)
                        (explained_labels ++ ["course_creator"; "business_oriented"]))
      by (apply forallb_incl; vm_compute; reflexivity).
    apply Hall. apply in_app_or in Hx as [H | H].
    + apply Hp in H. apply in_app_or in H as [H | H]; apply in_or_app; [left; exact H |].
      right; apply in_or_app; left; exact H.
    + apply in_app_or in H as [[<- | []] | H].
      * apply in_or_app; right; apply in_or_app; right; apply in_or_app; left.
        destruct Hr as [-> | ->]; simpl; tauto.
      * do 3 (apply in_or_app; right). apply Hs, top_behavioural_keys, H.
  - split; [apply not_In_of_elem; reflexivity |].
    split; [apply not_In_of_elem; reflexivity |].
    cbv zeta. split; apply In_of_elem; vm_compute; reflexivity.
Qed.

Lemma location_rule_fst (loc : string) (acc : list string * dict Z) (x : string) :
  In x (fst acc) -> In x (fst (location_rule loc acc)).
Proof.
  unfold location_rule. destruct (negb (String.eqb loc "") && any_in urban_areas loc);
    simpl; intros H; apply in_or_app; left; exact H.
Qed.

(** Extra X3: a job title whose lower-cased form contains the letters "it"
    anywhere (as in "Writer" or "Dietitian") puts tech_professional in the
    registration categories, since the job test is a substring test. *)
Theorem registration_it_substring (u : UserData) (j : string)
    (Hj : u.(ud_job) = Some j) (Hit : contains "it" (lower j) = true) :
  In "tech_professional" (cz_categories (categorize_user_on_registration u)).
Proof.
  assert (Hne : String.eqb (lower j) "" = false)
    by (destruct (lower j); [discriminate | reflexivity]).
  assert (Htr : truthy_str (Some j) = true)
    by (simpl; rewrite <- lower_empty, Hne; reflexivity).
  assert (Hany : any_in ["engineer"; "developer"; "it"; "tech"] (lower j) = true)
    by (unfold any_in; simpl; rewrite Hit; rewrite !orb_true_r; reflexivity).
  unfold categorize_user_on_registration. rewrite Hj. cbv zeta. rewrite Htr.
  apply LabelGrowth.dedup_In, in_or_app; left.
  apply location_rule_fst. cbn [fst].
  unfold job_rules. rewrite Hne. cbv zeta. rewrite Hany.
  do 3 apply job_rule_fst. unfold job_rule at 1. cbn [fst].
  apply in_or_app; right; left; reflexivity.
Qed.

(** Extra X4: registration is case-blind in the job, location and interests:
    the result is the same when they are given in lower case. *)
Theorem registration_case_insensitive (u : UserData) :
  categorize_user_on_registration u =
  categorize_user_on_registration
    {| ud_age := u.(ud_age); ud_job := option_map lower u.(ud_job);
       ud_location := option_map lower u.(ud_location);
       ud_interests := map lower u.(ud_interests) |}.
Proof.
  destruct u as [a j l is]. unfold categorize_user_on_registration. cbn [ud_age ud_job ud_location ud_interests].
  assert (Hi : map lower (map lower is) = map lower is)
    by (rewrite map_map; apply map_ext; intros; apply lower_idem).
  rewrite Hi.
  destruct j as [j |]; destruct l as [l |]; cbn [option_map truthy_str];
    rewrite ?lower_empty, ?lower_idem; reflexivity.
Qed.

End RegistrationExtra.

(* ------------------------------------------------------------------ *)
(** ** [SearchTracker]: frequency tiers, keywords, the pattern upsert,
    [track_search] and [_recategorize_user] *)

Module TrackerExtra.
Import Py Store Tracker Profiles Vocab ContainerFacts.

Ltac leb_cases :=
  repeat match goal with |- context [Z.leb ?a ?b] => destruct (Z.leb a b) eqn:? end;
  repeat match goal with
         | H : Z.leb _ _ = true |- _ => apply Z.leb_le in H
         | H : Z.leb _ _ = false |- _ => apply Z.leb_gt in H
         end.

(** Extra X5: with [days = 30], the only value the tracker passes,
    [_calculate_search_frequency] on the exact quotient gives the same tier
    as the integer thresholds 150, 60 and 15. *)
Theorem search_frequency_thirty_days (c : Z) :
  calculate_search_frequency_days c 30 = calculate_search_frequency c.
Proof.
  unfold calculate_search_frequency_days, calculate_search_frequency, Qle_bool.
  cbn [Qnum Qden]. leb_cases; try reflexivity; lia.
Qed.

(** Extra X6: for any number of days, more searches never give a lower
    activity tier (occasional < moderate < active < very_active). *)
Theorem search_frequency_monotone (c1 c2 : Z) (days : positive) (Hc : c1 <= c2) :
  frequency_rank (calculate_search_frequency_days c1 days) <=
  frequency_rank (calculate_search_frequency_days c2 days).
Proof.
  unfold calculate_search_frequency_days, Qle_bool. cbn [Qnum Qden].
  leb_cases; unfold frequency_rank; simpl; lia.
Qed.

Lemma in_rev_inv {A} (l : list A) (x : A) : In x (rev l) -> In x l.
Proof. apply (proj2 (in_rev l x)). Qed.

Lemma split_go_no_space (s : string) (cur : list ascii) (w : string) :
  (forall c, In c cur -> is_space c = false) ->
  In w (split_go s cur) -> forall c, In c (list_ascii_of_string w) -> is_space c = false.
Proof.
  revert cur; induction s as [| a s IH]; intros cur Hcur Hw; simpl in Hw.
  - destruct cur; [contradiction |]. destruct Hw as [<- | []].
    rewrite list_ascii_of_string_of_list_ascii. intros c Hc; exact (Hcur c (in_rev_inv _ _ Hc)).
  - case_eq (is_space a); intros Ea; rewrite Ea in Hw.
    + destruct cur as [| b cur].
      * exact (IH [] (fun _ H => match H with end) Hw).
      * destruct Hw as [<- | Hw].
        -- rewrite list_ascii_of_string_of_list_ascii. intros c Hc; exact (Hcur c (in_rev_inv _ _ Hc)).
        -- exact (IH [] (fun _ H => match H with end) Hw).
    + refine (IH (a :: cur) _ Hw).
      intros c [<- | Hc]; [exact Ea | apply Hcur, Hc].
Qed.

Lemma no_space_contains (w : string) :
  (forall c, In c (list_ascii_of_string w) -> is_space c = false) -> contains " " w = false.
Proof.
  induction w as [| a w IH]; intros H; [reflexivity |].
  assert (Ha : is_space a = false) by (apply H; left; reflexivity).
  assert (Hs : starts_with " " (String a w) = false).
  { change (starts_with " " (String a w)) with (Ascii.eqb " " a && starts_with "" w).
    destruct (Ascii.eqb " " a) eqn:E; [| reflexivity].
    apply Ascii.eqb_eq in E; subst a. vm_compute in Ha. discriminate. }
  change (contains " " (String a w)) with (starts_with " " (String a w) || contains " " w).
  rewrite Hs, IH by (intros c Hc; apply H; right; exact Hc). reflexivity.
Qed.

Lemma pattern_keyword_no_space (now : Z) (uid : option string) (ss : list SearchEvent)
    (k : string) :
  In k (map fst (pat_top_keywords (build_pattern now uid ss))) -> contains " " k = false.
Proof.
  intros Hk. apply most_common_keys, counter_keys in Hk.
  apply in_flat_map in Hk as [s [_ Hk]]. unfold query_keywords in Hk.
  apply filter_In in Hk as [Hk _].
  apply no_space_contains. exact (split_go_no_space _ [] k (fun _ H => match H with end) Hk).
Qed.

Lemma property_score_no_space (kw cats : dict Z) :
  (forall k, In k (map fst kw) -> contains " " k = false) ->
  dget_or (calculate_interest_scores kw cats) "property" 0 =
    keyword_match_score (map fst kw)
      ["land"; "house"; "property"; "deed"; "building"; "rent"; "buy"; "apartment";
       "home"; "construction"].
Proof.
  intros H. unfold dget_or.
  replace (dget (calculate_interest_scores kw cats) "property")
    with (Some (keyword_match_score (map fst kw) property_keywords)) by reflexivity.
  unfold keyword_match_score. do 2 f_equal. apply filter_ext_in. intros k Hk.
  specialize (H k Hk). unfold property_keywords, elem. simpl existsb.
  destruct (String.eqb k "real estate") eqn:E; [| reflexivity].
  apply String.eqb_eq in E; subst k; discriminate.
Qed.

(** Extra X7: no stored top keyword contains a space, since keywords are
    [split()] tokens; so the property interest score never counts the
    listed keyword "real estate" and equals the match count against the
    property list without it. *)
Theorem property_score_without_real_estate (now : Z) (uid : option string)
    (ss : list SearchEvent) :
  let p := build_pattern now uid ss in
  ~ In "real estate" (map fst p.(pat_top_keywords)) /\
  dget_or p.(pat_interest) "property" 0 =
    keyword_match_score (map fst p.(pat_top_keywords))
      ["land"; "house"; "property"; "deed"; "building"; "rent"; "buy"; "apartment";
       "home"; "construction"].
Proof.
  cbv zeta. split.
  - intros H. apply pattern_keyword_no_space in H. discriminate.
  - exact (property_score_no_space (pat_top_keywords (build_pattern now uid ss))
             (pat_top_categories (build_pattern now uid ss))
             (pattern_keyword_no_space now uid ss)).
Qed.

Lemma find_app_none {A} (P : A -> bool) (l : list A) (x : A) :
  P x = false -> find P (l ++ [x]) = find P l.
Proof. intros Hx; induction l as [| y l IH]; simpl; [rewrite Hx; reflexivity | rewrite IH; reflexivity]. Qed.

Lemma opt_str_eqb_sym (a b : option string) : opt_str_eqb a b = opt_str_eqb b a.
Proof. destruct a, b; simpl; try reflexivity. apply String.eqb_sym. Qed.

(** Extra X8: recomputing a user's pattern keeps one pattern per user, leaves
    the pattern of every other user and all other collections as they
    were. *)
Theorem update_search_patterns_frame (now : Z) (uid other : option string) (db : DB)
    (Hu : NoDup (map pat_user (search_patterns db))) (Ho : other <> uid) :
  let db' := update_search_patterns now uid db in
  NoDup (map pat_user (search_patterns db')) /\
  find_pattern other db' = find_pattern other db /\
  users db' = users db /\ search_history db' = search_history db /\
  products db' = products db /\ ad_clicks db' = ad_clicks db /\ ad_views db' = ad_views db.
Proof.
  cbv zeta. unfold update_search_patterns.
  destruct (recent_searches now uid db) as [| s ss]; [repeat split; try assumption |].
  set (p := build_pattern now uid (s :: ss)).
  assert (Hpu : pat_user p = uid) by reflexivity.
  assert (Hoth : opt_str_eqb uid other = false)
    by (destruct (opt_str_eqb uid other) eqn:E; [| reflexivity];
        apply opt_str_eqb_eq in E; congruence).
  unfold upsert_pattern, find_pattern; cbn [search_patterns users search_history products
                                            ad_clicks ad_views].
  rewrite Hpu.
  destruct (existsb (fun q => opt_str_eqb (pat_user q) uid) (search_patterns db)) eqn:Ex.
  - split; [| split; [| repeat split]].
    + rewrite map_map.
      replace (map (fun x => pat_user (if opt_str_eqb (pat_user x) uid then p else x))
                   (search_patterns db)) with (map pat_user (search_patterns db)); [exact Hu |].
      apply map_ext. intros x. destruct (opt_str_eqb (pat_user x) uid) eqn:E; [| reflexivity].
      rewrite Hpu. apply opt_str_eqb_eq, E.
    + clear Ex Hu. induction (search_patterns db) as [| x l IH]; simpl; [reflexivity |].
      destruct (opt_str_eqb (pat_user x) uid) eqn:E; simpl.
      * apply opt_str_eqb_eq in E. rewrite ?Hpu, E, Hoth. exact IH.
      * destruct (opt_str_eqb (pat_user x) other); [reflexivity | exact IH].
  - split; [| split; [| repeat split]].
    + rewrite map_app. simpl. rewrite ?Hpu.
      eapply Permutation_NoDup; [apply Permutation_cons_append |].
      constructor; [| exact Hu]. intros Hin. apply in_map_iff in Hin as [q [Eq Hq]].
      assert (existsb (fun q => opt_str_eqb (pat_user q) uid) (search_patterns db) = true)
        by (apply existsb_exists; exists q; split; [exact Hq | rewrite Eq; apply opt_str_eqb_eq; reflexivity]).
      congruence.
    + apply find_app_none. rewrite Hpu. exact Hoth.
Qed.

Lemma recategorize_user_keeps (now : Z) (uid : option string) (db db' : DB) :
  recategorize_user now uid db = Some db' ->
  search_history db' = search_history db /\ search_patterns db' = search_patterns db /\
  products db' = products db /\ ad_clicks db' = ad_clicks db /\ ad_views db' = ad_views db.
Proof.
  unfold recategorize_user.
  destruct (find_pattern uid db); [| intros [= <-]; repeat split].
  destruct (object_id uid) as [oid |]; [| discriminate].
  destruct (find_user oid db); [| intros [= <-]; repeat split].
  intros [= <-]. repeat split.
Qed.

(** The search [track_search] logs. *)
Lemma track_search_logged (now : Z) (uid : option string) (q : string) (c : option string)
    (db : DB) :
  let db' := res_db (track_search now uid q c db) in
  search_history db' = search_history db ++
    [{| se_user := uid; se_query := lower q; se_category := c; se_ts := now |}] /\
  search_patterns db' =
    search_patterns (update_search_patterns now uid
      {| users := users db;
         search_history := search_history db ++
           [{| se_user := uid; se_query := lower q; se_category := c; se_ts := now |}];
         search_patterns := search_patterns db; products := products db;
         ad_clicks := ad_clicks db; ad_views := ad_views db |}).
Proof.
  cbv zeta. unfold track_search. cbv zeta.
  match goal with |- context [recategorize_user now uid ?d] =>
    destruct (recategorize_user now uid d) as [d3 |] eqn:E end;
    cbn [res_db].
  - apply recategorize_user_keeps in E as [E1 [E2 _]]. rewrite E1, E2.
    split; [| reflexivity]. apply ProfileFacts.update_search_patterns_history.
  - split; [apply ProfileFacts.update_search_patterns_history | reflexivity].
Qed.

Lemma recent_searches_new (now : Z) (uid : option string) (q : string) (c : option string)
    (h : list SearchEvent) :
  In {| se_user := uid; se_query := lower q; se_category := c; se_ts := now |}
     (filter (fun e => opt_str_eqb e.(se_user) uid && (now - 30 * day <=? e.(se_ts)))
             (h ++ [{| se_user := uid; se_query := lower q; se_category := c; se_ts := now |}])).
Proof.
  apply filter_In. split; [apply in_or_app; right; left; reflexivity |].
  cbn [se_user se_ts]. rewrite ProfileFacts.opt_str_eqb_refl. simpl.
  apply Z.leb_le. unfold day. lia.
Qed.

Lemma pattern_upsert_found (now : Z) (uid : option string) (ss : list SearchEvent) (db : DB) :
  find_pattern uid (upsert_pattern (build_pattern now uid ss) db) = Some (build_pattern now uid ss).
Proof. apply (ProfileFacts.find_pattern_upsert (build_pattern now uid ss)). Qed.

Lemma profile_after_update (now : Z) (uid : option string) (db1 db' : DB) (ev : SearchEvent) :
  search_patterns db' = search_patterns (update_search_patterns now uid db1) ->
  search_history db' = search_history db1 ->
  In ev (recent_searches now uid db1) ->
  exists v, get_user_search_patterns uid db' = Some v /\
    v.(sv_last_updated) = Some now /\ 1 <= v.(sv_search_count) /\
    v.(sv_search_count) = Z.of_nat (length (recent_searches now uid db')) /\
    v.(sv_search_frequency) = calculate_search_frequency v.(sv_search_count).
Proof.
  intros Ep Eh Hin.
  rewrite (ProfileFacts.recent_searches_history now uid db' db1 Eh).
  unfold get_user_search_patterns.
  replace (find_pattern uid db') with (find_pattern uid (update_search_patterns now uid db1))
    by (unfold find_pattern; rewrite Ep; reflexivity).
  unfold update_search_patterns.
  destruct (recent_searches now uid db1) as [| s ss] eqn:Er; [contradiction |].
  rewrite pattern_upsert_found.
  eexists; split; [reflexivity |]. cbn [sv_last_updated sv_search_count sv_search_frequency].
  change (pat_count (build_pattern now uid (s :: ss))) with (Z.of_nat (length (s :: ss))).
  split; [reflexivity |]. split; [simpl length; lia |]. split; reflexivity.
Qed.

(** Extra X9: after [track_search], logged search and recomputed pattern are
    readable: the history ends with the lower-cased query at [now], and
    [get_user_search_patterns] returns a profile stamped [now] whose count
    (at least 1) is the number of the user's searches of the last 30 days
    and whose tier matches that count. *)
Theorem track_search_profile (now : Z) (uid : option string) (q : string)
    (c : option string) (db : DB) :
  let db' := res_db (track_search now uid q c db) in
  search_history db' = search_history db ++
    [{| se_user := uid; se_query := lower q; se_category := c; se_ts := now |}] /\
  exists v, get_user_search_patterns uid db' = Some v /\
    v.(sv_last_updated) = Some now /\ 1 <= v.(sv_search_count) /\
    v.(sv_search_count) = Z.of_nat (length (recent_searches now uid db')) /\
    v.(sv_search_frequency) = calculate_search_frequency v.(sv_search_count).
Proof.
  cbv zeta. destruct (track_search_logged now uid q c db) as [Eh Ep].
  split; [exact Eh |].
  eapply profile_after_update; [exact Ep | rewrite Eh; reflexivity |].
  unfold recent_searches. eapply Permutation_in; [apply Permutation_sym, ProfileFacts.sort_desc_perm |].
  apply recent_searches_new.
Qed.

End TrackerExtra.

(* ------------------------------------------------------------------ *)
(** ** [_recategorize_user] and a malformed user id *)

Module RecategorizeExtra.
Import Py Store Tracker Passes Accounts ContainerFacts.

Lemma find_user_set_ai (h : string) (a : AICategories) (db : DB) (u : User) :
  find_user (Some h) db = Some u ->
  find_user (Some h) (set_ai (u_id u) a db) =
    Some {| u_id := u_id u; u_age := u_age u; u_location := u_location u; u_ai := a |}.
Proof.
  intros Hu.
  unfold find_user in *. cbn [users set_ai].
  rewrite LabelGrowth.find_map
    by (intros x; cbv beta; destruct (oid_eqb (u_id x) (u_id u)); reflexivity).
  rewrite Hu. cbn [option_map]. unfold oid_eqb at 1. rewrite String.eqb_refl. reflexivity.
Qed.

Lemma user_labels_find (db : DB) (h : string) (u : User) :
  find_user (Some h) db = Some u -> user_labels db h = labels (u_ai u).
Proof. unfold user_labels, find_user; intros H; rewrite H; reflexivity. Qed.

(** Extra X10: when a valid user id has a stored pattern and a stored user
    (whatever the case of its hex digits), [_recategorize_user] succeeds,
    the user's labels become exactly the old labels together with the
    labels the pattern earns, and no collection but [users] changes: the
    search log, the patterns, the products, the ad clicks and the ad
    views stay as they were. *)
Theorem recategorize_user_labels (now : Z) (h : string) (db : DB) (u : User) (pat : Pattern)
    (Hp : find_pattern (Some h) db = Some pat) (Hv : valid_oid h = true)
    (Hu : find_user (Some h) db = Some u) :
  exists db', recategorize_user now (Some h) db = Some db' /\
    (forall x, In x (user_labels db' h) <->
               In x (labels u.(u_ai)) \/ In x (search_labels pat.(pat_interest) pat.(pat_freq))) /\
    search_history db' = search_history db /\ search_patterns db' = search_patterns db /\
    products db' = products db /\ ad_clicks db' = ad_clicks db /\ ad_views db' = ad_views db.
Proof.
  unfold recategorize_user. rewrite Hp. cbn [object_id]. rewrite Hv. cbv beta iota.
  rewrite Hu. cbv beta iota zeta.
  eexists; split; [reflexivity |].
  split; [| repeat split].
  intros x. erewrite user_labels_find by (apply find_user_set_ai, Hu).
  cbn [u_ai].
  destruct (u_ai u); cbn [labels ai_cats]; rewrite LabelGrowth.dedup_In, in_app_iff; reflexivity.
Qed.

(** Extra X11: the labels [_recategorize_user] derives from search patterns
    include six (job_seeker, entrepreneur, travel_seeker,
    passport_applicant, power_user, engaged_user) that
    [get_category_explanation] does not describe; every other one it
    describes. *)
Theorem search_labels_unexplained (interest : dict Z) (freq : string) :
  incl (search_labels interest freq)
       (explained_labels ++ ["job_seeker"; "entrepreneur"; "travel_seeker";
                             "passport_applicant"; "power_user"; "engaged_user"]) /\
  forall x, In x ["job_seeker"; "entrepreneur"; "travel_seeker";
                  "passport_applicant"; "power_user"; "engaged_user"] ->
            ~ In x explained_labels.
Proof.
  split.
  - unfold search_labels.
    repeat match goal with |- context [if ?b then _ else _] => destruct b end;
      apply forallb_incl; vm_compute; reflexivity.
  - intros x Hx. simpl in Hx.
    repeat destruct Hx as [<- | Hx]; try contradiction;
      apply not_In_of_elem; reflexivity.
Qed.

(** Extra X12: a user id that is not 24 characters long makes [track_search]
    raise [InvalidId] in [_recategorize_user], after the search is logged
    and the pattern for that id is written. *)
Theorem track_search_bad_id_raises (now : Z) (h q : string) (c : option string) (db : DB)
    (Hlen : String.length h <> 24%nat) :
  exists db2, track_search now (Some h) q c db = Raised db2 /\
    search_history db2 = search_history db ++
      [{| se_user := Some h; se_query := lower q; se_category := c; se_ts := now |}] /\
    find_pattern (Some h) db2 = Some (build_pattern now (Some h) (recent_searches now (Some h) db2)).
Proof.
  unfold track_search. cbv zeta.
  set (db1 := {| users := users db;
                 search_history := search_history db ++
                   [{| se_user := Some h; se_query := lower q; se_category := c; se_ts := now |}];
                 search_patterns := search_patterns db; products := products db;
                 ad_clicks := ad_clicks db; ad_views := ad_views db |}).
  assert (Hin : In {| se_user := Some h; se_query := lower q; se_category := c; se_ts := now |}
                   (recent_searches now (Some h) db1)).
  { unfold recent_searches. eapply Permutation_in;
      [apply Permutation_sym, ProfileFacts.sort_desc_perm |].
    apply TrackerExtra.recent_searches_new. }
  assert (Hh : search_history (update_search_patterns now (Some h) db1) = search_history db1)
    by apply ProfileFacts.update_search_patterns_history.
  assert (Hr : recent_searches now (Some h) (update_search_patterns now (Some h) db1) =
               recent_searches now (Some h) db1)
    by (apply ProfileFacts.recent_searches_history; exact Hh).
  assert (Hf : find_pattern (Some h) (update_search_patterns now (Some h) db1) =
               Some (build_pattern now (Some h) (recent_searches now (Some h) db1))).
  { unfold update_search_patterns at 1.
    destruct (recent_searches now (Some h) db1) as [| s ss] eqn:Er; [contradiction |].
    apply TrackerExtra.pattern_upsert_found. }
  assert (Ho : object_id (Some h) = None).
  { cbn [object_id]. unfold valid_oid.
    destruct (Nat.eqb (String.length h) 24) eqn:E; [apply Nat.eqb_eq in E; contradiction |].
    reflexivity. }
  unfold recategorize_user at 1. rewrite Hf, Ho.
  eexists; split; [reflexivity |]. split; [exact Hh | rewrite Hr; exact Hf].
Qed.

End RecategorizeExtra.

(* ------------------------------------------------------------------ *)
(** ** Search history and clicks on results *)

Module HistoryExtra.
Import Py Store Profiles ContainerFacts.

Lemma StronglySorted_app_rel {A} (R : A -> A -> Prop) (l1 l2 : list A) :
  StronglySorted R (l1 ++ l2) -> forall x y, In x l1 -> In y l2 -> R x y.
Proof.
  induction l1 as [| z l1 IH]; simpl; [intros _ x y [] |].
  intros H. apply StronglySorted_inv in H as [H Hz].
  intros x y [<- | Hx] Hy; [| apply IH; assumption].
  rewrite Forall_forall in Hz. apply Hz, in_or_app; right; exact Hy.
Qed.

(** Extra X13: [get_user_search_history] lists the user's own searches only:
    it splits them into the listed ones and the rest, lists the former
    newest first, and no search left out is newer than a listed one.  A
    limit of 0 lists them all; any other limit [n] lists [min(|n|, k)] of
    the user's [k] searches. *)
Theorem search_history_view (uid : option string) (limit : Z) (docs : list HistDoc) :
  let mine := filter (fun d => opt_str_eqb d.(hd_user) uid) docs in
  exists listed rest,
    get_user_search_history uid limit docs = map hist_entry listed /\
    Permutation (listed ++ rest) mine /\
    Sorted (fun a b => hd_ts b <= hd_ts a) listed /\
    (forall x y, In x listed -> In y rest -> hd_ts y <= hd_ts x) /\
    (limit = 0 -> rest = []) /\
    length listed = (if limit =? 0 then length mine
                     else Nat.min (Z.to_nat (Z.abs limit)) (length mine)).
Proof.
  cbv zeta. unfold get_user_search_history, mongo_limit.
  set (mine := filter (fun d => opt_str_eqb (hd_user d) uid) docs).
  set (S := sort_desc hd_ts mine).
  assert (HS : Sorted (fun a b => hd_ts b <= hd_ts a) S) by apply sort_desc_sorted.
  assert (HP : Permutation S mine) by apply ProfileFacts.sort_desc_perm.
  assert (HSS : StronglySorted (fun a b => hd_ts b <= hd_ts a) S)
    by (apply Sorted_StronglySorted; [intros x y z; lia | exact HS]).
  destruct (Z.eqb_spec limit 0) as [Hl | Hl].
  - exists S, []. rewrite app_nil_r.
    split; [reflexivity |]. split; [exact HP |]. split; [exact HS |].
    split; [intros x y _ [] |]. split; [reflexivity |].
    apply Permutation_length, HP.
  - set (n := Z.to_nat (Z.abs limit)).
    exists (firstn n S), (skipn n S).
    split; [reflexivity |].
    split; [rewrite firstn_skipn; exact HP |].
    split; [apply firstn_sorted, HS |].
    split; [apply StronglySorted_app_rel; rewrite firstn_skipn; exact HSS |].
    split; [intros E; contradiction |].
    rewrite length_firstn. unfold S. rewrite sort_desc_length. reflexivity.
Qed.

Lemma update_first_map {A B} (P : A -> bool) (f : A -> A) (g : A -> B) (l : list A) :
  (forall x, g (f x) = g x) -> map g (update_first P f l) = map g l.
Proof. intros H; induction l as [| x l IH]; simpl; [reflexivity |]. destruct (P x); simpl; congruence. Qed.

Lemma update_first_app {A} (P : A -> bool) (f : A -> A) (pre post : list A) (x : A) :
  forallb (fun y => negb (P y)) pre = true -> P x = true ->
  update_first P f (pre ++ x :: post) = pre ++ f x :: post.
Proof.
  intros Hpre Hx. induction pre as [| y pre IH]; simpl; [rewrite Hx; reflexivity |].
  simpl in Hpre. apply andb_true_iff in Hpre as [Hy Hpre].
  destruct (P y); [discriminate | rewrite IH by exact Hpre; reflexivity].
Qed.

Lemma update_first_none {A} (P : A -> bool) (f : A -> A) (l : list A) :
  forallb (fun y => negb (P y)) l = true -> update_first P f l = l.
Proof.
  intros H; induction l as [| y l IH]; simpl; [reflexivity |].
  simpl in H. apply andb_true_iff in H as [Hy H]. destruct (P y); [discriminate | rewrite IH by exact H; reflexivity].
Qed.

(** Extra X14: [track_click] only ever sets [clicked_result]: the search part
    of every document, and every id, stay as they were.  An id that is not
    a valid ObjectId (not 24 characters long, or not all hex digits)
    writes nothing; a valid one sets the result on the first document
    whose id matches it (hex case ignored), and writes nothing when none
    does. *)
Theorem track_click_effect (search_id clicked : string) (docs : list HistDoc) :
  map hd_event (track_click search_id clicked docs) = map hd_event docs /\
  map hd_id (track_click search_id clicked docs) = map hd_id docs /\
  (valid_oid search_id = false -> track_click search_id clicked docs = docs) /\
  (valid_oid search_id = true ->
   (forall pre d post, docs = pre ++ d :: post ->
      forallb (fun y => negb (String.eqb (lower y.(hd_id)) (lower search_id))) pre = true ->
      String.eqb (lower d.(hd_id)) (lower search_id) = true ->
      track_click search_id clicked docs =
        pre ++ {| hd_id := d.(hd_id); hd_user := d.(hd_user); hd_query := d.(hd_query);
                  hd_category := d.(hd_category); hd_ts := d.(hd_ts);
                  hd_results := d.(hd_results); hd_clicked := Some clicked;
                  hd_session := d.(hd_session) |} :: post) /\
   (forallb (fun y => negb (String.eqb (lower y.(hd_id)) (lower search_id))) docs = true ->
    track_click search_id clicked docs = docs)).
Proof.
  unfold track_click. cbn [object_id].
  split; [| split; [| split]].
  - destruct (valid_oid search_id); [| reflexivity]. apply update_first_map; intros; reflexivity.
  - destruct (valid_oid search_id); [| reflexivity]. apply update_first_map; intros; reflexivity.
  - intros Hv. rewrite Hv. reflexivity.
  - intros Hv. rewrite Hv. cbv beta iota. split.
    + intros pre d post -> Hpre Hd. rewrite update_first_app by (cbv beta; assumption). reflexivity.
    + apply update_first_none.
Qed.

End HistoryExtra.

(* ------------------------------------------------------------------ *)
(** ** The admin aggregates: trending searches and popular categories *)

Module StatsExtra.
Import Py Store Tracker Profiles ContainerFacts.

Lemma NoDup_firstn {A} (n : nat) (l : list A) : NoDup l -> NoDup (firstn n l).
Proof.
  revert n; induction l as [| x l IH]; intros n H; destruct n; simpl; try constructor;
    inversion H as [| ? ? Hx Hl]; subst.
  - intros Hin; apply Hx, (MatcherFacts.firstn_In_incl n), Hin.
  - apply IH, Hl.
Qed.

Lemma group_count_get (arrange : dict Z -> dict Z) (keys : list string) (k : string) :
  (forall d, Permutation (arrange d) d) ->
  NoDup (map fst (group_count arrange keys)) /\
  dget (group_count arrange keys) k = dget (counter keys) k.
Proof.
  intros Harr. unfold group_count.
  assert (P : Permutation (sort_desc snd (arrange (counter keys))) (counter keys))
    by (eapply perm_trans; [apply ProfileFacts.sort_desc_perm | apply Harr]).
  assert (N : NoDup (map fst (sort_desc snd (arrange (counter keys))))).
  { eapply Permutation_NoDup; [apply Permutation_map, Permutation_sym, P |].
    apply ProfileFacts.counter_NoDup. }
  split; [exact N |]. apply dget_perm; assumption.
Qed.

(** Extra X15: [get_trending_searches] raises for a limit that is not
    positive; otherwise it returns at most [limit] distinct queries of the
    window, each with the number of the window's searches for it (at least
    1), in non-increasing order of that count, whatever order MongoDB
    gives the groups. *)
Theorem trending_searches_counts (now days limit : Z) (arrange : dict Z -> dict Z) (db : DB)
    (Harr : forall d, Permutation (arrange d) d) :
  (limit <= 0 -> get_trending_searches now days limit arrange db = None) /\
  (0 < limit -> exists r, get_trending_searches now days limit arrange db = Some r /\
     (length r <= Z.to_nat limit)%nat /\
     NoDup (map fst r) /\
     Sorted (fun a b => snd b <= snd a) r /\
     forall q c, In (q, c) r ->
       1 <= c /\
       c = Z.of_nat (length (filter (fun e => String.eqb e.(se_query) q) (window now days db)))).
Proof.
  unfold get_trending_searches. split.
  - intros H. apply Z.leb_le in H. rewrite H. reflexivity.
  - intros H. apply Z.leb_gt in H. rewrite H. eexists; split; [reflexivity |].
    set (keys := map se_query (window now days db)).
    destruct (group_count_get arrange keys "" Harr) as [N _].
    split; [rewrite length_firstn; lia |].
    split.
    + rewrite <- firstn_map. apply NoDup_firstn, N.
    + split; [apply firstn_sorted, sort_desc_sorted |].
      intros q c Hqc. apply MatcherFacts.firstn_In_incl in Hqc.
      assert (Hd : dget (group_count arrange keys) q = Some c)
        by (apply (proj2 (dget_In_NoDup _ _ _ N)); exact Hqc).
      rewrite (proj2 (group_count_get arrange keys q Harr)) in Hd.
      apply (dget_In_NoDup _ _ _ (ProfileFacts.counter_NoDup keys)), counter_In in Hd as [Hc Hq].
      rewrite Hc. unfold keys in Hq |- *.
      assert (Hpos : (1 <= length (filter (fun x => String.eqb x q)
                                     (map se_query (window now days db))))%nat).
      { destruct (filter (fun x => String.eqb x q) (map se_query (window now days db))) eqn:F;
          [| simpl; lia].
        exfalso. assert (Hin : In q (filter (fun x => String.eqb x q)
                                            (map se_query (window now days db))))
          by (apply filter_In; split; [exact Hq | apply String.eqb_refl]).
        rewrite F in Hin; contradiction. }
      split; [lia | rewrite filter_length_map; reflexivity].
Qed.

Lemma category_length (w : list SearchEvent) (c : string) :
  length (filter (fun x => String.eqb x c)
            (flat_map (fun e => match e.(se_category) with Some c => [c] | None => [] end) w)) =
  length (filter (fun e => opt_str_eqb e.(se_category) (Some c)) w).
Proof.
  induction w as [| e w IH]; simpl; [reflexivity |].
  destruct (se_category e) as [c' |]; simpl; [| exact IH].
  destruct (String.eqb c' c); simpl; rewrite IH; reflexivity.
Qed.

Lemma pattern_categories_nonempty (now : Z) (uid : option string) (ss : list SearchEvent) :
  ~ In "" (map fst (pat_top_categories (build_pattern now uid ss))).
Proof.
  intros H. apply most_common_keys, counter_keys, in_flat_map in H as [s [_ Hs]].
  revert Hs. unfold truthy_str. destruct (se_category s) as [c |]; simpl; [| tauto].
  destruct (String.eqb c "") eqn:E; simpl; [tauto |].
  intros [-> | []]. vm_compute in E. discriminate.
Qed.

(** Extra X16: [get_popular_categories] maps each category to the number of
    the window's searches that carry it, one key per category, the empty
    string included; the stored patterns never count an empty category. *)
Theorem popular_categories_counts (now days : Z) (arrange : dict Z -> dict Z) (db : DB)
    (Harr : forall d, Permutation (arrange d) d) :
  let r := get_popular_categories now days arrange db in
  NoDup (map fst r) /\
  (forall c, dget_or r c 0 =
     Z.of_nat (length (filter (fun e => opt_str_eqb e.(se_category) (Some c)) (window now days db)))) /\
  (forall now' uid ss, ~ In "" (map fst (pat_top_categories (build_pattern now' uid ss)))).
Proof.
  cbv zeta. unfold get_popular_categories.
  set (keys := flat_map (fun e => match e.(se_category) with Some c => [c] | None => [] end)
                        (window now days db)).
  split; [| split; [| apply pattern_categories_nonempty]].
  - apply fold_dset_NoDup. constructor.
  - intros c. destruct (group_count_get arrange keys c Harr) as [N G].
    unfold dget_or. rewrite (fold_dset_get _ _ _ N), G.
    rewrite <- category_length. fold keys. rewrite <- counter_get. unfold dget_or.
    destruct (dget (counter keys) c); reflexivity.
Qed.

End StatsExtra.

(* ------------------------------------------------------------------ *)
(** ** [recategorize_based_on_search]: its edge cases and the merge of
    scores and labels *)

Module SearchRecatExtra.
Import Py Store SearchRecategorize ContainerFacts.

(** What one query adds to the score of key [k]. *)
Lemma query_scores_add (q : string) (sc : dict Z) (k : string) :
  dget_or (query_scores q sc) k 0 = dget_or sc k 0 + dget_or (query_scores q []) k 0.
Proof.
  unfold query_scores.
  repeat match goal with |- context [if any_in ?w q then _ else _] => destruct (any_in w q) end;
    cbv beta iota zeta; repeat rewrite dget_or_dbump;
    change (dget_or (@nil (string * Z)) k 0) with 0; lia.
Qed.

Lemma query_scores_NoDup (q : string) (sc : dict Z) :
  NoDup (map fst sc) -> NoDup (map fst (query_scores q sc)).
Proof.
  intros H. unfold query_scores.
  repeat match goal with |- context [if any_in ?w q then _ else _] => destruct (any_in w q) end;
    cbv beta iota zeta; repeat apply dbump_NoDup; exact H.
Qed.

(** The scores the searches [l] add to key [k], one query at a time. *)
Lemma fold_query_scores (l : list SearchEvent) (s0 : dict Z) (k : string) :
  dget_or (fold_left (fun sc s => query_scores (lower (se_query s)) sc) l s0) k 0 =
  dget_or s0 k 0 +
  fold_right (fun s acc => dget_or (query_scores (lower (se_query s)) []) k 0 + acc) 0 l.
Proof.
  revert s0; induction l as [| s l IH]; intros s0; simpl; [lia |].
  rewrite IH, query_scores_add. lia.
Qed.

Lemma fold_query_scores_NoDup (l : list SearchEvent) (s0 : dict Z) :
  NoDup (map fst s0) ->
  NoDup (map fst (fold_left (fun sc s => query_scores (lower (se_query s)) sc) l s0)).
Proof.
  revert s0; induction l as [| s l IH]; intros s0 H; simpl; [exact H |].
  apply IH, query_scores_NoDup, H.
Qed.

(** Adding a dict with distinct keys into another, key by key. *)
Lemma fold_dbump_get (l : dict Z) (s0 : dict Z) (k : string) :
  NoDup (map fst l) ->
  dget_or (fold_left (fun d kv => dbump d (fst kv) (snd kv)) l s0) k 0 =
  dget_or s0 k 0 + dget_or l k 0.
Proof.
  revert s0; induction l as [| [k' v] l IH]; intros s0 Hl; simpl.
  - change (dget_or (@nil (string * Z)) k 0) with 0. lia.
  - inversion Hl as [| ? ? Hk Hl']; subst.
    rewrite IH by exact Hl'. rewrite dget_or_dbump.
    unfold dget_or; cbn [dget].
    destruct (String.eqb k k') eqn:E; [| lia].
    apply String.eqb_eq in E; subst k'.
    assert (Hn : dget l k = None) by (apply dget_None; exact Hk).
    rewrite Hn. lia.
Qed.

Lemma append_high_In (ss : dict Z) (cats : list string) (x : string) :
  In x (append_high ss cats) <-> In x cats \/ exists v, In (x, v) ss /\ 15 <= v.
Proof.
  unfold append_high. revert cats; induction ss as [| [k v] ss IH]; intros cats; simpl.
  - split; [tauto |]. intros [H | [v [[] _]]]; exact H.
  - rewrite IH.
    destruct (15 <=? v) eqn:Ev; [apply Z.leb_le in Ev | apply Z.leb_gt in Ev];
      [destruct (elem k cats) eqn:Ek |]; cbn [negb andb].
    + apply In_of_elem in Ek. split.
      * intros [H | [w [Hw Hw']]]; [left; exact H | right; exists w; tauto].
      * intros [H | [w [[Hw | Hw] Hw']]]; [left; exact H | | right; exists w; tauto].
        injection Hw as -> ->. left; exact Ek.
    + rewrite in_app_iff. simpl. split.
      * intros [[H | [<- | []]] | [w [Hw Hw']]]; [left; exact H | | right; exists w; tauto].
        right; exists v; tauto.
      * intros [H | [w [[Hw | Hw] Hw']]]; [left; left; exact H | | right; exists w; tauto].
        injection Hw as -> ->. left; right; left; reflexivity.
    + split.
      * intros [H | [w [Hw Hw']]]; [left; exact H | right; exists w; tauto].
      * intros [H | [w [[Hw | Hw] Hw']]]; [left; exact H | | right; exists w; tauto].
        injection Hw as -> ->. lia.
Qed.

Lemma firstn_nonempty {A} (n : nat) (l : list A) :
  (0 < n)%nat -> l <> [] -> firstn n l <> [].
Proof. destruct n, l; simpl; try lia; congruence. Qed.

Lemma sort_desc_nonempty {A} (key : A -> Z) (l : list A) :
  l <> [] -> sort_desc key l <> [].
Proof.
  intros H E. apply H. apply (f_equal (@length A)) in E.
  rewrite sort_desc_length in E. destruct l; [reflexivity | discriminate].
Qed.

Lemma valid_oid_length (h : string) : String.length h <> 24%nat -> valid_oid h = false.
Proof.
  intros Hl. unfold valid_oid.
  destruct (Nat.eqb (String.length h) 24) eqn:E; [apply Nat.eqb_eq in E; contradiction |].
  reflexivity.
Qed.

Lemma set_ai_same_oid (a b : string) (x : AICategories) (db : DB) :
  lower a = lower b -> set_ai a x db = set_ai b x db.
Proof. intros E. unfold set_ai, oid_eqb. rewrite E. reflexivity. Qed.

(** Extra X17: [recategorize_based_on_search] raises on an id that is not 24
    characters long, and changes nothing for a well-formed id that no
    stored user carries (the [_id] is compared as an ObjectId, so the
    case of the hex digits does not matter).  For a stored user it
    changes nothing when the user has no search on record; otherwise it
    raises exactly when the stored [ai_categories] is a list or another
    non-dict value. *)
Theorem search_recat_edges (now : Z) (h : string) (db : DB) :
  (String.length h <> 24%nat -> recategorize_based_on_search now (Some h) db = None) /\
  (valid_oid h = true -> find_user (Some h) db = None ->
   recategorize_based_on_search now (Some h) db = Some db) /\
  (forall u, valid_oid h = true -> find_user (Some h) db = Some u ->
   (filter (fun e => opt_str_eqb e.(se_user) (Some h)) db.(search_history) = [] ->
    recategorize_based_on_search now (Some h) db = Some db) /\
   (filter (fun e => opt_str_eqb e.(se_user) (Some h)) db.(search_history) <> [] ->
    (recategorize_based_on_search now (Some h) db = None <->
     match u.(u_ai) with AIListV _ | AIOtherV => True | _ => False end))).
Proof.
  unfold recategorize_based_on_search; cbn [object_id].
  split; [intros Hl; rewrite (valid_oid_length h Hl); reflexivity |].
  split; [intros Hv Hu; rewrite Hv; cbv beta iota; rewrite Hu; reflexivity |].
  intros u Hv Hu. rewrite Hv; cbv beta iota; rewrite Hu; cbv beta iota zeta.
  split; [intros Hm; rewrite Hm; reflexivity |].
  intros Hm.
  destruct (firstn 50 (sort_desc se_ts _)) as [| s ss] eqn:S.
  { exfalso; revert S. apply firstn_nonempty; [lia |]. apply sort_desc_nonempty, Hm. }
  destruct (u_ai u); cbv beta iota; split; intros H; try discriminate; try contradiction;
    exact I || reflexivity.
Qed.

(** Extra X18: when the user stored under the id (whatever the case of its
    hex digits) has searches on record and its
    [ai_categories] is a dict or missing, [recategorize_based_on_search]
    stores a dict whose score for each key is the old score plus what the
    50 latest searches add, whose labels are the old labels together with
    each key scoring 15 or more in those searches, stamped with [now] and
    the type "search_behavior". *)
Theorem search_recat_merge (now : Z) (h : string) (db : DB) (u : User)
    (Hv : valid_oid h = true) (Hu : find_user (Some h) db = Some u)
    (Hd : match u.(u_ai) with AIMissing | AIDictV _ => True | _ => False end)
    (Hm : filter (fun e => opt_str_eqb e.(se_user) (Some h)) db.(search_history) <> []) :
  let latest := firstn 50 (sort_desc se_ts
                  (filter (fun e => opt_str_eqb e.(se_user) (Some h)) db.(search_history))) in
  let gained k := fold_right (fun s acc => dget_or (query_scores (lower (se_query s)) []) k 0 + acc)
                             0 latest in
  let old_scores := match u.(u_ai) with
                    | AIDictV d => match d.(ai_scores) with Some s => s | None => [] end
                    | _ => [] end in
  exists d s,
    recategorize_based_on_search now (Some h) db = Some (set_ai h (AIDictV d) db) /\
    d.(ai_scores) = Some s /\
    (forall k, dget_or s k 0 = dget_or old_scores k 0 + gained k) /\
    (forall x, In x (labels (AIDictV d)) <-> In x (labels u.(u_ai)) \/ 15 <= gained x) /\
    d.(ai_last) = Some now /\ d.(ai_type) = Some "search_behavior".
Proof.
  intros latest gained old_scores.
  pose proof (LabelGrowth.find_user_id h u db Hu) as Hid.
  assert (Hl : latest <> []).
  { apply firstn_nonempty; [lia |]. apply sort_desc_nonempty, Hm. }
  set (ss := fold_left (fun sc s => query_scores (lower (se_query s)) sc) latest []).
  assert (Hss : forall k, dget_or ss k 0 = gained k).
  { intros k. unfold ss. rewrite fold_query_scores. reflexivity. }
  assert (Nss : NoDup (map fst ss)) by (apply fold_query_scores_NoDup; constructor).
  assert (Hhigh : forall x, (exists v, In (x, v) ss /\ 15 <= v) <-> 15 <= gained x).
  { intros x. rewrite <- Hss. split.
    - intros [v [Hin Hv15]]. apply (dget_In_NoDup ss x v Nss) in Hin.
      unfold dget_or; rewrite Hin; exact Hv15.
    - unfold dget_or. destruct (dget ss x) as [v |] eqn:E; [| lia].
      intros Hv15. exists v. split; [apply (dget_In_NoDup ss x v Nss), E | exact Hv15]. }
  unfold recategorize_based_on_search; cbn [object_id]. rewrite Hv; cbv beta iota.
  rewrite Hu; cbv beta iota zeta.
  fold latest. fold ss. clearbody gained ss latest.
  destruct latest as [| s0 rest]; [contradiction |].
  destruct (u_ai u) as [| d | l |] eqn:Ea; try contradiction; cbv beta iota;
    rewrite (set_ai_same_oid (u_id u) h _ _ Hid);
    eexists; eexists; (split; [reflexivity |]); cbn [ai_scores ai_cats ai_last ai_type labels];
    (split; [reflexivity |]); (split; [intros k; rewrite fold_dbump_get by exact Nss;
                                       rewrite Hss; reflexivity |]);
    (split; [| split; reflexivity]); intros x;
    rewrite LabelGrowth.dedup_In, append_high_In, Hhigh; reflexivity.
Qed.

End SearchRecatExtra.

(* ------------------------------------------------------------------ *)
(** ** Reading categories back after the registration write *)

Module AccountsExtra.
Import Py Registration Store Accounts ContainerFacts.

(** Extra X19: after the [/api/register] handler stores the categorization of
    a registered user, [get_user_categories] returns exactly its category
    list, when asked under any valid spelling of the same ObjectId (any case
    of its hex digits).  Before that write, [get_user_categories] raises
    exactly when the stored [ai_categories] is a list or another non-dict
    value. *)
Theorem registration_read_back (h : string) (c : Categorization) (db : DB) (u : User)
    (Hv : valid_oid h = true) (Hu : find_user (Some h) db = Some u) :
  (forall h', valid_oid h' = true -> lower h' = lower h ->
     get_user_categories h' (store_registration h c db) = Some (cz_categories c)) /\
  (get_user_categories h db = None <->
   match u.(u_ai) with AIListV _ | AIOtherV => True | _ => False end).
Proof.
  pose proof (LabelGrowth.find_user_id h u db Hu) as Hid.
  split.
  - intros h' Hv' Hl. unfold get_user_categories; cbn [object_id]; rewrite Hv'; cbv beta iota.
    unfold store_registration.
    pose proof (RecategorizeExtra.find_user_set_ai h
      (AIDictV {| ai_cats := Some (cz_categories c); ai_scores := Some (cz_scores c);
                  ai_last := None; ai_type := Some "registration" |}) db u Hu) as Hs.
    rewrite (SearchRecatExtra.set_ai_same_oid (u_id u) h _ _ Hid) in Hs.
    unfold find_user in *. rewrite (LabelGrowth.find_oid_ext h' h _ Hl). rewrite Hs. reflexivity.
  - unfold get_user_categories; cbn [object_id]; rewrite Hv; cbv beta iota.
    rewrite Hu. destruct (u_ai u); split; intros H; try discriminate; try contradiction;
      exact I || reflexivity.
Qed.

End AccountsExtra.

(* ------------------------------------------------------------------ *)
(** ** [_calculate_relevance_score] and the views [get_personalized_ads]
    records *)

Module MatcherExtra.
Import Py Store Matcher ContainerFacts.

Lemma dedup_NoDup (l : list string) : NoDup (dedup l).
Proof.
  induction l as [| x l IH]; simpl; [constructor |].
  destruct (elem x l) eqn:E; [exact IH |].
  constructor; [rewrite LabelGrowth.dedup_In; apply not_In_of_elem, E | exact IH].
Qed.

Lemma filter_elem_nil (l : list string) : filter (fun t => elem t []) l = [].
Proof. induction l as [| x l IH]; simpl; [reflexivity | exact IH]. Qed.

(** The category term is added to whatever the other rules give. *)
Lemma raw_score_split (now : Z) (p : Product) (cats : list string) (isc : dict Z)
    (age : option Z) (loc uid : option string) (clicks views : list AdLog) :
  raw_score now p cats isc age loc uid clicks views =
  Z.of_nat (length (dedup (filter (fun t => elem t cats)
                              (match p.(p_targets) with FVal l => l | _ => [] end)))) * 10
  + raw_score now p [] isc age loc uid clicks views.
Proof.
  unfold raw_score; cbv zeta. rewrite filter_elem_nil. cbn [dedup length Z.of_nat].
  generalize (Z.of_nat (length (dedup (filter (fun t => elem t cats)
                              (match p.(p_targets) with FVal l => l | _ => [] end))))).
  intros m.
  repeat match goal with
         | |- context [if ?b then _ else _] => destruct b
         | |- context [match ?x with Some _ => _ | None => _ end] => destruct x
         | |- context [match ?x with FAbsent => _ | FNull => _ | FVal _ => _ end] => destruct x
         | |- context [match ?x with ARMissing => _ | ARDict _ _ => _ | AROther => _ end] =>
             destruct x
         end; lia.
Qed.

Lemma dedup_filter_incl (c1 c2 ts : list string) :
  incl c1 c2 ->
  (length (dedup (filter (fun t => elem t c1) ts)) <=
   length (dedup (filter (fun t => elem t c2) ts)))%nat.
Proof.
  intros Hinc. apply NoDup_incl_length; [apply dedup_NoDup |].
  intros x Hx. rewrite LabelGrowth.dedup_In, filter_In in *.
  destruct Hx as [Ht He]. split; [exact Ht |].
  apply LabelGrowth.elem_In, Hinc, LabelGrowth.elem_In, He.
Qed.

(** Extra X20: before the clamp at 0, a product scores 10 points for each
    distinct target category the user holds on top of what every other
    rule gives, so a user holding more categories never gets a lower
    relevance score. *)
Theorem relevance_category_term (now : Z) (p : Product) (isc : dict Z) (age : option Z)
    (loc uid : option string) (clicks views : list AdLog) :
  (forall cats, raw_score now p cats isc age loc uid clicks views =
     10 * Z.of_nat (length (dedup (filter (fun t => elem t cats)
                                   (match p.(p_targets) with FVal l => l | _ => [] end))))
     + raw_score now p [] isc age loc uid clicks views) /\
  (forall c1 c2, incl c1 c2 ->
     calculate_relevance_score now p c1 isc age loc uid clicks views <=
     calculate_relevance_score now p c2 isc age loc uid clicks views).
Proof.
  split.
  - intros cats. rewrite raw_score_split. lia.
  - intros c1 c2 Hinc. unfold calculate_relevance_score.
    apply Z.max_le_compat_r. rewrite (raw_score_split _ _ c1), (raw_score_split _ _ c2).
    pose proof (dedup_filter_incl c1 c2 (match p.(p_targets) with FVal l => l | _ => [] end) Hinc).
    lia.
Qed.

Lemma dget_In_snd {V} (d : dict V) (k : string) (v : V) :
  dget d k = Some v -> In v (map snd d).
Proof.
  induction d as [| [k' v'] d IH]; simpl; [discriminate |].
  destruct (String.eqb k k'); [intros [= ->]; left; reflexivity | intros H; right; auto].
Qed.

(** Extra X21: of the interest scores in a search pattern, the relevance
    score reads only those of education, technology, transport and
    property; the scores of health, business, employment and immigration
    never change it. *)
Theorem relevance_reads_four_interests (now : Z) (p : Product) (cats : list string)
    (isc1 isc2 : dict Z) (age : option Z) (loc uid : option string) (clicks views : list AdLog)
    (H : forall k, In k ["education"; "technology"; "transport"; "property"] ->
                   dget_or isc1 k 0 = dget_or isc2 k 0) :
  calculate_relevance_score now p cats isc1 age loc uid clicks views =
  calculate_relevance_score now p cats isc2 age loc uid clicks views.
Proof.
  unfold calculate_relevance_score, raw_score; cbv zeta.
  destruct (dget category_interest_map _) as [ri |] eqn:E; [| reflexivity].
  assert (Hri : In ri ["education"; "technology"; "transport"; "property"]).
  { apply dget_In_snd in E. simpl in E.
    repeat destruct E as [<- | E]; try contradiction; simpl; tauto. }
  rewrite (H ri Hri). reflexivity.
Qed.

Lemma views_fold (pids : list string) (ps : list Product) :
  fold_left (fun ps pid =>
               map (fun p => if String.eqb p.(p_id) pid
                             then {| p_id := p.(p_id); p_status := p.(p_status);
                                     p_stock := p.(p_stock); p_targets := p.(p_targets);
                                     p_category := p.(p_category);
                                     p_age_range := p.(p_age_range);
                                     p_target_locations := p.(p_target_locations);
                                     p_created_at := p.(p_created_at);
                                     p_views := p.(p_views) + 1;
                                     p_clicks := p.(p_clicks) |}
                             else p) ps) pids ps =
  map (fun p => {| p_id := p.(p_id); p_status := p.(p_status);
                   p_stock := p.(p_stock); p_targets := p.(p_targets);
                   p_category := p.(p_category); p_age_range := p.(p_age_range);
                   p_target_locations := p.(p_target_locations);
                   p_created_at := p.(p_created_at);
                   p_views := p.(p_views) +
                     Z.of_nat (length (filter (fun pid => String.eqb p.(p_id) pid) pids));
                   p_clicks := p.(p_clicks) |}) ps.
Proof.
  revert ps; induction pids as [| pid pids IH]; intros ps; simpl.
  - rewrite <- (map_id ps) at 1. apply map_ext. intros []; cbn. f_equal; lia.
  - rewrite IH, map_map. apply map_ext. intros p.
    destruct (String.eqb (p_id p) pid) eqn:E; cbn [p_id p_views p_status p_stock p_targets
      p_category p_age_range p_target_locations p_created_at p_clicks length];
      f_equal; lia.
Qed.

Lemma track_ad_views_store (now : Z) (uid : option string) (pids : list string) (db : DB) :
  let db' := track_ad_views now uid pids db in
  users db' = users db /\ search_history db' = search_history db /\
  search_patterns db' = search_patterns db /\ ad_clicks db' = ad_clicks db /\
  ad_views db' = ad_views db ++ map (fun pid => {| al_user := uid; al_product := STR pid;
                                                   al_ts := now |}) pids /\
  products db' =
    map (fun p => {| p_id := p.(p_id); p_status := p.(p_status);
                     p_stock := p.(p_stock); p_targets := p.(p_targets);
                     p_category := p.(p_category); p_age_range := p.(p_age_range);
                     p_target_locations := p.(p_target_locations);
                     p_created_at := p.(p_created_at);
                     p_views := p.(p_views) +
                       Z.of_nat (length (filter (fun pid => String.eqb p.(p_id) pid) pids));
                   p_clicks := p.(p_clicks) |})
        (products db).
Proof.
  cbv zeta. unfold track_ad_views. destruct pids as [| pid pids].
  - repeat split; [rewrite app_nil_r; reflexivity |].
    rewrite <- views_fold. reflexivity.
  - repeat split. rewrite <- views_fold. reflexivity.
Qed.

(** Extra X22: when [get_personalized_ads] ranks for a stored user (found
    whatever the case of the id's hex digits) and every candidate can be
    scored, it logs one view at [now] for each ad it returns and raises each
    product's [views] counter by the number of returned ads carrying its id;
    the users, the search log, the patterns and the clicks are untouched.
    When it falls back to the default ads, for an invalid or fresh id, an
    unknown user, or a stored user for whom scoring raises on some candidate
    (a null category, for instance), it writes nothing. *)
Theorem personalized_ads_view_log (now : Z) (uid : option string) (limit : Z)
    (shuffle : list Product -> list Product) (db : DB) :
  let r := get_personalized_ads now uid limit shuffle db in
  ((forall h u, uid = Some h -> valid_oid h = true -> find_user (Some h) db = Some u ->
    (forall p, In p (active_products db) -> score_raises p u.(u_location) = false) ->
    users (snd r) = users db /\ search_history (snd r) = search_history db /\
    search_patterns (snd r) = search_patterns db /\ ad_clicks (snd r) = ad_clicks db /\
    ad_views (snd r) = ad_views db ++
      map (fun a => {| al_user := uid; al_product := STR a.(ad_product_id); al_ts := now |})
          (fst r) /\
    products (snd r) =
      map (fun p => {| p_id := p.(p_id); p_status := p.(p_status);
                       p_stock := p.(p_stock); p_targets := p.(p_targets);
                       p_category := p.(p_category); p_age_range := p.(p_age_range);
                       p_target_locations := p.(p_target_locations);
                       p_created_at := p.(p_created_at);
                       p_views := p.(p_views) +
                         Z.of_nat (length (filter (fun a => String.eqb p.(p_id) a.(ad_product_id))
                                                  (fst r)));
                       p_clicks := p.(p_clicks) |})
          (products db)) /\
   (match object_id uid with
    | Some (Some h) =>
        forall u, find_user (Some h) db = Some u ->
        exists p, In p (active_products db) /\ score_raises p u.(u_location) = true
    | _ => True
    end ->
    r = (get_default_ads limit shuffle db, db))).
Proof.
  cbv zeta. split.
  - intros h u -> Hv Hu Hs. unfold get_personalized_ads. cbn [object_id]. rewrite Hv.
    cbv beta iota. rewrite Hu. cbv beta iota zeta.
    rewrite (MatcherFacts.existsb_false_forall _ _ Hs). cbn [fst snd].
    match goal with |- context [track_ad_views now ?w ?ps db] =>
      destruct (track_ad_views_store now w ps db) as [E1 [E2 [E3 [E4 [E5 E6]]]]] end.
    rewrite E1, E2, E3, E4, E5, E6. repeat split.
    + rewrite !map_map. reflexivity.
    + apply map_ext. intros p. do 2 f_equal. rewrite !filter_length_map. reflexivity.
  - unfold get_personalized_ads.
    destruct (object_id uid) as [[h |] |]; intros H; try reflexivity.
    destruct (find_user (Some h) db) as [u |]; [| reflexivity].
    destruct (H u eq_refl) as [p [Hp Hr]].
    assert (E : existsb (fun product => score_raises product (u_location u))
                        (active_products db) = true)
      by (apply existsb_exists; exists p; split; assumption).
    rewrite E. reflexivity.
Qed.


End MatcherExtra.

(* ------------------------------------------------------------------ *)
(** ** Ad clicks, the click endpoint and the ad statistics *)

Module AdStatsExtra.
Import Py Store Tracker Matcher AdStats ContainerFacts.

Lemma count_product_snoc (pid : BsonId) (l : list AdLog) (e : AdLog) :
  count_product pid (l ++ [e]) =
  count_product pid l + (if bson_eqb e.(al_product) pid then 1 else 0).
Proof.
  unfold count_product. rewrite filter_app, length_app, Nat2Z.inj_add.
  cbn [filter]. destruct (bson_eqb (al_product e) pid); reflexivity.
Qed.

Lemma track_ad_click_db (now : Z) (uid : option string) (pid : string) (db : DB) :
  cr_db (track_ad_click now uid pid db) =
  {| users := db.(users); search_history := db.(search_history);
     search_patterns := db.(search_patterns);
     products := if valid_oid pid then inc_clicks pid db.(products) else db.(products);
     ad_clicks := db.(ad_clicks) ++ [{| al_user := uid; al_product := STR pid; al_ts := now |}];
     ad_views := db.(ad_views) |}.
Proof. unfold track_ad_click. cbn [object_id]. destruct (valid_oid pid); reflexivity. Qed.

Lemma update_first_nth {A} (P : A -> bool) (f : A -> A) (l : list A) (i : nat) (x : A) :
  nth_error l i = Some x ->
  nth_error (Profiles.update_first P f l) i =
  Some (if P x && forallb (fun y => negb (P y)) (firstn i l) then f x else x).
Proof.
  revert i; induction l as [| y l IH]; intros [| i] Hx; cbn in Hx; try discriminate.
  - injection Hx as ->. cbn. destruct (P x); reflexivity.
  - cbn [Profiles.update_first firstn forallb]. destruct (P y) eqn:Py; cbn [nth_error negb].
    + rewrite Hx. destruct (P x); reflexivity.
    + rewrite (IH i Hx). reflexivity.
Qed.

Lemma inc_clicks_ids (h : string) (ps : list Product) :
  map p_id (inc_clicks h ps) = map p_id ps.
Proof. unfold inc_clicks. apply HistoryExtra.update_first_map. intros; reflexivity. Qed.

Lemma existsb_same_ids (g : string -> bool) (l1 l2 : list Product) :
  map p_id l1 = map p_id l2 ->
  existsb (fun p => g (p_id p)) l1 = existsb (fun p => g (p_id p)) l2.
Proof.
  revert l2; induction l1 as [| x l1 IH]; intros [| y l2] E; cbn in E; try discriminate;
    [reflexivity |].
  injection E as E1 E2. cbn. rewrite E1, (IH l2 E2). reflexivity.
Qed.

(** Extra X23: [track_ad_click] logs the click whether or not the product id
    is a valid ObjectId, and returns [True] exactly when it is; the
    product's total and 7-day click counts in [get_ad_performance] each
    go up by one, and its view count stays as it was.  In the products, the
    [$inc] raises the [clicks] field of the first product whose id is that
    ObjectId (whatever the case of its hex digits) by one when the id is
    valid, and changes nothing else; the users stay as they were. *)
Theorem ad_click_counted (now : Z) (uid : option string) (pid : string) (db : DB) :
  let r := track_ad_click now uid pid db in
  let before := get_ad_performance now pid db in
  let after := get_ad_performance now pid (cr_db r) in
  cr_ok r = valid_oid pid /\
  pf_total_clicks after = pf_total_clicks before + 1 /\
  pf_recent_clicks_7d after = pf_recent_clicks_7d before + 1 /\
  pf_total_views after = pf_total_views before /\
  length (products (cr_db r)) = length (products db) /\
  (forall i p, nth_error (products db) i = Some p ->
     nth_error (products (cr_db r)) i =
     Some {| p_id := p.(p_id); p_status := p.(p_status); p_stock := p.(p_stock);
             p_targets := p.(p_targets); p_category := p.(p_category);
             p_age_range := p.(p_age_range); p_target_locations := p.(p_target_locations);
             p_created_at := p.(p_created_at); p_views := p.(p_views);
             p_clicks := p.(p_clicks) +
               (if valid_oid pid && oid_eqb p.(p_id) pid
                   && forallb (fun q => negb (oid_eqb q.(p_id) pid)) (firstn i (products db))
                then 1 else 0) |}) /\
  users (cr_db r) = users db.
Proof.
  cbv zeta. rewrite track_ad_click_db.
  split; [unfold track_ad_click; cbn [object_id]; destruct (valid_oid pid); reflexivity |].
  unfold get_ad_performance; cbn [ad_clicks ad_views products users
    pf_total_clicks pf_recent_clicks_7d pf_total_views].
  rewrite count_product_snoc. cbn [al_product bson_eqb]. rewrite String.eqb_refl.
  split; [reflexivity |]. split.
  { rewrite filter_app, length_app, Nat2Z.inj_add. cbn [filter al_product al_ts bson_eqb].
    rewrite String.eqb_refl.
    replace (now - 7 * 86400 <=? now) with true by (symmetry; apply Z.leb_le; lia).
    reflexivity. }
  split; [reflexivity |]. split; [| split; [| reflexivity]].
  - destruct (valid_oid pid); [| reflexivity].
    rewrite <- (length_map p_id (inc_clicks pid _)), inc_clicks_ids, length_map. reflexivity.
  - intros i p Hp. destruct (valid_oid pid); cbn [andb].
    + unfold inc_clicks. rewrite (update_first_nth _ _ _ i p Hp).
      destruct (oid_eqb (p_id p) pid && _); [reflexivity |].
      destruct p; cbn. rewrite Z.add_0_r. reflexivity.
    + rewrite Hp. destruct p; cbn. rewrite Z.add_0_r. reflexivity.
Qed.

(** Extra X24: [POST /api/ads/click] answers 400 without a non-empty [ad_id].
    Otherwise it logs the click first, when the session has a user;
    then it answers 500 for an id that is not a valid ObjectId, 200 when
    some product's id is that ObjectId, and 404 when none is. *)
Theorem api_ad_click_status (now : Z) (su : option string) (a : string) (db : DB) :
  api_ad_click now su None db = (400, db) /\
  api_ad_click now su (Some "") db = (400, db) /\
  (a <> "" ->
   let r := api_ad_click now su (Some a) db in
   snd r = (if truthy_str su then cr_db (track_ad_click now su a db) else db) /\
   (valid_oid a = false -> fst r = 500) /\
   (valid_oid a = true ->
    (fst r = 200 <-> exists p, In p db.(products) /\ lower p.(p_id) = lower a) /\
    (fst r = 200 \/ fst r = 404))).
Proof.
  split; [reflexivity |]. split; [reflexivity |].
  intros Ha. cbv zeta. unfold api_ad_click. cbn [truthy_str].
  destruct (String.eqb a "") eqn:E; [apply String.eqb_eq in E; contradiction |].
  cbn [negb]. cbv iota zeta.
  set (db1 := if truthy_str su then cr_db (track_ad_click now su a db) else db).
  assert (Hp : map p_id (products db1) = map p_id (products db))
    by (unfold db1; destruct (truthy_str su); [rewrite track_ad_click_db |]; cbn [products];
        [destruct (valid_oid a); [apply inc_clicks_ids |] |]; reflexivity).
  cbn [object_id]. destruct (valid_oid a).
  - destruct (existsb _ (products db1)) eqn:Ex; cbn [fst snd];
      (split; [reflexivity |]); (split; [intros; discriminate |]); intros _;
      (split; [| tauto]);
      rewrite (existsb_same_ids (fun i => String.eqb (lower i) (lower a)) _ _ Hp) in Ex.
    + split; [intros _ | reflexivity].
      apply existsb_exists in Ex as [p [Hin Hp']]. apply String.eqb_eq in Hp'.
      exists p; split; assumption.
    + split; [discriminate |]. intros [p [Hin Hp']].
      assert (Hx : existsb (fun p => String.eqb (lower (p_id p)) (lower a)) (products db) = true)
        by (apply existsb_exists; exists p; split; [exact Hin | apply String.eqb_eq, Hp']).
      congruence.
  - cbn [fst snd]. split; [reflexivity |]. split; [reflexivity | discriminate].
Qed.

Lemma nub_opt_length (l : list (option string)) : (length (nub_opt l) <= length l)%nat.
Proof.
  induction l as [| x l IH]; simpl; [lia |].
  destruct (existsb (opt_str_eqb x) l); simpl; lia.
Qed.

Lemma nub_opt_nonempty (l : list (option string)) : l <> [] -> nub_opt l <> [].
Proof.
  induction l as [| x l IH]; intros H; [contradiction |]. simpl.
  destruct (existsb (opt_str_eqb x) l) eqn:E; [| discriminate].
  apply IH. intros ->. discriminate.
Qed.

Lemma filter_andb_length {A} (f g : A -> bool) (l : list A) :
  (length (filter (fun x => f x && g x) l) <= length (filter f l))%nat.
Proof.
  induction l as [| x l IH]; simpl; [lia |].
  destruct (f x), (g x); simpl; lia.
Qed.

(** Extra X25: in [get_ad_performance], the unique clickers and the 7-day
    clicks never exceed the total clicks, there is a unique clicker as soon
    as there is a click, the CTR is 0 without views and otherwise
    [clicks * 100 / views] exactly. *)
Theorem ad_performance_bounds (now : Z) (pid : string) (db : DB) :
  let pf := get_ad_performance now pid db in
  0 <= pf_unique_clickers pf <= pf_total_clicks pf /\
  0 <= pf_recent_clicks_7d pf <= pf_total_clicks pf /\
  (0 < pf_total_clicks pf -> 0 < pf_unique_clickers pf) /\
  (pf_total_views pf = 0 -> pf_ctr pf == 0) /\
  (0 < pf_total_views pf ->
   pf_ctr pf * inject_Z (pf_total_views pf) == inject_Z (100 * pf_total_clicks pf)).
Proof.
  cbv zeta. unfold get_ad_performance, count_product.
  cbn [pf_unique_clickers pf_total_clicks pf_recent_clicks_7d pf_total_views pf_ctr].
  set (cl := filter (fun e => bson_eqb (al_product e) (STR pid)) (ad_clicks db)).
  set (v := Z.of_nat (length (filter (fun e => bson_eqb (al_product e) (STR pid)) (ad_views db)))).
  pose proof (nub_opt_length (map al_user cl)) as H1. rewrite length_map in H1.
  pose proof (filter_andb_length (fun e => bson_eqb (al_product e) (STR pid))
                (fun e => now - 7 * 86400 <=? al_ts e) (ad_clicks db)) as H2.
  cbv beta in H2. fold cl in H2.
  split; [lia |]. split; [lia |]. split.
  - intros Hc. destruct (nub_opt (map al_user cl)) eqn:E; [| simpl; lia].
    exfalso. revert E. apply nub_opt_nonempty. destruct cl; [simpl in Hc; lia | discriminate].
  - split.
    + intros ->. reflexivity.
    + intros Hv. destruct (Z.ltb_spec 0 v); [| lia].
      unfold Qeq, Qmult, inject_Z; cbn [Qnum Qden].
      rewrite Pos.mul_1_r, Z2Pos.id by exact Hv. ring.
Qed.

Lemma update_search_patterns_logs (now : Z) (uid : option string) (db : DB) :
  ad_clicks (update_search_patterns now uid db) = ad_clicks db /\
  ad_views (update_search_patterns now uid db) = ad_views db.
Proof. unfold update_search_patterns. destruct (recent_searches now uid db); split; reflexivity. Qed.

(** Every logged [product_id] is a string. *)
Lemma run_ad_op_str_logs (o : AdOp) (db : DB) :
  Forall (fun e => exists s, al_product e = STR s) db.(ad_clicks) ->
  Forall (fun e => exists s, al_product e = STR s) db.(ad_views) ->
  Forall (fun e => exists s, al_product e = STR s) (run_ad_op o db).(ad_clicks) /\
  Forall (fun e => exists s, al_product e = STR s) (run_ad_op o db).(ad_views).
Proof.
  intros Hc Hv. destruct o as [now uid pid | now uid limit shuffle | now uid q c]; cbn [run_ad_op].
  - rewrite track_ad_click_db. cbn [ad_clicks ad_views]. split; [| exact Hv].
    apply Forall_app; split; [exact Hc |]. constructor; [eexists; reflexivity | constructor].
  - unfold get_personalized_ads.
    destruct (object_id uid) as [oid |]; [| split; assumption].
    destruct (find_user oid db) as [u |]; [| split; assumption].
    cbv zeta. destruct (existsb _ _); [split; assumption |]. cbn [snd].
    match goal with |- context [track_ad_views now uid ?ps db] =>
      destruct (MatcherExtra.track_ad_views_store now uid ps db) as [_ [_ [_ [E4 [E5 _]]]]] end.
    rewrite E4, E5. split; [exact Hc |].
    apply Forall_app; split; [exact Hv |].
    apply Forall_forall. intros e He. apply in_map_iff in He as [pid [<- _]].
    eexists; reflexivity.
  - unfold track_search. cbv zeta.
    set (db1 := {| users := users db; search_history := _; search_patterns := _;
                   products := _; ad_clicks := ad_clicks db; ad_views := ad_views db |}).
    destruct (update_search_patterns_logs now uid db1) as [U1 U2].
    destruct (recategorize_user now uid (update_search_patterns now uid db1)) as [d3 |] eqn:R;
      cbn [res_db].
    + apply TrackerExtra.recategorize_user_keeps in R as [_ [_ [_ [R4 R5]]]].
      rewrite R4, R5, U1, U2. split; assumption.
    + rewrite U1, U2. split; assumption.
Qed.

Lemma count_oid_str_logs (h : string) (l : list AdLog) :
  Forall (fun e => exists s, al_product e = STR s) l -> count_product (OID h) l = 0.
Proof.
  unfold count_product. induction 1 as [| e l [s Hs] _ IH]; [reflexivity |].
  cbn [filter]. rewrite Hs. cbn [bson_eqb]. exact IH.
Qed.

(** Extra X26: as long as every logged click and view carries its product id
    as a string, which is how [track_ad_click], [get_personalized_ads] and
    [track_search] write them, [get_top_performing_ads] returns no ad: its
    [$lookup] matches the ObjectId [_id] against string ids, so no product
    reaches 10 views.  Every sequence of these calls keeps that shape. *)
Theorem top_ads_never_ranked (limit : Z) (os : list AdOp) (db : DB)
    (Hc : Forall (fun e => exists s, al_product e = STR s) db.(ad_clicks))
    (Hv : Forall (fun e => exists s, al_product e = STR s) db.(ad_views)) :
  get_top_performing_ads limit (run_ad_ops os db) = [] /\
  Forall (fun e => exists s, al_product e = STR s) (run_ad_ops os db).(ad_clicks) /\
  Forall (fun e => exists s, al_product e = STR s) (run_ad_ops os db).(ad_views).
Proof.
  assert (Hinv : Forall (fun e => exists s, al_product e = STR s) (run_ad_ops os db).(ad_clicks) /\
                 Forall (fun e => exists s, al_product e = STR s) (run_ad_ops os db).(ad_views)).
  { revert db Hc Hv; induction os as [| o os IH]; intros db Hc Hv; cbn [run_ad_ops];
      [split; assumption |].
    destruct (run_ad_op_str_logs o db Hc Hv) as [Hc' Hv']. apply IH; assumption. }
  split; [| exact Hinv].
  destruct Hinv as [_ Hv']. set (d := run_ad_ops os db) in *.
  unfold get_top_performing_ads. destruct (limit <=? 0); [reflexivity |].
  assert (Hf : forall ps, filter (fun r => 10 <=? tr_views r) (map (top_row d) ps) = []).
  { induction ps as [| p ps IH]; [reflexivity |]. cbn [map filter].
    unfold top_row at 1. cbn [tr_views]. rewrite (count_oid_str_logs _ _ Hv').
    exact IH. }
  rewrite Hf. unfold sort_by. cbn [fold_left]. rewrite firstn_nil. reflexivity.
Qed.

Lemma insert_by_HdRel {A} (lt : A -> A -> bool) (R : A -> A -> Prop)
    (Hf : forall x y, lt y x = false -> R y x) (x y : A) (l : list A) :
  HdRel R y l -> R y x -> HdRel R y (insert_by lt x l).
Proof.
  destruct l as [| z l]; simpl; intros H Hyx; [constructor; exact Hyx |].
  destruct (lt z x); constructor; [exact Hyx | inversion H; assumption].
Qed.

Lemma insert_by_sorted {A} (lt : A -> A -> bool) (R : A -> A -> Prop)
    (Hf : forall x y, lt y x = false -> R y x) (Ht : forall x y, lt y x = true -> R x y)
    (x : A) (l : list A) :
  Sorted R l -> Sorted R (insert_by lt x l).
Proof.
  induction l as [| y l IH]; intros H; simpl; [repeat constructor |].
  destruct (lt y x) eqn:E.
  - constructor; [exact H | constructor; apply Ht, E].
  - apply Sorted_inv in H as [H1 H2]. constructor; [apply IH, H1 |].
    apply insert_by_HdRel; [exact Hf | exact H2 | apply Hf, E].
Qed.

Lemma sort_by_sorted {A} (lt : A -> A -> bool) (R : A -> A -> Prop)
    (Hf : forall x y, lt y x = false -> R y x) (Ht : forall x y, lt y x = true -> R x y)
    (l : list A) :
  Sorted R (sort_by lt l).
Proof.
  unfold sort_by. assert (H : Sorted R (@nil A)) by constructor. revert H.
  generalize (@nil A). induction l as [| x l IH]; intros acc H; simpl; [exact H |].
  apply IH, insert_by_sorted; assumption.
Qed.

Lemma sort_by_In {A} (lt : A -> A -> bool) (l : list A) (z : A) :
  In z (sort_by lt l) -> In z l.
Proof.
  unfold sort_by.
  assert (Hins : forall x acc, In z (insert_by lt x acc) -> x = z \/ In z acc).
  { intros x acc; induction acc as [| y acc IH]; simpl; [tauto |].
    destruct (lt y x); simpl; [tauto |]. intros [H | H]; [tauto |]. apply IH in H; tauto. }
  assert (H : forall acc, In z (fold_left (fun acc x => insert_by lt x acc) l acc) ->
                          In z acc \/ In z l).
  { induction l as [| x l IH]; intros acc H; simpl; [tauto |].
    apply IH in H as [H | H]; [apply Hins in H |]; tauto. }
  intros Hz. apply H in Hz as [[] | Hz]. exact Hz.
Qed.

(** Extra X27: [get_top_performing_ads] returns at most [limit] ads and none
    for a [limit] that is not positive, in order of CTR, descending; each
    one is an approved product with at least 10 views, and its view and
    click counts are those of the logs whose [product_id] equals its
    ObjectId [_id]. *)
Theorem top_ads_ranking (limit : Z) (db : DB) :
  let r := get_top_performing_ads limit db in
  (limit <= 0 -> r = []) /\
  (length r <= Z.to_nat limit)%nat /\
  Sorted (fun a b => (ta_ctr b <= ta_ctr a)%Q) r /\
  (forall t, In t r -> exists p, In p db.(products) /\ p_status p = "approved" /\
     ta_product_id t = p_id p /\
     ta_views t = count_product (OID (p_id p)) db.(ad_views) /\
     ta_clicks t = count_product (OID (p_id p)) db.(ad_clicks) /\ 10 <= ta_views t).
Proof.
  cbv zeta. unfold get_top_performing_ads.
  destruct (Z.leb_spec limit 0) as [Hl | Hl].
  { split; [reflexivity |]. split; [simpl; lia |]. split; [constructor | intros t []]. }
  split; [lia |]. split.
  { rewrite length_map, length_firstn. apply Nat.le_min_l. }
  split.
  - eapply sorted_map; [| apply firstn_sorted, sort_by_sorted].
    + intros a b H. exact H.
    + intros x y E. apply negb_false_iff, Qle_bool_iff in E. exact E.
    + intros x y E. apply negb_true_iff in E.
      cbv beta; cbn [ta_ctr]. apply Qlt_le_weak, Qnot_le_lt. intros H.
      apply Qle_bool_iff in H. congruence.
  - intros t Ht. apply in_map_iff in Ht as [rw [<- Hr]].
    apply MatcherFacts.firstn_In_incl, sort_by_In, filter_In in Hr as [Hr Hv].
    apply in_map_iff in Hr as [p [<- Hp]]. apply filter_In in Hp as [Hp Hs].
    apply String.eqb_eq in Hs. apply Z.leb_le in Hv.
    exists p. cbn [ta_product_id ta_views ta_clicks tr_product tr_views tr_clicks top_row] in *.
    repeat split; assumption.
Qed.

End AdStatsExtra.

(* ------------------------------------------------------------------ *)
(** ** The extra statements at concrete inputs *)

Module ExtraWitnesses.
Import Py Registration Store Tracker SearchRecategorize Passes Matcher Fixtures
       Accounts Profiles AdStats ExtraFixtures.

Lemma registration_it_substring_witness :
  writer.(ud_job) = Some "Writer" /\ contains "it" (lower "Writer") = true /\
  In "tech_professional" (cz_categories (categorize_user_on_registration writer)).
Proof.
  assert (H1 : writer.(ud_job) = Some "Writer") by reflexivity.
  assert (H2 : contains "it" (lower "Writer") = true) by (vm_compute; reflexivity).
  split; [exact H1 | split; [exact H2 |]].
  exact (RegistrationExtra.registration_it_substring writer "Writer" H1 H2).
Defined.

Lemma search_frequency_monotone_witness :
  10 <= 20 /\
  Vocab.frequency_rank (calculate_search_frequency_days 10 30) <=
  Vocab.frequency_rank (calculate_search_frequency_days 20 30).
Proof.
  assert (H : 10 <= 20) by lia.
  split; [exact H | exact (TrackerExtra.search_frequency_monotone 10 20 30 H)].
Defined.

Lemma update_search_patterns_frame_witness :
  NoDup (map pat_user (search_patterns searched_db)) /\ Some uid_b <> Some uid_a /\
  find_pattern (Some uid_b) (update_search_patterns 10 (Some uid_a) searched_db) =
  find_pattern (Some uid_b) searched_db.
Proof.
  assert (Hu : NoDup (map pat_user (search_patterns searched_db)))
    by (vm_compute; constructor; [intros [] | constructor]).
  assert (Ho : Some uid_b <> Some uid_a) by (vm_compute; discriminate).
  split; [exact Hu | split; [exact Ho |]].
  exact (proj1 (proj2 (TrackerExtra.update_search_patterns_frame 10 (Some uid_a) (Some uid_b)
                         searched_db Hu Ho))).
Defined.

Lemma recategorize_user_labels_witness :
  find_pattern (Some uid_a) searched_db =
    Some (build_pattern 0 (Some uid_a) [course_search; course_search]) /\
  valid_oid uid_a = true /\ find_user (Some uid_a) searched_db = Some dict_user /\
  exists db', recategorize_user 10 (Some uid_a) searched_db = Some db'.
Proof.
  assert (Hp : find_pattern (Some uid_a) searched_db =
               Some (build_pattern 0 (Some uid_a) [course_search; course_search]))
    by (vm_compute; reflexivity).
  assert (Hv : valid_oid uid_a = true) by (vm_compute; reflexivity).
  assert (Hu : find_user (Some uid_a) searched_db = Some dict_user) by (vm_compute; reflexivity).
  split; [exact Hp | split; [exact Hv | split; [exact Hu |]]].
  destruct (RecategorizeExtra.recategorize_user_labels 10 uid_a searched_db dict_user _ Hp Hv Hu)
    as [db' [E _]].
  exists db'; exact E.
Defined.

Lemma track_search_bad_id_raises_witness :
  String.length "u1" <> 24%nat /\
  exists db2, track_search 10 (Some "u1") "passport" None demo_db = Raised db2.
Proof.
  assert (H : String.length "u1" <> 24%nat) by (simpl; lia).
  split; [exact H |].
  destruct (RecategorizeExtra.track_search_bad_id_raises 10 "u1" "passport" None demo_db H)
    as [db2 [E _]].
  exists db2; exact E.
Defined.

Lemma trending_searches_counts_witness :
  (forall d : dict Z, Permutation ((fun d => d) d) d) /\
  exists r, get_trending_searches 10 30 5 (fun d => d) demo_db = Some r /\ (length r <= 5)%nat.
Proof.
  assert (Harr : forall d : dict Z, Permutation ((fun d => d) d) d) by (intros d; apply Permutation_refl).
  split; [exact Harr |].
  assert (H5 : 0 < 5) by lia.
  destruct (proj2 (StatsExtra.trending_searches_counts 10 30 5 (fun d => d) demo_db Harr) H5)
    as [r [E [L _]]].
  exists r; split; [exact E | exact L].
Defined.

Lemma popular_categories_counts_witness :
  (forall d : dict Z, Permutation ((fun d => d) d) d) /\
  dget_or (get_popular_categories 10 30 (fun d => d) demo_db) "immigration" 0 =
  Z.of_nat (length (filter (fun e => opt_str_eqb e.(se_category) (Some "immigration"))
                           (window 10 30 demo_db))).
Proof.
  assert (Harr : forall d : dict Z, Permutation ((fun d => d) d) d) by (intros d; apply Permutation_refl).
  split; [exact Harr |].
  exact (proj1 (proj2 (StatsExtra.popular_categories_counts 10 30 (fun d => d) demo_db Harr))
           "immigration").
Defined.

Lemma search_recat_merge_witness :
  valid_oid uid_a = true /\ find_user (Some uid_a) searched_db = Some dict_user /\
  filter (fun e => opt_str_eqb e.(se_user) (Some uid_a)) searched_db.(search_history) <> [] /\
  exists d, recategorize_based_on_search 10 (Some uid_a) searched_db =
              Some (set_ai uid_a (AIDictV d) searched_db) /\ d.(ai_last) = Some 10.
Proof.
  assert (Hv : valid_oid uid_a = true) by (vm_compute; reflexivity).
  assert (Hu : find_user (Some uid_a) searched_db = Some dict_user) by (vm_compute; reflexivity).
  assert (Hm : filter (fun e => opt_str_eqb e.(se_user) (Some uid_a))
                      searched_db.(search_history) <> []) by (vm_compute; discriminate).
  split; [exact Hv | split; [exact Hu | split; [exact Hm |]]].
  destruct (SearchRecatExtra.search_recat_merge 10 uid_a searched_db dict_user Hv Hu I Hm)
    as [d [s [E [_ [_ [_ [L _]]]]]]].
  exists d; split; [exact E | exact L].
Defined.

Lemma registration_read_back_witness :
  valid_oid uid_a = true /\ find_user (Some uid_a) plain_db = Some user_a /\
  get_user_categories "AAAAAAAAAAAAAAAAAAAAAAAA"
    (store_registration uid_a (categorize_user_on_registration (software_engineer None)) plain_db) =
  Some (cz_categories (categorize_user_on_registration (software_engineer None))).
Proof.
  assert (Hv : valid_oid uid_a = true) by (vm_compute; reflexivity).
  assert (Hu : find_user (Some uid_a) plain_db = Some user_a) by (vm_compute; reflexivity).
  split; [exact Hv | split; [exact Hu |]].
  apply (proj1 (AccountsExtra.registration_read_back uid_a
                  (categorize_user_on_registration (software_engineer None)) plain_db user_a Hv Hu));
    vm_compute; reflexivity.
Defined.

Lemma personalized_ads_view_log_witness :
  get_personalized_ads 0 (Some "BBBBBBBBBBBBBBBBBBBBBBBB") 5 (fun l => l) null_category_db =
  (get_default_ads 5 (fun l => l) null_category_db, null_category_db).
Proof.
  apply (proj2 (MatcherExtra.personalized_ads_view_log 0 (Some "BBBBBBBBBBBBBBBBBBBBBBBB") 5
                  (fun l => l) null_category_db)).
  cbn [object_id].
  replace (valid_oid "BBBBBBBBBBBBBBBBBBBBBBBB") with true by (vm_compute; reflexivity).
  intros u Hu. vm_compute in Hu. injection Hu as <-.
  exists null_category_product. split; [vm_compute; right; left; reflexivity | reflexivity].
Defined.

Lemma relevance_reads_four_interests_witness :
  (forall k, In k ["education"; "technology"; "transport"; "property"] ->
             dget_or [("health", 5)] k 0 = dget_or [] k 0) /\
  calculate_relevance_score 0 targeted_product [] [("health", 5)] None None None [] [] =
  calculate_relevance_score 0 targeted_product [] [] None None None [] [].
Proof.
  assert (H : forall k, In k ["education"; "technology"; "transport"; "property"] ->
                        dget_or [("health", 5)] k 0 = dget_or [] k 0).
  { intros k Hk. simpl in Hk. repeat destruct Hk as [<- | Hk]; try contradiction; reflexivity. }
  split; [exact H |].
  exact (MatcherExtra.relevance_reads_four_interests 0 targeted_product [] _ _ None None None
           [] [] H).
Defined.

Lemma top_ads_never_ranked_witness :
  Forall (fun e => exists s, al_product e = STR s) clicked_db.(ad_clicks) /\
  Forall (fun e => exists s, al_product e = STR s) clicked_db.(ad_views) /\
  get_top_performing_ads 10
    (run_ad_ops [OpClick 5 (Some uid_a) pid_1; OpClick 6 (Some uid_b) pid_2] clicked_db) = [].
Proof.
  assert (Hc : Forall (fun e => exists s, al_product e = STR s) clicked_db.(ad_clicks))
    by (repeat constructor; eexists; reflexivity).
  assert (Hv : Forall (fun e => exists s, al_product e = STR s) clicked_db.(ad_views))
    by constructor.
  split; [exact Hc | split; [exact Hv |]].
  exact (proj1 (AdStatsExtra.top_ads_never_ranked 10
                  [OpClick 5 (Some uid_a) pid_1; OpClick 6 (Some uid_b) pid_2] clicked_db Hc Hv)).
Defined.

End ExtraWitnesses.
